(** * Backtesting engine (backtesting_support.py): a shallow embedding

    The class [BackTesting] of [backtesting_support.py] is embedded method by
    method.  Python values are modelled as follows:

    - [int] as [Z]; [float] (and numpy's [float64]) as Rocq's primitive
      binary64 floats, so that every arithmetic step rounds as it does in the
      interpreter;
    - [str] as [string]; [list] as [list]; a [dict] as an association list in
      insertion order (the code iterates over it);
    - [datetime.date] as a record of year, month and day, with the proleptic
      Gregorian ordinal of the [datetime] module;
    - a raised exception as the [Raise] branch of [res]; [print] as a list
      of output lines;
    - the Eikon provider and the random generator, which the program only
      calls, as oracles passed in as arguments. *)

From Stdlib Require Import ZArith List String Ascii Bool Lia.
From Stdlib Require Import Permutation Sorted.
From Stdlib Require Import PrimFloat.
From Stdlib Require Import SpecFloat FloatOps FloatAxioms.
From Stdlib Require Uint63.
Import ListNotations.
Local Open Scope Z_scope.

(** ** Exceptions and the error monad *)

Inductive exn : Type :=
| ValueError
| IndexError
| OverflowError
| ZeroDivisionError
| UnboundLocalError
| KeyError
| TypeError
| AttributeError
| FileNotFoundError
| ProviderError     (* an exception raised inside the Eikon client *)
| Unmodelled.       (* raised by the model only: the library behaviour at
                       this input lies outside the fragment modelled *)

Inductive res (A : Type) : Type :=
| Ok (a : A)
| Raise (e : exn).
Arguments Ok {A} a.
Arguments Raise {A} e.

Definition bind {A B : Type} (m : res A) (k : A -> res B) : res B :=
  match m with
  | Ok a => k a
  | Raise e => Raise e
  end.

Notation "x <- m ;; k" := (bind m (fun x => k))
  (at level 61, m at next level, right associativity).

(** ** datetime.date *)

Module PyDate.

Record date : Type := mkdate { year : Z; month : Z; day : Z }.

Definition MINYEAR : Z := 1.
Definition MAXYEAR : Z := 9999.

(** [_is_leap] *)
Definition is_leap (y : Z) : bool :=
  (y mod 4 =? 0) && (negb (y mod 100 =? 0) || (y mod 400 =? 0)).

(** [_DAYS_IN_MONTH] *)
Definition DAYS_IN_MONTH (m : Z) : Z :=
  match m with
  | 1 => 31 | 2 => 28 | 3 => 31 | 4 => 30 | 5 => 31 | 6 => 30
  | 7 => 31 | 8 => 31 | 9 => 30 | 10 => 31 | 11 => 30 | 12 => 31
  | _ => -1
  end.

(** [_DAYS_BEFORE_MONTH] *)
Definition DAYS_BEFORE_MONTH (m : Z) : Z :=
  match m with
  | 1 => 0 | 2 => 31 | 3 => 59 | 4 => 90 | 5 => 120 | 6 => 151
  | 7 => 181 | 8 => 212 | 9 => 243 | 10 => 273 | 11 => 304 | 12 => 334
  | _ => -1
  end.

Definition b2z (b : bool) : Z := if b then 1 else 0.

(** [_days_in_month] *)
Definition days_in_month (y m : Z) : Z :=
  if (m =? 2) && is_leap y then 29 else DAYS_IN_MONTH m.

(** [_days_before_year] *)
Definition days_before_year (y : Z) : Z :=
  let y' := y - 1 in
  y' * 365 + y' / 4 - y' / 100 + y' / 400.

(** [_days_before_month] *)
Definition days_before_month (y m : Z) : Z :=
  DAYS_BEFORE_MONTH m + b2z ((2 <? m) && is_leap y).

(** [_check_date_fields], as a boolean *)
Definition check_date_fields (y m d : Z) : bool :=
  (MINYEAR <=? y) && (y <=? MAXYEAR) &&
  (1 <=? m) && (m <=? 12) &&
  (1 <=? d) && (d <=? days_in_month y m).

Definition valid (x : date) : Prop :=
  check_date_fields (year x) (month x) (day x) = true.

(** whether an [int] fits the C [int] that the constructor reads each of
    its arguments into *)
Definition fits_int (x : Z) : bool := (-2147483648 <=? x) && (x <=? 2147483647).

(** [datetime.date(year, month, day)]: OverflowError for an argument that
    does not fit a C [int], ValueError for fields that are no date *)
Definition new (y m d : Z) : res date :=
  if fits_int y && fits_int m && fits_int d then
    if check_date_fields y m d then Ok (mkdate y m d) else Raise ValueError
  else Raise OverflowError.

(** [_ymd2ord] / [date.toordinal] *)
Definition ymd2ord (y m d : Z) : Z :=
  days_before_year y + days_before_month y m + d.

Definition toordinal (x : date) : Z := ymd2ord (year x) (month x) (day x).

Definition DI400Y : Z := 146097.
Definition DI100Y : Z := 36524.
Definition DI4Y : Z := 1461.

(** [_MAXORDINAL]: the ordinal of 9999-12-31 *)
Definition MAXORDINAL : Z := 3652059.

(** [_ord2ymd] *)
Definition ord2ymd (n : Z) : date :=
  let n := n - 1 in
  let n400 := n / DI400Y in
  let n := n mod DI400Y in
  let y := n400 * 400 + 1 in
  let n100 := n / DI100Y in
  let n := n mod DI100Y in
  let n4 := n / DI4Y in
  let n := n mod DI4Y in
  let n1 := n / 365 in
  let n := n mod 365 in
  let y := y + (n100 * 100 + n4 * 4 + n1) in
  if (n1 =? 4) || (n100 =? 4) then mkdate (y - 1) 12 31
  else
    let leapyear := (n1 =? 3) && (negb (n4 =? 24) || (n100 =? 3)) in
    let m := Z.shiftr (n + 50) 5 in
    let preceding := DAYS_BEFORE_MONTH m + b2z ((2 <? m) && leapyear) in
    if n <? preceding then
      let m := m - 1 in
      let preceding :=
        preceding - (DAYS_IN_MONTH m + b2z ((m =? 2) && leapyear)) in
      mkdate y m (n - preceding + 1)
    else mkdate y m (n - preceding + 1).

(** [date.fromordinal] *)
Definition fromordinal (n : Z) : res date :=
  if (1 <=? n) && (n <=? MAXORDINAL) then Ok (ord2ymd n) else Raise ValueError.

(** [date.__add__] with [timedelta(days = n)] *)
Definition add_days (x : date) (n : Z) : res date :=
  let o := toordinal x + n in
  if (0 <? o) && (o <=? MAXORDINAL) then Ok (ord2ymd o) else Raise OverflowError.

(** [(a - b).days] *)
Definition sub_days (a b : date) : Z := toordinal a - toordinal b.

(** [date.__lt__], [date.__le__]: comparison of the (year, month, day) triples *)
Definition ltb (a b : date) : bool :=
  (year a <? year b) ||
  ((year a =? year b) &&
   ((month a <? month b) || ((month a =? month b) && (day a <? day b)))).

Definition leb (a b : date) : bool := negb (ltb b a).

(** [date.replace(year, month, day)] *)
Definition replace (y m d : Z) : res date := new y m d.

End PyDate.

(** ** dateutil.relativedelta, restricted to the [years] and [months] fields
    the program sets (all other fields keep their defaults: zero or [None]) *)

Module RelDelta.
Import PyDate.

Record relativedelta : Type := mkrel { years : Z; months : Z }.

(** [_sign] *)
Definition sign (x : Z) : Z := if x <? 0 then -1 else 1.

(** [relativedelta._fix], the months-to-years carry *)
Definition fix_ (r : relativedelta) : relativedelta :=
  if 11 <? Z.abs (months r) then
    let s := sign (months r) in
    let dv := (months r * s) / 12 in
    let md := (months r * s) mod 12 in
    mkrel (years r + dv * s) (md * s)
  else r.

(** [relativedelta(years = y, months = m)] *)
Definition make (y m : Z) : relativedelta := fix_ (mkrel y m).

(** [calendar.monthrange(year, month)[1]] *)
Definition monthrange_ndays (y m : Z) : Z :=
  DAYS_IN_MONTH m + b2z ((m =? 2) && is_leap y).

(** [relativedelta.__radd__]: [dt + self] for a [datetime.date] *)
Definition radd (dt : date) (r : relativedelta) : res date :=
  let y := year dt + years r in
  let m := month dt in
  let '(y, m) :=
    if months r =? 0 then (y, m)
    else
      let m := m + months r in
      if 12 <? m then (y + 1, m - 12)
      else if m <? 1 then (y - 1, m + 12)
      else (y, m) in
  let d := Z.min (monthrange_ndays y m) (day dt) in
  replaced <- PyDate.replace y m d ;;
  add_days replaced 0.

End RelDelta.

(** ** random.randrange

    The generator's internal state is not modelled: the argument [u] is the
    raw draw, an arbitrary integer, and [randrange stop] reduces it to the
    range.  Every value of [0 .. stop - 1] is the image of some [u], and no
    other value is. *)

Definition randrange (stop : Z) (u : Z) : res Z :=
  if 0 <? stop then Ok (u mod stop) else Raise ValueError.

(** ** str: slicing, [int(...)], and the number formats of [strftime]

    A character is a code point below 256; digits and blanks of other
    scripts are outside the model. *)

Module PyStr.

(** [s[a:b]] for [0 <= a <= b] *)
Definition slice (a b : nat) (s : string) : string := substring a (b - a) s.

Definition is_digit (c : ascii) : bool :=
  let n := Z.of_nat (nat_of_ascii c) in (48 <=? n) && (n <=? 57).

Definition digit_val (c : ascii) : Z := Z.of_nat (nat_of_ascii c) - 48.

Definition digit_char (d : Z) : ascii := ascii_of_nat (Z.to_nat (48 + d)).

(** the blanks that [int] skips at both ends of a [str]: tab, line feed,
    vertical tab, form feed, carriage return and space, and the two blanks
    above 127, next line and no-break space, which it reads as spaces *)
Definition is_space (c : ascii) : bool :=
  let n := Z.of_nat (nat_of_ascii c) in
  ((9 <=? n) && (n <=? 13)) || (n =? 32) || (n =? 133) || (n =? 160).

Fixpoint lstrip (s : string) : string :=
  match s with
  | String c s' => if is_space c then lstrip s' else s
  | EmptyString => s
  end.

(** the characters that remain once trailing blanks are ignored *)
Fixpoint rstrip (s : string) : string :=
  match s with
  | String c s' =>
      match rstrip s' with
      | EmptyString => if is_space c then EmptyString else String c EmptyString
      | r => String c r
      end
  | EmptyString => s
  end.

Definition starts_with_digit (s : string) : bool :=
  match s with
  | String c _ => is_digit c
  | EmptyString => false
  end.

(** the digits of a base-10 literal; one underscore may separate two digits *)
Fixpoint int_digits (acc : Z) (s : string) : res Z :=
  match s with
  | EmptyString => Ok acc
  | String c s' =>
      if is_digit c then int_digits (acc * 10 + digit_val c) s'
      else if Ascii.eqb c "_" then
        if starts_with_digit s' then int_digits acc s' else Raise ValueError
      else Raise ValueError
  end.

(** [int(s)].  The program applies it to slices of at most four
    characters, far below the limit that recent interpreters put on the
    number of digits. *)
Definition int (s : string) : res Z :=
  match rstrip (lstrip s) with
  | String c s' =>
      if Ascii.eqb c "-" then
        if starts_with_digit s' then v <- int_digits 0 s' ;; Ok (- v)
        else Raise ValueError
      else if Ascii.eqb c "+" then
        if starts_with_digit s' then int_digits 0 s' else Raise ValueError
      else if is_digit c then int_digits 0 (String c s')
      else Raise ValueError
  | EmptyString => Raise ValueError
  end.

(** the last [w] decimal digits of [n], most significant first: C's [%0wd]
    for [0 <= n < 10^w] *)
Fixpoint zero_padded (w : nat) (n : Z) (acc : string) : string :=
  match w with
  | O => acc
  | S w' => zero_padded w' (n / 10) (String (digit_char (n mod 10)) acc)
  end.

Fixpoint decimal_aux (fuel : nat) (n : Z) (acc : string) : string :=
  let acc' := String (digit_char (n mod 10)) acc in
  match fuel with
  | O => acc'
  | S f => if n <? 10 then acc' else decimal_aux f (n / 10) acc'
  end.

(** C's [%d] for [n >= 0]; a number has no more decimal than binary digits *)
Definition decimal (n : Z) : string :=
  decimal_aux (Z.to_nat (Z.log2 n)) n EmptyString.

(** [s.isdigit()] on ASCII strings, the empty string included *)
Fixpoint all_digits (s : string) : bool :=
  match s with
  | EmptyString => true
  | String c s' => is_digit c && all_digits s'
  end.

End PyStr.

(** [date.strftime('%Y%m%d')].  The month and the day are two digits
    everywhere.  The year is what the platform's C library prints for [%Y]:
    [Padded] where it is zero-filled to four digits, [Unpadded] where it is
    the plain decimal (glibc). *)

Inductive platform : Type := Padded | Unpadded.

Definition strftime_Ymd (pf : platform) (d : PyDate.date) : string :=
  let y := match pf with
           | Padded => PyStr.zero_padded 4 (PyDate.year d) EmptyString
           | Unpadded => PyStr.decimal (PyDate.year d)
           end in
  (y ++ PyStr.zero_padded 2 (PyDate.month d) EmptyString
     ++ PyStr.zero_padded 2 (PyDate.day d) EmptyString)%string.

(** ** pandas: the part of DataFrame and Series the program uses

    A frame is stored by column.  Two dtypes are modelled: [float64], where
    a missing value is NaN, and [object] columns of strings, where a missing
    value is [None]. *)

Module Pandas.

Inductive label : Type := LInt (z : Z) | LStr (s : string).

Definition label_eqb (a b : label) : bool :=
  match a, b with
  | LInt x, LInt y => x =? y
  | LStr x, LStr y => String.eqb x y
  | _, _ => false
  end.

Inductive column : Type :=
| FloatCol (xs : list float)
| ObjCol (xs : list (option string)).

(** a single cell, as [.values[0]] or [.iloc[r, c]] returns it *)
Inductive value : Type :=
| VFloat (x : float)
| VObj (s : option string).

Record Series : Type := mkSeries { s_index : list label; s_values : column }.

Record DataFrame : Type := mkDF {
  index : list label;
  columns : list (string * column)
}.

(** [pd.DataFrame()] *)
Definition empty : DataFrame := mkDF [] [].

(** [len(df)] *)
Definition len (df : DataFrame) : Z := Z.of_nat (List.length (index df)).

(** [pd.RangeIndex(n)] *)
Definition RangeIndex (n : nat) : list label :=
  map (fun i => LInt (Z.of_nat i)) (seq 0 n).

Definition col_nth (c : column) (k : nat) : option value :=
  match c with
  | FloatCol xs => option_map VFloat (nth_error xs k)
  | ObjCol xs => option_map VObj (nth_error xs k)
  end.

Definition col_firstn (n : nat) (c : column) : column :=
  match c with
  | FloatCol xs => FloatCol (firstn n xs)
  | ObjCol xs => ObjCol (firstn n xs)
  end.

(** the rows at the positions [indexer], in that order *)
Definition col_take (indexer : list nat) (c : column) : column :=
  match c with
  | FloatCol xs => FloatCol (map (fun k => nth k xs nan) indexer)
  | ObjCol xs => ObjCol (map (fun k => nth k xs None) indexer)
  end.

(** a column of [n] missing values of the dtype of [c] *)
Definition col_missing (n : nat) (c : column) : column :=
  match c with
  | FloatCol _ => FloatCol (repeat nan n)
  | ObjCol _ => ObjCol (repeat None n)
  end.

(** a position as Python reads it: negative ones count from the end *)
Definition norm_pos (n : nat) (i : Z) : option nat :=
  let n := Z.of_nat n in
  if (0 <=? i) && (i <? n) then Some (Z.to_nat i)
  else if (i <? 0) && (- n <=? i) then Some (Z.to_nat (n + i))
  else None.

(** the end of the slice [[:k]] of a sequence of length [n] *)
Definition slice_stop (n : nat) (k : Z) : nat :=
  if 0 <=? k then Nat.min n (Z.to_nat k) else Z.to_nat (Z.of_nat n + k).

(** the start of the slice [[-k:]] of a sequence of length [n], [k > 0] *)
Definition slice_last_start (n k : nat) : nat := n - k.

(** [df[name]] / [df.loc[:, name]] for a single label *)
Definition lookup (df : DataFrame) (name : string) : option column :=
  option_map snd (find (fun nc => String.eqb (fst nc) name) (columns df)).

Definition getitem (df : DataFrame) (name : string) : res Series :=
  match lookup df name with
  | Some c => Ok (mkSeries (index df) c)
  | None => Raise KeyError
  end.

(** [df.iloc[:, i]] *)
Definition iloc_col (df : DataFrame) (i : Z) : res Series :=
  match norm_pos (List.length (columns df)) i with
  | Some k =>
      match nth_error (columns df) k with
      | Some nc => Ok (mkSeries (index df) (snd nc))
      | None => Raise IndexError
      end
  | None => Raise IndexError
  end.

(** [df.iloc[r, c]] *)
Definition iloc_cell (df : DataFrame) (r c : Z) : res value :=
  match norm_pos (List.length (columns df)) c with
  | Some k =>
      match nth_error (columns df) k with
      | Some nc =>
          match norm_pos (List.length (index df)) r with
          | Some j =>
              match col_nth (snd nc) j with
              | Some v => Ok v
              | None => Raise IndexError
              end
          | None => Raise IndexError
          end
      | None => Raise IndexError
      end
  | None => Raise IndexError
  end.

(** [df.columns = names] *)
Definition set_columns (df : DataFrame) (names : list string) : res DataFrame :=
  if Nat.eqb (List.length names) (List.length (columns df))
  then Ok (mkDF (index df) (combine names (map snd (columns df))))
  else Raise ValueError.

Fixpoint position (l : label) (ls : list label) : option nat :=
  match ls with
  | [] => None
  | x :: ls' => if label_eqb x l then Some O else option_map S (position l ls')
  end.

Fixpoint has_duplicates (ls : list label) : bool :=
  match ls with
  | [] => false
  | x :: ls' => existsb (label_eqb x) ls' || has_duplicates ls'
  end.

Fixpoint index_equals (a b : list label) : bool :=
  match a, b with
  | [], [] => true
  | x :: a', y :: b' => label_eqb x y && index_equals a' b'
  | _, _ => false
  end.

(** [series.reindex(target)], as column assignment applies it *)
Definition reindex (s : Series) (target : list label) : res column :=
  if index_equals (s_index s) target then Ok (s_values s)
  else if has_duplicates (s_index s) then Raise ValueError
  else
    Ok match s_values s with
       | FloatCol xs =>
           FloatCol (map (fun l => match position l (s_index s) with
                                   | Some k => nth k xs nan
                                   | None => nan
                                   end) target)
       | ObjCol xs =>
           ObjCol (map (fun l => match position l (s_index s) with
                                 | Some k => nth k xs None
                                 | None => None
                                 end) target)
       end.

Definition col_length (c : column) : nat :=
  match c with
  | FloatCol xs => List.length xs
  | ObjCol xs => List.length xs
  end.

(** [df[name] = series].  The series is aligned on the frame's index; a
    frame without rows first takes the index of the series.  An existing
    label is overwritten in place, a new one is added as the last column. *)
Definition setitem (df : DataFrame) (name : string) (s : Series)
  : res DataFrame :=
  let df :=
    match index df, s_index s with
    | [], _ :: _ =>
        mkDF (s_index s)
             (map (fun nc => (fst nc, col_missing (List.length (s_index s)) (snd nc)))
                  (columns df))
    | _, _ => df
    end in
  c <- reindex s (index df) ;;
  if existsb (fun nc => String.eqb (fst nc) name) (columns df)
  then Ok (mkDF (index df)
                (map (fun nc => if String.eqb (fst nc) name then (fst nc, c) else nc)
                     (columns df)))
  else Ok (mkDF (index df) (columns df ++ [(name, c)])).

(** Element-wise arithmetic of two columns taken from one frame.  Strings
    do not divide or subtract: [TypeError]. *)
Definition series_binop (op : float -> float -> float) (a b : Series)
  : res Series :=
  match s_values a, s_values b with
  | FloatCol xs, FloatCol ys =>
      Ok (mkSeries (s_index a)
                   (FloatCol (map (fun xy => op (fst xy) (snd xy)) (combine xs ys))))
  | _, _ => Raise TypeError
  end.

(** [series (op) scalar] and [ufunc(series)] on a float column *)
Definition series_map (f : float -> float) (a : Series) : res Series :=
  match s_values a with
  | FloatCol xs => Ok (mkSeries (s_index a) (FloatCol (map f xs)))
  | ObjCol _ => Raise TypeError
  end.

(** [df.take(indexer)] along the rows *)
Definition take (df : DataFrame) (indexer : list nat) : DataFrame :=
  mkDF (map (fun k => nth k (index df) (LInt 0)) indexer)
       (map (fun nc => (fst nc, col_take indexer (snd nc))) (columns df)).

Definition is_nan (x : float) : bool := negb (PrimFloat.eqb x x).

(** [pandas.core.sorting.nargsort(items, kind, ascending = False,
    na_position = 'last')]: the non-missing items are reversed, sorted in
    ascending order by numpy's [argsort], and the result is reversed again;
    the missing ones go last. *)
Definition nargsort_descending
  (argsort : list float -> list nat) (items : list float) : list nat :=
  let idx := seq 0 (List.length items) in
  let mask := fun i => is_nan (nth i items nan) in
  let non_nan_idx := filter (fun i => negb (mask i)) idx in
  let nan_idx := filter mask idx in
  let non_nans := map (fun i => nth i items nan) non_nan_idx in
  let non_nans := rev non_nans in
  let non_nan_idx := rev non_nan_idx in
  let indexer := map (fun p => nth p non_nan_idx O) (argsort non_nans) in
  let indexer := rev indexer in
  indexer ++ nan_idx.

(** [df.sort_values(by = name, ascending = False)], for a numeric column.
    [argsort] is numpy's [argsort] of the default [kind = 'quicksort'];
    pandas documents ['mergesort'] and ['stable'] as the only stable kinds. *)
Definition sort_values_descending
  (argsort : list float -> list nat) (df : DataFrame) (by_ : string)
  : res DataFrame :=
  match filter (fun nc => String.eqb (fst nc) by_) (columns df) with
  | [] => Raise KeyError
  | [(_, FloatCol xs)] => Ok (take df (nargsort_descending argsort xs))
  | [(_, ObjCol _)] => Raise Unmodelled
  | _ => Raise ValueError
  end.

(** [df.iloc[:k, -2:]] *)
Definition iloc_head_last2 (df : DataFrame) (k : Z) : DataFrame :=
  let r := slice_stop (List.length (index df)) k in
  mkDF (firstn r (index df))
       (map (fun nc => (fst nc, col_firstn r (snd nc)))
            (skipn (slice_last_start (List.length (columns df)) 2) (columns df))).

(** [df.loc[:, name] == key], a boolean mask *)
Definition eq_mask (c : column) (key : option string) : list bool :=
  match c, key with
  | ObjCol xs, Some k =>
      map (fun x => match x with
                    | Some s => String.eqb s k
                    | None => false
                    end) xs
  | ObjCol xs, None => map (fun _ => false) xs
  | FloatCol xs, _ => map (fun _ => false) xs
  end.

Fixpoint first_true (mask : list bool) : option nat :=
  match mask with
  | [] => None
  | b :: m => if b then Some O else option_map S (first_true m)
  end.

(** [df.loc[mask, name].values[0]] *)
Definition loc_mask_first (df : DataFrame) (mask : list bool) (name : string)
  : res value :=
  match lookup df name with
  | None => Raise KeyError
  | Some c =>
      match first_true mask with
      | None => Raise IndexError
      | Some k =>
          match col_nth c k with
          | Some v => Ok v
          | None => Raise IndexError
          end
      end
  end.

(** [pd.DataFrame([[v1, ..., vn]], columns = names)]: one row *)
Definition one_row (vs : list value) (names : list string) : res DataFrame :=
  if Nat.eqb (List.length vs) (List.length names)
  then Ok (mkDF [LInt 0]
                (combine names
                   (map (fun v => match v with
                                  | VFloat x => FloatCol [x]
                                  | VObj s => ObjCol [s]
                                  end) vs)))
  else Raise ValueError.

Definition col_append (a b : column) : option column :=
  match a, b with
  | FloatCol xs, FloatCol ys => Some (FloatCol (xs ++ ys))
  | ObjCol xs, ObjCol ys => Some (ObjCol (xs ++ ys))
  | _, _ => None
  end.

Fixpoint cols_append (a b : list (string * column))
  : option (list (string * column)) :=
  match a, b with
  | [], [] => Some []
  | (n, c) :: a', (n', c') :: b' =>
      if String.eqb n n' then
        match col_append c c', cols_append a' b' with
        | Some c'', Some r => Some ((n, c'') :: r)
        | _, _ => None
        end
      else None
  | _, _ => None
  end.

(** [a.append(b)] for two frames with the same columns: the rows of [b]
    follow those of [a] and keep their labels.  Frames whose columns differ
    are outside the model. *)
Definition append (a b : DataFrame) : res DataFrame :=
  match cols_append (columns a) (columns b) with
  | Some cs => Ok (mkDF (index a ++ index b) cs)
  | None => Raise Unmodelled
  end.

(** [df.reset_index(drop = True)] *)
Definition reset_index_drop (df : DataFrame) : DataFrame :=
  mkDF (RangeIndex (List.length (index df))) (columns df).

End Pandas.

(** ** numpy: argsort

    [argsort v] returns the positions of [v] in ascending order of the
    values.  Two algorithms are modelled: a stable one (what
    [kind = 'stable'] or ['mergesort'] computes, whatever the algorithm) and
    the introsort behind the default [kind = 'quicksort']. *)

Module Numpy.
Local Open Scope nat_scope.

(** [FLOAT_LT]: NaN sorts after every number *)
Definition np_lt (a b : float) : bool :=
  PrimFloat.ltb a b || (Pandas.is_nan b && negb (Pandas.is_nan a)).

(** *** A stable argsort: insertion, each position after its equals *)

Fixpoint insert_position (v : list float) (i : nat) (sorted : list nat)
  : list nat :=
  match sorted with
  | [] => [i]
  | j :: rest =>
      if np_lt (nth i v nan) (nth j v nan) then i :: j :: rest
      else j :: insert_position v i rest
  end.

Definition argsort_stable (v : list float) : list nat :=
  fold_left (fun sorted i => insert_position v i sorted)
            (seq 0 (List.length v)) [].

(** *** The default argsort: [aquicksort] of npysort

    The array [tosort] of positions is a list; [pl], [pr], [pi], [pj] are
    offsets into it.  Ranges of more than [SMALL_QUICKSORT + 1] positions
    are partitioned around the median of three, shorter ones are sorted by
    insertion.  The heapsort that takes over once [cdepth] is negative is
    not modelled: the function then returns [None]. *)

Definition SMALL_QUICKSORT : nat := 16.

Definition get (a : list nat) (i : nat) : nat := nth i a O.

Fixpoint upd (a : list nat) (i : nat) (x : nat) : list nat :=
  match a, i with
  | [], _ => []
  | _ :: a', O => x :: a'
  | y :: a', S i' => y :: upd a' i' x
  end.

(** [INTP_SWAP(tosort[i], tosort[j])] *)
Definition swap (a : list nat) (i j : nat) : list nat :=
  upd (upd a i (get a j)) j (get a i).

(** [v[tosort[i]]] *)
Definition val (v : list float) (a : list nat) (i : nat) : float :=
  nth (get a i) v nan.

(** [do ++pi; while (v[*pi] < vp)] *)
Fixpoint scan_up (fuel : nat) (v : list float) (a : list nat) (vp : float)
  (pi : nat) : nat :=
  match fuel with
  | O => pi
  | S fuel' =>
      let pi := S pi in
      if np_lt (val v a pi) vp then scan_up fuel' v a vp pi else pi
  end.

(** [do --pj; while (vp < v[*pj])] *)
Fixpoint scan_down (fuel : nat) (v : list float) (a : list nat) (vp : float)
  (pj : nat) : nat :=
  match fuel with
  | O => pj
  | S fuel' =>
      let pj := Nat.pred pj in
      if np_lt vp (val v a pj) then scan_down fuel' v a vp pj else pj
  end.

(** the [for (;;)] loop of the partition; returns the array and [pi] *)
Fixpoint partition_loop (fuel : nat) (v : list float) (a : list nat)
  (vp : float) (pi pj : nat) : list nat * nat :=
  match fuel with
  | O => (a, pi)
  | S fuel' =>
      let pi := scan_up (List.length a) v a vp pi in
      let pj := scan_down (List.length a) v a vp pj in
      if Nat.leb pj pi then (a, pi)
      else partition_loop fuel' v (swap a pi pj) vp pi pj
  end.

(** one pass of the body of [while ((pr - pl) > SMALL_QUICKSORT)];
    returns the array and the final place [pi] of the pivot *)
Definition partition (v : list float) (a : list nat) (pl pr : nat)
  : list nat * nat :=
  let pm := pl + Nat.div2 (pr - pl) in
  let a := if np_lt (val v a pm) (val v a pl) then swap a pm pl else a in
  let a := if np_lt (val v a pr) (val v a pm) then swap a pr pm else a in
  let a := if np_lt (val v a pm) (val v a pl) then swap a pm pl else a in
  let vp := val v a pm in
  let pj := pr - 1 in
  let a := swap a pm pj in
  let '(a, pi) := partition_loop (List.length a) v a vp pl pj in
  (swap a pi (pr - 1), pi).

(** [while (pj > pl && vp < v[*pk]) *pj-- = *pk--;] *)
Fixpoint shift_right (fuel : nat) (v : list float) (a : list nat)
  (vp : float) (pl pj : nat) : list nat * nat :=
  match fuel with
  | O => (a, pj)
  | S fuel' =>
      if Nat.ltb pl pj && np_lt vp (val v a (pj - 1))
      then shift_right fuel' v (upd a pj (get a (pj - 1))) vp pl (pj - 1)
      else (a, pj)
  end.

(** the insertion sort of the positions [pl .. pr] *)
Definition insertion_sort (v : list float) (a : list nat) (pl pr : nat)
  : list nat :=
  fold_left
    (fun a pi =>
       let vi := get a pi in
       let vp := nth vi v nan in
       let '(a, pj) := shift_right pi v a vp pl pi in
       upd a pj vi)
    (seq (S pl) (pr - pl)) a.

(** the main loop, entered at [while ((pr - pl) > SMALL_QUICKSORT)];
    [stack] holds the ranges put aside, each with its depth budget *)
Fixpoint quicksort_loop (fuel : nat) (v : list float) (a : list nat)
  (pl pr : nat) (cdepth : Z) (stack : list (nat * nat * Z))
  : option (list nat) :=
  match fuel with
  | O => None
  | S fuel' =>
      if Nat.ltb SMALL_QUICKSORT (pr - pl) then
        let '(a, pi) := partition v a pl pr in
        let cdepth := (cdepth - 1)%Z in
        if Nat.ltb (pi - pl) (pr - pi)
        then quicksort_loop fuel' v a pl (pi - 1) cdepth
                            ((pi + 1, pr, cdepth) :: stack)
        else quicksort_loop fuel' v a (pi + 1) pr cdepth
                            ((pl, pi - 1, cdepth) :: stack)
      else
        let a := insertion_sort v a pl pr in
        match stack with
        | [] => Some a
        | (pl', pr', cdepth') :: stack' =>
            if (cdepth' <? 0)%Z then None
            else quicksort_loop fuel' v a pl' pr' cdepth' stack'
        end
  end.

(** [np.argsort(v, kind = 'quicksort')] *)
Definition argsort_quicksort (v : list float) : option (list nat) :=
  let n := List.length v in
  match n with
  | O => Some []
  | S n' =>
      quicksort_loop (2 * n) v (seq 0 n) 0 n' (Z.log2 (Z.of_nat n) * 2)%Z []
  end.

End Numpy.

(** ** The outside world

    The program talks to the Eikon service, draws random numbers, reads one
    pickled table, prints, and writes files.  What the outside answers is an
    oracle ([Env]); what the program did to it is recorded in [World]. *)

Module Sys.
Import Pandas.

(** [ek.get_data(instruments, fields, parameters = {'SDate': ...})] *)
Record Request : Type := mkRequest {
  instruments : list label;
  fields : list string;
  SDate : string
}.

(** the pair [(df, err)] that [ek.get_data] returns; [err] is [None] or
    the list of the service's error messages *)
Record Response : Type := mkResponse {
  data : DataFrame;
  err : option (list string)
}.

Record Env : Type := mkEnv {
  (** the answer to the request number [n] (counted from 0) *)
  ek_get_data : nat -> Request -> res Response;
  (** the raw random draw number [n] *)
  entropy : nat -> Z;
  (** [pd.read_pickle(path)] *)
  read_pickle : string -> res DataFrame;
  (** numpy's [argsort] of the default kind, and [np.log] on a [float64] *)
  np_argsort : list float -> list nat;
  np_log : float -> float;
  (** how the C library prints [%Y] *)
  libc : platform
}.

(** the lines that [print] writes *)
Inductive line : Type :=
| MsgIndexFailed (start_date : string)
| MsgEikonRetry (date : string) (ric_list : list label) (count : Z)
| MsgAllocationMissing
| MsgAllocationUnexpected
| MsgRunning.

Record World : Type := mkWorld {
  requests : nat;           (* calls of [ek.get_data] so far *)
  draws : nat;              (* random numbers drawn so far *)
  stdout : list line;
  written : list string     (* paths of the files written, in order *)
}.

Definition world0 : World := mkWorld 0 0 [] [].

(** The result of running a piece of the program from a world: it returned,
    it raised, or its loop was still going when the fuel ran out. *)
Inductive outcome (A : Type) : Type :=
| Done (a : A) (w : World)
| Fail (e : exn) (w : World)
| Running (w : World).
Arguments Done {A} a w.
Arguments Fail {A} e w.
Arguments Running {A} w.

Definition M (A : Type) : Type := World -> outcome A.

Definition ret {A : Type} (a : A) : M A := fun w => Done a w.

Definition mbind {A B : Type} (m : M A) (k : A -> M B) : M B :=
  fun w =>
    match m w with
    | Done a w' => k a w'
    | Fail e w' => Fail e w'
    | Running w' => Running w'
    end.

Definition lift {A : Type} (r : res A) : M A :=
  fun w =>
    match r with
    | Ok a => Done a w
    | Raise e => Fail e w
    end.

Definition print (l : line) : M unit :=
  fun w => Done tt (mkWorld (requests w) (draws w) (stdout w ++ [l]) (written w)).

Definition write_file (path : string) : M unit :=
  fun w => Done tt (mkWorld (requests w) (draws w) (stdout w) (written w ++ [path])).

Definition request (env : Env) (rq : Request) : M Response :=
  fun w =>
    let w' := mkWorld (S (requests w)) (draws w) (stdout w) (written w) in
    match ek_get_data env (requests w) rq with
    | Ok r => Done r w'
    | Raise e => Fail e w'
    end.

Definition draw (env : Env) : M Z :=
  fun w =>
    Done (entropy env (draws w))
         (mkWorld (requests w) (S (draws w)) (stdout w) (written w)).

End Sys.

Notation "x <~ m ;; k" := (Sys.mbind m (fun x => k))
  (at level 61, m at next level, right associativity).

(** ** Python dictionaries with string keys, in insertion order *)

Module PyDict.

Definition key : Type := option string.

Definition key_eqb (a b : key) : bool :=
  match a, b with
  | Some x, Some y => String.eqb x y
  | None, None => true
  | _, _ => false
  end.

Definition dict (V : Type) : Type := list (key * V).

(** [d[k] = v] *)
Fixpoint set {V : Type} (d : dict V) (k : key) (v : V) : dict V :=
  match d with
  | [] => [(k, v)]
  | (k', v') :: d' =>
      if key_eqb k' k then (k', v) :: d' else (k', v') :: set d' k v
  end.

End PyDict.

(** ** The class BackTesting *)

Module BackTesting.
Import PyDate Pandas Sys.

(** the dictionary that [resume_backtesting_results] builds *)
Record results_dict : Type := mkResults {
  res_num_assets : Z;
  res_selected_assets : DataFrame;
  res_ric_list : list label;
  res_start_date : option date;
  res_end_date : option date;
  res_investment_period : Z;
  res_asset_performance : DataFrame;
  res_index_performance : DataFrame;
  res_portfolio_return : option float
}.

(** The instance attributes.  [portfolio_return] is not set by [__init__];
    the two dates start as [None]. *)
Record self_ : Type := mkSelf {
  index_ric : string;
  start_date : string;
  num_assets : Z;
  base_path : string;
  selected_assets : DataFrame;
  asset_performance : DataFrame;
  index_performance : DataFrame;
  ric_list : list label;
  backtesting_start_date : option date;
  backtesting_end_date : option date;
  portfolio_return : option (option float)
}.

(** [__init__] *)
Definition init (index_ric start_date : string) (num_assets : Z) : self_ :=
  mkSelf index_ric start_date num_assets "backtesting/"
         Pandas.empty Pandas.empty Pandas.empty [] None None None.

Definition set_selection (self : self_) (sel : DataFrame) (rics : list label)
  : self_ :=
  mkSelf (index_ric self) (start_date self) (num_assets self) (base_path self)
         sel (asset_performance self) (index_performance self) rics
         (backtesting_start_date self) (backtesting_end_date self)
         (portfolio_return self).

Definition set_asset_performance (self : self_) (df : DataFrame) : self_ :=
  mkSelf (index_ric self) (start_date self) (num_assets self) (base_path self)
         (selected_assets self) df (index_performance self) (ric_list self)
         (backtesting_start_date self) (backtesting_end_date self)
         (portfolio_return self).

Definition set_index_performance (self : self_) (df : DataFrame) : self_ :=
  mkSelf (index_ric self) (start_date self) (num_assets self) (base_path self)
         (selected_assets self) (asset_performance self) df (ric_list self)
         (backtesting_start_date self) (backtesting_end_date self)
         (portfolio_return self).

Definition set_backtesting_start_date (self : self_) (d : date) : self_ :=
  mkSelf (index_ric self) (start_date self) (num_assets self) (base_path self)
         (selected_assets self) (asset_performance self)
         (index_performance self) (ric_list self)
         (Some d) (backtesting_end_date self) (portfolio_return self).

Definition set_backtesting_end_date (self : self_) (d : date) : self_ :=
  mkSelf (index_ric self) (start_date self) (num_assets self) (base_path self)
         (selected_assets self) (asset_performance self)
         (index_performance self) (ric_list self)
         (backtesting_start_date self) (Some d) (portfolio_return self).

Definition set_portfolio_return (self : self_) (r : option float) : self_ :=
  mkSelf (index_ric self) (start_date self) (num_assets self) (base_path self)
         (selected_assets self) (asset_performance self)
         (index_performance self) (ric_list self)
         (backtesting_start_date self) (backtesting_end_date self) (Some r).

(** [s[1:]] *)
Definition drop_first (s : string) : string :=
  match s with
  | String _ s' => s'
  | EmptyString => EmptyString
  end.

(** [save_df] *)
Definition save_df (self : self_) (df : DataFrame)
  (file_name intermedate_1 intermedate_2 : string) : M unit :=
  let path_file :=
    (base_path self ++ drop_first (index_ric self) ++ "/"
       ++ intermedate_1 ++ intermedate_2)%string in
  _ <~ write_file (path_file ++ "pkl/" ++ file_name ++ ".pkl")%string ;;
  _ <~ write_file (path_file ++ "csv/" ++ file_name ++ ".csv")%string ;;
  write_file (path_file ++ "xlsx/" ++ file_name ++ ".xlsx")%string.

(** [save_list] *)
Definition save_list (self : self_) (list_to_pickle : list results_dict)
  (file_name intermedate_1 intermedate_2 : string) : M unit :=
  let path_file :=
    (base_path self ++ drop_first (index_ric self) ++ "/"
       ++ intermedate_1 ++ intermedate_2)%string in
  write_file (path_file ++ file_name)%string.

(** [read_file] *)
Definition read_file (env : Env) (self : self_) (file_name : string)
  : M DataFrame :=
  let path_file :=
    (base_path self ++ drop_first (index_ric self) ++ "/"
       ++ "results/pkl/raw/" ++ file_name)%string in
  lift (read_pickle env (path_file ++ ".pkl")%string).

(** The loop of [get_index]: while the table has at most one row, ask
    again; the third request ends the loop whatever it returned. *)
Fixpoint get_index_loop (env : Env) (fuel : nat) (self : self_)
  (start_date_arg : string) (index_df : DataFrame) (count : Z)
  : M DataFrame :=
  if len index_df <=? 1 then
    match fuel with
    | O => Running
    | S fuel' =>
        let fields_list := ["TR.IndexConstituentRIC"; "TR.ETPConstituentName"]%string in
        r <~ request env (mkRequest [LStr (index_ric self)] fields_list
                                    (start_date self)) ;;
        let index_df := data r in
        if count =? 2 then
          _ <~ print (MsgIndexFailed start_date_arg) ;;
          ret index_df
        else get_index_loop env fuel' self start_date_arg index_df (count + 1)
    end
  else ret index_df.

(** [get_index] *)
Definition get_index (env : Env) (fuel : nat) (self : self_)
  (fields_list : list string) (start_date_arg : string) : M unit :=
  index_df <~ get_index_loop env fuel self start_date_arg Pandas.empty 0 ;;
  save_df self index_df (drop_first (index_ric self))
          "data_downloaded/" "final_data/".

(** [select_assets] *)
Definition select_assets (env : Env) (self : self_) (results_df : DataFrame)
  (num_assets : Z) : res self_ :=
  sorted <- sort_values_descending (np_argsort env) results_df "score" ;;
  let selected := iloc_head_last2 sorted num_assets in
  Ok (set_selection self selected (index selected)).

(** [get_price_close] *)
Definition get_price_close (env : Env) (ric_list : list label) (date_ : string)
  : M Response :=
  request env (mkRequest ric_list ["TR.PriceClose"%string] date_).

(** [change_column_name] *)
Definition change_column_name (df : DataFrame) (column_name : string)
  : res DataFrame :=
  set_columns df ["Instrument"%string; column_name].

(** Each of the two loops of [get_asset_performance]:
    [count = 0; err = 'Error Object'; while err != None: ...].
    One unit of fuel pays for one pass through the body. *)
Fixpoint price_close_loop (env : Env) (fuel : nat) (ric_list : list label)
  (date_ : string) (count : Z) : M DataFrame :=
  match fuel with
  | O => Running
  | S fuel' =>
      r <~ get_price_close env ric_list date_ ;;
      _ <~ (if count =? 0 then ret tt
            else print (MsgEikonRetry date_ ric_list count)) ;;
      match err r with
      | None => ret (data r)
      | Some _ => price_close_loop env fuel' ric_list date_ (count + 1)
      end
  end.

(** the two derived columns of [get_asset_performance] *)
Definition add_returns (env : Env) (df : DataFrame) : res DataFrame :=
  e <- iloc_col df 2 ;;
  s <- iloc_col df 1 ;;
  q <- series_binop PrimFloat.div e s ;;
  q1 <- series_map (fun x => PrimFloat.sub x 1) q ;;
  r <- series_map (fun x => PrimFloat.mul x 100) q1 ;;
  df <- setitem df "return" r ;;
  e <- iloc_col df 2 ;;
  s <- iloc_col df 1 ;;
  q <- series_binop PrimFloat.div e s ;;
  l <- series_map (np_log env) q ;;
  lr <- series_map (fun x => PrimFloat.mul x 100) l ;;
  setitem df "log_return" lr.

(** [get_asset_performance] *)
Definition get_asset_performance (env : Env) (fuel : nat)
  (start_date end_date : string) (ric_list : list label) : M DataFrame :=
  df <~ price_close_loop env fuel ric_list start_date 0 ;;
  df <~ lift (change_column_name df start_date) ;;
  df_end_date <~ price_close_loop env fuel ric_list end_date 0 ;;
  lift (df_end_date <- change_column_name df_end_date end_date ;;
        last <- iloc_col df_end_date (-1) ;;
        df <- setitem df end_date last ;;
        add_returns env df).

(** [1 / n] for a Python [int] [n] *)
Definition int_reciprocal (n : Z) : res float :=
  if n =? 0 then Raise ZeroDivisionError
  else Ok (PrimFloat.div 1 (PrimFloat.of_uint63 (Uint63.of_Z n))).

(** [get_equally_weighted_portfolio] *)
Definition get_equally_weighted_portfolio (self : self_)
  : res (PyDict.dict float) :=
  equally_weighted <- int_reciprocal (len (asset_performance self)) ;;
  instrument <- getitem (asset_performance self) "Instrument" ;;
  match s_values instrument with
  | ObjCol assets =>
      Ok (fold_left (fun d asset => PyDict.set d asset equally_weighted)
                    assets [])
  | FloatCol _ => Raise Unmodelled
  end.

(** the body of the loop of [calculate_portfolio_return] *)
Definition add_asset_return (self : self_) (portfolio_return : float)
  (item : PyDict.key * float) : res float :=
  let '(asset, weight) := item in
  instrument <- getitem (asset_performance self) "Instrument" ;;
  let boolean_mask := eq_mask (s_values instrument) asset in
  profit <- loc_mask_first (asset_performance self) boolean_mask "return" ;;
  match profit with
  | VFloat profit =>
      Ok (PrimFloat.add portfolio_return
            (PrimFloat.mul (PrimFloat.div profit 100) weight))
  | VObj _ => Raise TypeError
  end.

Fixpoint portfolio_loop (self : self_) (portfolio_return : float)
  (items : list (PyDict.key * float)) : res float :=
  match items with
  | [] => Ok portfolio_return
  | item :: items' =>
      r <- add_asset_return self portfolio_return item ;;
      portfolio_loop self r items'
  end.

(** [calculate_portfolio_return] *)
Definition calculate_portfolio_return (self : self_)
  (allocation_dict : PyDict.dict float) : res float :=
  r <- portfolio_loop self 0%float allocation_dict ;;
  Ok (PrimFloat.mul r 100).

(** [get_portfolio_return] *)
Definition get_portfolio_return (self : self_) (equally_weighted : bool)
  (allocation_dict : option (PyDict.dict float)) : M (option float) :=
  match equally_weighted, allocation_dict with
  | true, None =>
      allocation_dict <~ lift (get_equally_weighted_portfolio self) ;;
      portfolio_return <~ lift (calculate_portfolio_return self allocation_dict) ;;
      ret (Some portfolio_return)
  | false, Some allocation_dict =>
      portfolio_return <~ lift (calculate_portfolio_return self allocation_dict) ;;
      ret (Some portfolio_return)
  | false, None =>
      _ <~ print MsgAllocationMissing ;;
      ret None
  | true, Some _ =>
      _ <~ print MsgAllocationUnexpected ;;
      ret None
  end.

(** [get_datetime_format] *)
Definition get_datetime_format (date_string : string) : res date :=
  y <- PyStr.int (PyStr.slice 0 4 date_string) ;;
  m <- PyStr.int (PyStr.slice 4 6 date_string) ;;
  d <- PyStr.int (PyStr.slice 6 8 date_string) ;;
  PyDate.new y m d.

(** [get_date_string_format] *)
Definition get_date_string_format (pf : platform) (date_datetime : date)
  : string :=
  strftime_Ymd pf date_datetime.

(** [get_backtestign_start_date]; [u] is the raw draw that [randrange]
    consumes *)
Definition get_backtestign_start_date
  (self : self_) (date_string : string) (month_interval : Z) (u : Z)
  : res self_ :=
  start_date_datetime <- get_datetime_format date_string ;;
  upper_date_limit <-
    RelDelta.radd start_date_datetime (RelDelta.make 0 month_interval) ;;
  let days_between_dates := sub_days upper_date_limit start_date_datetime in
  random_number_of_days <- randrange days_between_dates u ;;
  d <- add_days start_date_datetime random_number_of_days ;;
  Ok (set_backtesting_start_date self d).

(** [randrange(stop)] as a step of the program: a number is drawn only
    for a range that is not empty *)
Definition randrange_call (env : Env) (stop : Z) : M Z :=
  if 0 <? stop then u <~ draw env ;; lift (randrange stop u)
  else lift (Raise ValueError).

(** [get_backtestign_start_date] as a step of the program: [randrange] is
    called once the date string has been read and the upper limit of the
    window computed, and not before *)
Definition get_backtestign_start_date_step
  (env : Env) (self : self_) (date_string : string) (month_interval : Z)
  : M self_ :=
  start_date_datetime <~ lift (get_datetime_format date_string) ;;
  upper_date_limit <~
    lift (RelDelta.radd start_date_datetime (RelDelta.make 0 month_interval)) ;;
  let days_between_dates := sub_days upper_date_limit start_date_datetime in
  random_number_of_days <~ randrange_call env days_between_dates ;;
  d <~ lift (add_days start_date_datetime random_number_of_days) ;;
  ret (set_backtesting_start_date self d).

(** [get_backtesting_end_date] *)
Definition get_backtesting_end_date (self : self_) (date_ : date) (years : Z)
  : res self_ :=
  d <- RelDelta.radd date_ (RelDelta.make years 0) ;;
  Ok (set_backtesting_end_date self d).

(** [resume_backtesting_results] *)
Definition resume_backtesting_results (self : self_) (years : Z)
  : res results_dict :=
  match portfolio_return self with
  | None => Raise AttributeError
  | Some pr =>
      Ok (mkResults (num_assets self) (selected_assets self) (ric_list self)
                    (backtesting_start_date self) (backtesting_end_date self)
                    years (asset_performance self) (index_performance self) pr)
  end.

(** a Python number or [None] as a cell of a frame *)
Definition cell_of (x : option float) : value :=
  match x with
  | Some x => VFloat x
  | None => VObj None
  end.

(** [run_back_testing] *)
Definition run_back_testing (env : Env) (fuel : nat) (self : self_) (years : Z)
  : M (DataFrame * results_dict * self_) :=
  let file_name := "results_raw"%string in
  results_df <~ read_file env self file_name ;;
  self <~ lift (select_assets env self results_df (num_assets self)) ;;
  self <~ get_backtestign_start_date_step env self (start_date self) 6 ;;
  self <~ lift (match backtesting_start_date self with
                | Some d => get_backtesting_end_date self d years
                | None => Raise TypeError
                end) ;;
  backtesting_start_date_string <~
    lift (match backtesting_start_date self with
          | Some d => Ok (get_date_string_format (libc env) d)
          | None => Raise AttributeError
          end) ;;
  backtesting_end_date_string <~
    lift (match backtesting_end_date self with
          | Some d => Ok (get_date_string_format (libc env) d)
          | None => Raise AttributeError
          end) ;;
  ap <~ get_asset_performance env fuel backtesting_start_date_string
          backtesting_end_date_string (ric_list self) ;;
  let self := set_asset_performance self ap in
  ip <~ get_asset_performance env fuel backtesting_start_date_string
          backtesting_end_date_string [LStr (index_ric self)] ;;
  let self := set_index_performance self ip in
  pr <~ get_portfolio_return self true None ;;
  let self := set_portfolio_return self pr in
  backtesting_results_dict <~ lift (resume_backtesting_results self years) ;;
  index_performance_ <~ lift (iloc_cell (index_performance self) 0 3) ;;
  returns_df <~ lift (one_row [index_performance_; cell_of pr]
                        ["index_performance"; "portfolio_return"]%string) ;;
  ret (returns_df, backtesting_results_dict, self).

(** [save_graphs].  The column [alpha] is added to the very frame that the
    caller holds; the frame with that column is returned here to stand for
    the caller's object after the call. *)
Definition save_graphs (self : self_) (all_returns_df : DataFrame)
  : M DataFrame :=
  all_returns_df <~
    lift (p <- getitem all_returns_df "portfolio_return" ;;
          i <- getitem all_returns_df "index_performance" ;;
          alpha <- series_binop PrimFloat.sub p i ;;
          setitem all_returns_df "alpha" alpha) ;;
  let dir := (base_path self ++ drop_first (index_ric self) ++ "/results/")%string in
  _ <~ write_file (dir ++ "scatter.png")%string ;;
  _ <~ write_file (dir ++ "scatter_no_alpha.png")%string ;;
  _ <~ write_file (dir ++ "box.png")%string ;;
  ret all_returns_df.

(** The [for] loop of [run_multiple_backtesting]: [n] passes are left,
    [backtesting] is the loop variable, [all_returns_df] is unbound
    ([None]) before the first pass. *)
Fixpoint trials_loop (env : Env) (fuel : nat) (years : Z) (n : nat)
  (backtesting : Z) (all_returns_df : option DataFrame)
  (all_backtesting_results_list : list results_dict) (self : self_)
  : M (option DataFrame * list results_dict * self_) :=
  match n with
  | O => ret (all_returns_df, all_backtesting_results_list, self)
  | S n' =>
      t <~ run_back_testing env fuel self years ;;
      let '(returns_df, backtesting_results_dict, self) := t in
      if backtesting =? 0 then
        trials_loop env fuel years n' (backtesting + 1)
                    (Some returns_df) [backtesting_results_dict] self
      else
        match all_returns_df with
        | None => lift (Raise UnboundLocalError)
        | Some all_returns_df =>
            all_returns_df <~ lift (append all_returns_df returns_df) ;;
            trials_loop env fuel years n' (backtesting + 1)
                        (Some all_returns_df)
                        (all_backtesting_results_list ++ [backtesting_results_dict])
                        self
        end
  end.

(** [run_multiple_backtesting] *)
Definition run_multiple_backtesting (env : Env) (fuel : nat) (self : self_)
  (num_backtesting years : Z)
  : M (DataFrame * list results_dict * self_) :=
  _ <~ print MsgRunning ;;
  t <~ trials_loop env fuel years (Z.to_nat num_backtesting) 0 None [] self ;;
  let '(all_returns_df, all_backtesting_results_list, self) := t in
  match all_returns_df with
  | None => lift (Raise UnboundLocalError)
  | Some all_returns_df =>
      let all_returns_df := reset_index_drop all_returns_df in
      _ <~ save_df self all_returns_df "all_returns" "results/" EmptyString ;;
      _ <~ save_list self all_backtesting_results_list "results_list" "results/"
                     EmptyString ;;
      all_returns_df <~ save_graphs self all_returns_df ;;
      ret (all_returns_df, all_backtesting_results_list, self)
  end.

End BackTesting.

(** ** Auxiliary definitions used in the statements *)

Module CalendarAux.
Import PyDate.

(** a check of the month and day that [ord2ymd] computes from the day [r]
    of a year (counted from 0): they are a valid month and day, and they
    count back to [r] *)
Definition month_day_ok (leap : bool) (r : Z) : bool :=
  let m := Z.shiftr (r + 50) 5 in
  let preceding := DAYS_BEFORE_MONTH m + b2z ((2 <? m) && leap) in
  let '(m', p') :=
    if r <? preceding
    then (m - 1, preceding - (DAYS_IN_MONTH (m - 1) + b2z ((m - 1 =? 2) && leap)))
    else (m, preceding) in
  (1 <=? m') && (m' <=? 12) && (1 <=? r - p' + 1) &&
  (r - p' + 1 <=? DAYS_IN_MONTH m' + b2z ((m' =? 2) && leap)) &&
  (DAYS_BEFORE_MONTH m' + b2z ((2 <? m') && leap) + (r - p' + 1) =? r + 1).

(** the decomposition of a day number into cycles of 400, 100, 4 and 1
    years that [ord2ymd] computes *)
Record cycles (n : Z) (q n100 n4 n1 r : Z) : Prop := {
  cy_eq : n - 1 = q * DI400Y + n100 * DI100Y + n4 * DI4Y + n1 * 365 + r;
  cy_100 : 0 <= n100 <= 4;
  cy_4 : 0 <= n4 <= 24;
  cy_1 : 0 <= n1 <= 4;
  cy_r : 0 <= r < 365;
  cy_last100 : n100 = 4 -> n4 = 0 /\ n1 = 0 /\ r = 0;
  cy_last1 : n1 = 4 -> r = 0 /\ n4 <= 23;
  cy_q : 0 <= q;
  cy_max : n <= MAXORDINAL -> q * 400 + n100 * 100 + n4 * 4 + n1 <= 9998
}.

(** the years that are printed with four digits *)
Definition four_digit_years : list Z :=
  map (fun k => 1000 + Z.of_nat k) (seq 0 (Z.to_nat 9000)).

End CalendarAux.

Module Aux.
Import Pandas Sys BackTesting.

(** the lines that [k] passes of a price loop print, the first pass having
    the counter [c] *)
Fixpoint retry_lines (date_ : string) (ric_list : list label) (c : Z) (k : nat)
  : list line :=
  match k with
  | O => []
  | S k' =>
      (if c =? 0 then [] else [MsgEikonRetry date_ ric_list c])
        ++ retry_lines date_ ric_list (c + 1) k'
  end.

(** the world after [k] more requests that printed [ls] *)
Definition after_requests (w : World) (k : nat) (ls : list line) : World :=
  mkWorld (requests w + k) (draws w) (stdout w ++ ls) (written w).

(** *** Example environments

    In the example environments [np_log] is the identity and the pickled
    table is absent unless said otherwise: the statements made with them do
    not depend on either. *)

(** a provider whose every answer carries an error *)
Definition failing_provider (n : nat) (rq : Request) : res Response :=
  Ok (mkResponse Pandas.empty (Some ["Backend error. 400 Bad Request"%string])).

Definition failing_env : Env :=
  mkEnv failing_provider (fun _ => 0) (fun _ => Raise FileNotFoundError)
        Numpy.argsort_stable (fun x => x) Unpadded.

(** the request that [get_price_close] sends *)
Definition price_request (ric_list : list label) (date_ : string) : Request :=
  mkRequest ric_list ["TR.PriceClose"%string] date_.

(** the answers number [n], ..., [n + k - 1] to [rq] all carry an error *)
Definition errors_from (env : Env) (rq : Request) (n k : nat) : Prop :=
  forall i, (i < k)%nat ->
    exists df msgs, ek_get_data env (n + i) rq = Ok (mkResponse df (Some msgs)).

(** the table of close prices that the service returns *)
Definition price_frame (rics : list string) (prices : list float) : DataFrame :=
  mkDF (RangeIndex (List.length rics))
       [("Instrument"%string, ObjCol (map Some rics));
        ("Price Close"%string, FloatCol prices)].

(** a provider that fails twice and then answers *)
Definition flaky_provider (good : DataFrame) (n : nat) (rq : Request)
  : res Response :=
  if Nat.ltb n 2 then failing_provider n rq else Ok (mkResponse good None).

Definition flaky_env (good : DataFrame) : Env :=
  mkEnv (flaky_provider good) (fun _ => 0) (fun _ => Raise FileNotFoundError)
        Numpy.argsort_stable (fun x => x) Unpadded.

(** a provider that answers the first request with [first] and every later
    one with [later] *)
Definition quotes_provider (first later : DataFrame) (n : nat) (rq : Request)
  : res Response :=
  match n with
  | O => Ok (mkResponse first None)
  | S _ => Ok (mkResponse later None)
  end.

Definition quotes_env (first later : DataFrame) : Env :=
  mkEnv (quotes_provider first later) (fun _ => 0) (fun _ => Raise FileNotFoundError)
        Numpy.argsort_stable (fun x => x) Unpadded.

(** the simple return of an asset: the [return] cell of the first row whose
    [Instrument] is the asset *)
Definition simple_return_of (self : self_) (asset : PyDict.key) : res float :=
  instrument <- getitem (asset_performance self) "Instrument" ;;
  profit <- loc_mask_first (asset_performance self)
              (eq_mask (s_values instrument) asset) "return" ;;
  match profit with
  | VFloat profit => Ok profit
  | VObj _ => Raise TypeError
  end.

(** [((0 + r1 / 100 * w1) + r2 / 100 * w2) + ...], in binary64, for the pairs
    [(w, r)] in order *)
Definition weighted_sum (terms : list (float * float)) : float :=
  fold_left (fun acc wr =>
               PrimFloat.add acc (PrimFloat.mul (PrimFloat.div (snd wr) 100) (fst wr)))
            terms 0%float.

(** element-wise [f start end] over two price lists *)
Definition per_row (f : float -> float -> float) (starts ends : list float)
  : list float :=
  map (fun es => f (snd es) (fst es)) (combine ends starts).

(** the performance table of assets A and B with simple returns 10 and -4 *)
Definition perf_AB : DataFrame :=
  mkDF [LInt 0; LInt 1]
       [("Instrument"%string, ObjCol [Some "A"%string; Some "B"%string]);
        ("return"%string, FloatCol [10%float; (-4)%float])].

Definition self_AB : self_ :=
  set_asset_performance (init ".SPX" "20160101" 2) perf_AB.

Definition alloc_AB : PyDict.dict float :=
  [(Some "A"%string, 0.5%float); (Some "B"%string, 0.5%float)].

(** *** Selection *)

(** [r] is a permutation of the positions of [v] that puts the values in
    ascending order, as [np.argsort] documents: every position occurs, no
    value is smaller than one placed before it. *)
Fixpoint ascending (v : list float) (r : list nat) : bool :=
  match r with
  | [] => true
  | a :: r' =>
      forallb (fun b => negb (Numpy.np_lt (nth b v nan) (nth a v nan))) r'
      && ascending v r'
  end.

Definition argsort_ok (v : list float) (r : list nat) : bool :=
  Nat.eqb (List.length r) (List.length v)
  && forallb (fun i => existsb (Nat.eqb i) r) (seq 0 (List.length v))
  && ascending v r.

(** the list that [nargsort] hands to [argsort]: the scores that are not
    missing, last row first *)
Definition sort_input (xs : list float) : list float :=
  rev (map (fun i => nth i xs nan)
           (filter (fun i => negb (is_nan (nth i xs nan)))
                   (seq 0 (List.length xs)))).

(** a row with score [a] may stand before a row with score [b] in
    descending order, missing scores last *)
Definition may_precede (a b : float) : bool :=
  is_nan b || (negb (is_nan a) && negb (PrimFloat.ltb a b)).

(** the place of a float in the order of [FLOAT_LT], as a triple compared
    lexicographically: the sign class, then exponent and mantissa *)
Definition rank (s : spec_float) : Z * Z * Z :=
  match s with
  | S754_nan => (3, 0, 0)
  | S754_infinity false => (2, 0, 0)
  | S754_infinity true => (-2, 0, 0)
  | S754_zero _ => (0, 0, 0)
  | S754_finite false m e => (1, e, Z.pos m)
  | S754_finite true m e => (-1, - e, - Z.pos m)
  end.

Definition lex_ltb (a b : Z * Z * Z) : bool :=
  let '(a1, a2, a3) := a in
  let '(b1, b2, b3) := b in
  (a1 <? b1) || ((a1 =? b1) && ((a2 <? b2) || ((a2 =? b2) && (a3 <? b3)))).

Definition sort_key (x : float) : Z * Z * Z := rank (Prim2SF x).

(** in a stable ascending order a position stands before another one only
    if its value is not greater, and before one of equal value only if it
    is the smaller position *)
Definition stably_before (v : list float) (a b : nat) : Prop :=
  Numpy.np_lt (nth b v nan) (nth a v nan) = false /\
  (Numpy.np_lt (nth a v nan) (nth b v nan) = false -> (a < b)%nat).

(** the same for the descending order of the table: a row stands before
    one of equal score only if it stands before it in the table *)
Definition stably_precedes (xs : list float) (a b : nat) : Prop :=
  may_precede (nth a xs nan) (nth b xs nan) = true /\
  (may_precede (nth b xs nan) (nth a xs nan) = true -> (a < b)%nat).

(** the frame has exactly one column [score], numeric, with values [xs] *)
Definition score_column (df : DataFrame) (xs : list float) : Prop :=
  filter (fun nc => String.eqb (fst nc) "score") (columns df)
  = [("score"%string, FloatCol xs)].

(** numpy's default argsort; where the model of the introsort gives no
    answer the list is empty *)
Definition argsort_default (v : list float) : list nat :=
  match Numpy.argsort_quicksort v with
  | Some r => r
  | None => []
  end.

Definition numpy_env : Env :=
  mkEnv failing_provider (fun _ => 0) (fun _ => Raise FileNotFoundError)
        argsort_default (fun x => x) Unpadded.

Definition float_of_Z (z : Z) : float :=
  PrimFloat.of_uint63 (Uint63.of_Z z).

(** a results table: one row per RIC, the columns [name] and [score] *)
Definition results_table (rows : list (string * Z)) : DataFrame :=
  mkDF (map (fun r => LStr (fst r)) rows)
       [("name"%string, ObjCol (map (fun r => Some (fst r)) rows));
        ("score"%string, FloatCol (map (fun r => float_of_Z (snd r)) rows))].

(** eighteen assets, two for each score from 9 down to 1 *)
Definition eighteen : DataFrame :=
  results_table
    [("A00", 9); ("A01", 9); ("A02", 8); ("A03", 8); ("A04", 7); ("A05", 7);
     ("A06", 6); ("A07", 6); ("A08", 5); ("A09", 5); ("A10", 4); ("A11", 4);
     ("A12", 3); ("A13", 3); ("A14", 2); ("A15", 2); ("A16", 1); ("A17", 1)]%string.

(** the first example of the specification: scores 5, 5, 3, 2, 1 *)
Definition five : DataFrame :=
  results_table [("P", 5); ("Q", 5); ("R", 3); ("S", 2); ("T", 1)]%string.

Definition two : DataFrame :=
  results_table [("P", 5); ("Q", 3)]%string.

(** *** Campaign *)

(** the one-row frame that a trial returns *)
Definition pair_frame (x y : float) : DataFrame :=
  mkDF [LInt 0]
       [("index_performance"%string, FloatCol [x]);
        ("portfolio_return"%string, FloatCol [y])].

(** the frame that the campaign returns for the pairs [ps]: one row per
    pair, numbered from 0, and the column [alpha] that [save_graphs] adds *)
Definition summary_frame (ps : list (float * float)) : DataFrame :=
  mkDF (RangeIndex (List.length ps))
       [("index_performance"%string, FloatCol (map fst ps));
        ("portfolio_return"%string, FloatCol (map snd ps));
        ("alpha"%string,
         FloatCol (map (fun p => PrimFloat.sub (snd p) (fst p)) ps))].

(** [n] trials run one after the other, each from the object and the world
    the one before left, and each returned: [ps] are their pairs of index
    and portfolio return and [ds] their result records, in order. *)
Inductive trials (env : Env) (fuel : nat) (years : Z)
  : nat -> self_ -> World -> list (float * float) -> list results_dict
    -> self_ -> World -> Prop :=
| trials_done (self : self_) (w : World) :
    trials env fuel years O self w [] [] self w
| trials_next (n : nat) (self self1 self2 : self_) (w w1 w2 : World)
    (x y : float) (d : results_dict)
    (ps : list (float * float)) (ds : list results_dict) :
    run_back_testing env fuel self years w = Done (pair_frame x y, d, self1) w1 ->
    trials env fuel years n self1 w1 ps ds self2 w2 ->
    trials env fuel years (S n) self w ((x, y) :: ps) (d :: ds) self2 w2.

(** the world after [print] of one line *)
Definition printed (w : World) (l : line) : World :=
  mkWorld (requests w) (draws w) (stdout w ++ [l]) (written w).

(** the files that the campaign writes at its end *)
Definition campaign_files (self : self_) : list string :=
  let dir := (base_path self ++ drop_first (index_ric self) ++ "/results/")%string in
  [(dir ++ "pkl/all_returns.pkl")%string;
   (dir ++ "csv/all_returns.csv")%string;
   (dir ++ "xlsx/all_returns.xlsx")%string;
   (dir ++ "results_list")%string;
   (dir ++ "scatter.png")%string;
   (dir ++ "scatter_no_alpha.png")%string;
   (dir ++ "box.png")%string].

Definition with_files (w : World) (fs : list string) : World :=
  mkWorld (requests w) (draws w) (stdout w) (written w ++ fs).

(** A small market: the results table [five]; the service answers the
    requests for the assets with two rows and those for the index with
    one, start prices to even request numbers and end prices to odd ones
    (the index closing higher at each later request), always without an
    error. *)
Definition demo_provider (n : nat) (rq : Request) : res Response :=
  match instruments rq with
  | [_] =>
      Ok (mkResponse
            (price_frame [".SPX"%string]
               [if Nat.even n then 2000%float
                else float_of_Z (2000 + 25 * Z.of_nat n)]) None)
  | _ =>
      Ok (mkResponse
            (price_frame ["P"; "Q"]%string
               (if Nat.even n then [100%float; 50%float]
                else [110%float; 45%float])) None)
  end.

Definition demo_env : Env :=
  mkEnv demo_provider (fun n => Z.of_nat n * 37) (fun _ => Ok five)
        argsort_default (fun x => x) Unpadded.

Definition demo_self : self_ := init ".SPX" "20160101" 2.

Definition is_float_col (c : column) : bool :=
  match c with
  | FloatCol _ => true
  | ObjCol _ => false
  end.

(** the names of the columns of a frame, each with whether it is numeric *)
Definition kinds (df : DataFrame) : list (string * bool) :=
  map (fun nc => (fst nc, is_float_col (snd nc))) (columns df).

(** the positions of the scores that are present, and of the missing ones *)
Definition scored (xs : list float) : list nat :=
  filter (fun i => negb (is_nan (nth i xs nan))) (seq 0 (List.length xs)).

Definition unscored (xs : list float) : list nat :=
  filter (fun i => is_nan (nth i xs nan)) (seq 0 (List.length xs)).

(** *** Example markets *)

Definition quote_A : DataFrame := price_frame ["A"%string] [100%float].

Definition flaky_env_A : Env := flaky_env quote_A.

(** the example of the specification: A goes from 100 to 110, B from 50
    to 45 *)
Definition quotes_env_AB : Env :=
  quotes_env (price_frame ["A"; "B"]%string [100; 50]%float)
             (price_frame ["A"; "B"]%string [110; 45]%float).

(** the value of an [Ok] float compared with [x] by [==] *)
Definition is_float (x : float) (r : res float) : bool :=
  match r with
  | Ok y => PrimFloat.eqb y x
  | Raise _ => false
  end.

End Aux.

(** ** Further definitions used in the statements: requests, files,
    example providers, and what a call leaves behind *)

Module Behaviour.
Import PyDate Pandas Sys BackTesting Aux.

(** the request that [get_index] sends: the date is the object's
    [start_date], whatever date is passed to the call *)
Definition index_request (self : self_) : Request :=
  mkRequest [LStr (index_ric self)]
            ["TR.IndexConstituentRIC"; "TR.ETPConstituentName"]%string
            (start_date self).

(** the files that [get_index] saves *)
Definition index_files (self : self_) : list string :=
  let path_file :=
    (base_path self ++ drop_first (index_ric self) ++ "/"
       ++ "data_downloaded/" ++ "final_data/")%string in
  [(path_file ++ "pkl/" ++ drop_first (index_ric self) ++ ".pkl")%string;
   (path_file ++ "csv/" ++ drop_first (index_ric self) ++ ".csv")%string;
   (path_file ++ "xlsx/" ++ drop_first (index_ric self) ++ ".xlsx")%string].

(** the first [j] answers to the index request, counted from the request
    number [n], are tables of at most one row *)
Definition short_answers (env : Env) (self : self_) (n j : nat) : Prop :=
  forall i, (i < j)%nat ->
    exists r, ek_get_data env (n + i) (index_request self) = Ok r /\
              len (data r) <= 1.

(** a provider whose first answer is an empty table and whose later answers
    list two constituents *)
Definition short_provider (n : nat) (rq : Request) : res Response :=
  Ok (mkResponse
        (if Nat.ltb n 1 then Pandas.empty
         else mkDF [LInt 0; LInt 1]
                [("Instrument"%string, ObjCol [Some ".SPX"; Some ".SPX"]%string);
                 ("Constituent RIC"%string, ObjCol [Some "A"; Some "B"]%string)])
        None).

Definition short_env : Env :=
  mkEnv short_provider (fun _ => 0) (fun _ => Raise FileNotFoundError)
        Numpy.argsort_stable (fun x => x) Unpadded.

(** a provider that answers every request with the table [df] *)
Definition constant_provider (df : DataFrame) (n : nat) (rq : Request)
  : res Response :=
  Ok (mkResponse df None).

Definition constant_env (df : DataFrame) : Env :=
  mkEnv (constant_provider df) (fun _ => 0) (fun _ => Raise FileNotFoundError)
        Numpy.argsort_stable (fun x => x) Unpadded.

(** the example market with the end prices listed for B and then A *)
Definition quotes_env_AB_swapped : Env :=
  quotes_env (price_frame ["A"; "B"]%string [100; 50]%float)
             (price_frame ["B"; "A"]%string [45; 110]%float).

(** the table holds, under [Instrument] and [return], the names [names]
    and the simple returns [rs], one row for each *)
Definition performance_of (df : DataFrame) (names : list string) (rs : list float)
  : Prop :=
  lookup df "Instrument" = Some (ObjCol (map Some names)) /\
  lookup df "return" = Some (FloatCol rs) /\
  List.length rs = List.length names /\
  len df = Z.of_nat (List.length names).

(** the weight [1 / n] of an equally weighted portfolio of [n] rows *)
Definition equal_weight (n : nat) : float :=
  PrimFloat.div 1 (float_of_Z (Z.of_nat n)).

(** the performance table of A, B and a second row of A *)
Definition perf_ABA : DataFrame :=
  mkDF [LInt 0; LInt 1; LInt 2]
       [("Instrument"%string, ObjCol [Some "A"; Some "B"; Some "A"]%string);
        ("return"%string, FloatCol [10; -4; 7]%float)].

Definition self_ABA : self_ :=
  set_asset_performance (init ".SPX" "20160101" 3) perf_ABA.

(** the years that are printed with fewer than four digits *)
Definition short_years : list Z :=
  map (fun k => 1 + Z.of_nat k) (seq 0 999).

(** from [w] to [w'] no file was written, and no request or draw undone *)
Definition wrote_nothing (w w' : World) : Prop :=
  written w' = written w /\
  (requests w <= requests w')%nat /\ (draws w <= draws w')%nat.

(** a computation that writes no file, however it ends *)
Definition quiet {A : Type} (m : M A) : Prop :=
  forall w,
    match m w with
    | Done _ w' | Fail _ w' | Running w' => wrote_nothing w w'
    end.

(** the path of the table of scores that a trial reads *)
Definition results_path (self : self_) : string :=
  ((base_path self ++ drop_first (index_ric self) ++ "/"
      ++ "results/pkl/raw/" ++ "results_raw") ++ ".pkl")%string.

(** the window that the record [d] of a trial holds: it starts on a day from
    the date written in [date_string] up to the day before the date six
    months later, and ends [years] years after its start, on 28 February
    when the start is a 29 February and the end year has none *)
Definition window_of (date_string : string) (years : Z) (d : results_dict) : Prop :=
  exists R upper ds de,
    get_datetime_format date_string = Ok R /\
    RelDelta.radd R (RelDelta.make 0 6) = Ok upper /\
    res_start_date d = Some ds /\ res_end_date d = Some de /\
    valid ds /\ leb R ds = true /\ ltb ds upper = true /\
    valid de /\
    de = mkdate (year ds + years) (month ds)
           (if (month ds =? 2) && (day ds =? 29) && negb (is_leap (year ds + years))
            then 28 else day ds) /\
    res_investment_period d = years.

(** a table of results without a column of scores *)
Definition unscored_table : DataFrame :=
  mkDF [LStr "P"; LStr "Q"]
       [("name"%string, ObjCol [Some "P"; Some "Q"]%string)].

Definition unscored_env : Env :=
  mkEnv demo_provider (fun n => Z.of_nat n * 37) (fun _ => Ok unscored_table)
        argsort_default (fun x => x) Unpadded.

(** whether a computation returned *)
Definition returned {A : Type} (o : outcome A) : bool :=
  match o with
  | Done _ _ => true
  | Fail _ _ | Running _ => false
  end.

(** the small market, whose service answers from the fifth request on with
    a table without columns *)
Definition breaking_provider (n : nat) (rq : Request) : res Response :=
  if Nat.ltb n 4 then demo_provider n rq else Ok (mkResponse Pandas.empty None).

Definition breaking_env : Env :=
  mkEnv breaking_provider (fun n => Z.of_nat n * 37) (fun _ => Ok five)
        argsort_default (fun x => x) Unpadded.

(** what the record of a trial of the script holds *)
Definition script_record (d : results_dict) : Prop :=
  exists s e,
    res_start_date d = Some s /\ res_end_date d = Some e /\
    valid s /\
    leb (mkdate 2016 1 1) s = true /\ ltb s (mkdate 2016 7 1) = true /\
    e = mkdate 2019 (month s)
          (if (month s =? 2) && (day s =? 29) then 28 else day s) /\
    res_investment_period d = 3.

(** the pictures that [save_graphs] saves *)
Definition graph_files (self : self_) : list string :=
  let dir := (base_path self ++ drop_first (index_ric self) ++ "/results/")%string in
  [(dir ++ "scatter.png")%string;
   (dir ++ "scatter_no_alpha.png")%string;
   (dir ++ "box.png")%string].

End Behaviour.

(** ** backtesting.py

    The script sets the key of the Eikon client ([ek.set_app_key], which
    has no part in this model), builds the object and runs the campaign. *)

Module Script.
Import Pandas Sys BackTesting.
Definition index_ric : string := ".SPX".
Definition start_date : string := "20160101".
Definition num_assets : Z := 10.
Definition num_backtesting : Z := 100.

Definition main (env : Env) (fuel : nat)
  : M (DataFrame * list results_dict * self_) :=
  let backtesting := init index_ric start_date num_assets in
  run_multiple_backtesting env fuel backtesting num_backtesting 3.
End Script.

(** * Properties *)

(** ** The calendar: ordinals and dates *)

Module DateFacts.
Import PyDate CalendarAux.

Lemma month_day_table :
  forallb (fun r => month_day_ok false (Z.of_nat r) && month_day_ok true (Z.of_nat r))
          (seq 0 365) = true.
Proof. vm_compute. reflexivity. Qed.

Lemma month_day_correct (leap : bool) (r : Z) :
  0 <= r < 365 -> month_day_ok leap r = true.
Proof.
  intros Hr.
  pose proof month_day_table as T.
  rewrite forallb_forall in T.
  specialize (T (Z.to_nat r)).
  rewrite Z2Nat.id in T by lia.
  assert (In (Z.to_nat r) (seq 0 365)) as Hin by (apply in_seq; lia).
  apply T in Hin. apply andb_prop in Hin. destruct leap; tauto.
Qed.

Lemma is_leap_cycle (q n100 n4 n1 : Z) :
  0 <= n100 <= 3 -> 0 <= n4 <= 24 -> 0 <= n1 <= 3 ->
  is_leap (q * 400 + 1 + (n100 * 100 + n4 * 4 + n1)) =
  (n1 =? 3) && (negb (n4 =? 24) || (n100 =? 3)).
Proof.
  intros H100 H4 H1. unfold is_leap.
  set (y := q * 400 + 1 + (n100 * 100 + n4 * 4 + n1)).
  assert (y mod 4 = (n1 + 1) mod 4) as E4.
  { unfold y. replace (q * 400 + 1 + (n100 * 100 + n4 * 4 + n1))
      with ((n1 + 1) + (q * 100 + n100 * 25 + n4) * 4) by ring.
    apply Z.mod_add. lia. }
  assert (y mod 100 = (n4 * 4 + n1 + 1) mod 100) as E100.
  { unfold y. replace (q * 400 + 1 + (n100 * 100 + n4 * 4 + n1))
      with ((n4 * 4 + n1 + 1) + (q * 4 + n100) * 100) by ring.
    apply Z.mod_add. lia. }
  assert (y mod 400 = (n100 * 100 + n4 * 4 + n1 + 1) mod 400) as E400.
  { unfold y. replace (q * 400 + 1 + (n100 * 100 + n4 * 4 + n1))
      with ((n100 * 100 + n4 * 4 + n1 + 1) + q * 400) by ring.
    apply Z.mod_add. lia. }
  rewrite E4, E100, E400.
  destruct (Z.eqb_spec n1 3) as [->|N1].
  - destruct (Z.eqb_spec n4 24) as [->|N4].
    + destruct (Z.eqb_spec n100 3) as [->|N100]; simpl.
      * reflexivity.
      * assert (n100 = 0 \/ n100 = 1 \/ n100 = 2) as Hc by lia.
        destruct Hc as [E|[E|E]]; subst n100; reflexivity.
    + simpl.
      assert ((n4 * 4 + 3 + 1) mod 100 <> 0) as Hne.
      { rewrite Z.mod_small by lia. lia. }
      apply Z.eqb_neq in Hne. now rewrite Hne.
  - simpl. rewrite Z.mod_small by lia.
    destruct (Z.eqb_spec (n1 + 1) 0); try lia.
Qed.

Lemma days_before_year_cycle (q n100 n4 n1 : Z) :
  0 <= n100 <= 3 -> 0 <= n4 <= 24 -> 0 <= n1 <= 3 ->
  days_before_year (q * 400 + 1 + (n100 * 100 + n4 * 4 + n1)) =
  q * DI400Y + n100 * DI100Y + n4 * DI4Y + n1 * 365.
Proof.
  intros H100 H4 H1. unfold days_before_year, DI400Y, DI100Y, DI4Y.
  replace (q * 400 + 1 + (n100 * 100 + n4 * 4 + n1) - 1)
    with (q * 400 + n100 * 100 + n4 * 4 + n1) by ring.
  assert ((q * 400 + n100 * 100 + n4 * 4 + n1) / 4 = q * 100 + n100 * 25 + n4) as E4.
  { symmetry. apply Z.div_unique with (r := n1); lia. }
  assert ((q * 400 + n100 * 100 + n4 * 4 + n1) / 100 = q * 4 + n100) as E100.
  { symmetry. apply Z.div_unique with (r := n4 * 4 + n1); lia. }
  assert ((q * 400 + n100 * 100 + n4 * 4 + n1) / 400 = q) as E400.
  { symmetry. apply Z.div_unique with (r := n100 * 100 + n4 * 4 + n1); lia. }
  rewrite E4, E100, E400. lia.
Qed.

Lemma cycles_of (n : Z) :
  1 <= n ->
  let n0 := n - 1 in
  let r400 := n0 mod DI400Y in
  let r100 := r400 mod DI100Y in
  let r4 := r100 mod DI4Y in
  cycles n (n0 / DI400Y) (r400 / DI100Y) (r100 / DI4Y) (r4 / 365) (r4 mod 365).
Proof.
  intros Hn n0 r400 r100 r4. subst n0 r400 r100 r4.
  unfold DI400Y, DI100Y, DI4Y, MAXORDINAL.
  split; unfold DI400Y, DI100Y, DI4Y, MAXORDINAL; Z.div_mod_to_equations; lia.
Qed.

Lemma valid_iff (y m d : Z) :
  check_date_fields y m d = true <->
  (1 <= y <= 9999 /\ 1 <= m <= 12 /\ 1 <= d <= days_in_month y m).
Proof.
  unfold check_date_fields, MINYEAR, MAXYEAR.
  rewrite !andb_true_iff, !Z.leb_le. tauto.
Qed.

Lemma days_in_month_alt (y m : Z) :
  days_in_month y m = DAYS_IN_MONTH m + b2z ((m =? 2) && is_leap y).
Proof.
  unfold days_in_month.
  destruct (Z.eqb_spec m 2) as [->|]; [destruct (is_leap y)|]; reflexivity || (cbn; lia).
Qed.

Lemma ord2ymd_spec (n : Z) :
  1 <= n <= MAXORDINAL ->
  valid (ord2ymd n) /\ toordinal (ord2ymd n) = n.
Proof.
  intros [Hlo Hhi].
  pose proof (cycles_of n Hlo) as C. cbv zeta in C.
  unfold ord2ymd. cbv zeta.
  revert C.
  generalize ((((n - 1) mod DI400Y) mod DI100Y) mod DI4Y mod 365) as r.
  generalize ((((n - 1) mod DI400Y) mod DI100Y) mod DI4Y / 365) as n1.
  generalize (((n - 1) mod DI400Y) mod DI100Y / DI4Y) as n4.
  generalize ((n - 1) mod DI400Y / DI100Y) as n100.
  generalize ((n - 1) / DI400Y) as q.
  intros q n100 n4 n1 r [Heq H100 H4 H1 Hr HL100 HL1 Hq Hmax].
  specialize (Hmax Hhi).
  destruct (Z.eqb_spec n1 4) as [E1|N1]; [|destruct (Z.eqb_spec n100 4) as [E100|N100]];
    cbn [orb].
  - (* last day of a 4-year cycle *)
    destruct (HL1 E1) as [-> Hn4]. subst n1.
    assert (n100 <= 3) by (destruct (Z.eq_dec n100 4) as [e|e]; [destruct (HL100 e); lia | lia]).
    replace (q * 400 + 1 + (n100 * 100 + n4 * 4 + 4) - 1)
      with (q * 400 + 1 + (n100 * 100 + n4 * 4 + 3)) by ring.
    unfold valid, toordinal, ymd2ord; cbn [year month day].
    assert (is_leap (q * 400 + 1 + (n100 * 100 + n4 * 4 + 3)) = true) as L.
    { rewrite is_leap_cycle by lia.
      replace (n4 =? 24) with false by (symmetry; apply Z.eqb_neq; lia).
      reflexivity. }
    pose proof (days_before_year_cycle q n100 n4 3 ltac:(lia) ltac:(lia) ltac:(lia)) as D.
    split.
    + apply valid_iff. unfold days_in_month. cbn. lia.
    + rewrite D. unfold days_before_month. rewrite L. cbn.
      unfold DI400Y, DI100Y, DI4Y in *. lia.
  - (* last day of a 400-year cycle *)
    destruct (HL100 E100) as (-> & -> & ->). subst n100.
    replace (q * 400 + 1 + (4 * 100 + 0 * 4 + 0) - 1)
      with (q * 400 + 1 + (3 * 100 + 24 * 4 + 3)) by ring.
    unfold valid, toordinal, ymd2ord; cbn [year month day].
    assert (is_leap (q * 400 + 1 + (3 * 100 + 24 * 4 + 3)) = true) as L
      by (rewrite is_leap_cycle by lia; reflexivity).
    pose proof (days_before_year_cycle q 3 24 3 ltac:(lia) ltac:(lia) ltac:(lia)) as D.
    split.
    + apply valid_iff. unfold days_in_month. cbn. lia.
    + rewrite D. unfold days_before_month. rewrite L. cbn.
      unfold DI400Y, DI100Y, DI4Y in *. lia.
  - (* an ordinary day *)
    pose proof (is_leap_cycle q n100 n4 n1 ltac:(lia) ltac:(lia) ltac:(lia)) as L.
    pose proof (days_before_year_cycle q n100 n4 n1 ltac:(lia) ltac:(lia) ltac:(lia)) as D.
    set (leap := (n1 =? 3) && (negb (n4 =? 24) || (n100 =? 3))) in *.
    set (y := q * 400 + 1 + (n100 * 100 + n4 * 4 + n1)) in *.
    pose proof (month_day_correct leap r Hr) as M.
    unfold month_day_ok in M.
    set (m := Z.shiftr (r + 50) 5) in *.
    set (p := DAYS_BEFORE_MONTH m + b2z ((2 <? m) && leap)) in *.
    destruct (r <? p).
    + rewrite !andb_true_iff, !Z.leb_le, Z.eqb_eq in M.
      unfold valid, toordinal, ymd2ord; cbn [year month day].
      split.
      * apply valid_iff. rewrite days_in_month_alt, L.
        assert (1 <= y <= 9999) by (unfold y; lia). lia.
      * rewrite D. unfold days_before_month. rewrite L.
        unfold DI400Y, DI100Y, DI4Y in *. lia.
    + rewrite !andb_true_iff, !Z.leb_le, Z.eqb_eq in M.
      unfold valid, toordinal, ymd2ord; cbn [year month day].
      split.
      * apply valid_iff. rewrite days_in_month_alt, L.
        assert (1 <= y <= 9999) by (unfold y; lia). lia.
      * rewrite D. unfold days_before_month. rewrite L.
        unfold DI400Y, DI100Y, DI4Y in *. lia.
Qed.

Ltac month_cases m :=
  let H := fresh in
  assert (m = 1 \/ m = 2 \/ m = 3 \/ m = 4 \/ m = 5 \/ m = 6 \/
          m = 7 \/ m = 8 \/ m = 9 \/ m = 10 \/ m = 11 \/ m = 12) as H by lia;
  repeat (destruct H as [H|H]); subst m.

Ltac eval_closed f :=
  repeat match goal with
  | |- context [f ?k] =>
      let v := eval compute in (f k) in progress change (f k) with v
  | H : context [f ?k] |- _ =>
      let v := eval compute in (f k) in progress change (f k) with v in H
  end.

Ltac eval_tables :=
  eval_closed DAYS_IN_MONTH; eval_closed DAYS_BEFORE_MONTH; eval_closed b2z.

Lemma days_before_year_next (y : Z) :
  days_before_year (y + 1) = days_before_year y + 365 + b2z (is_leap y).
Proof.
  unfold days_before_year, is_leap, b2z.
  replace (y + 1 - 1) with (y - 1 + 1) by ring.
  destruct (Z.eqb_spec (y mod 4) 0) as [E4|E4];
  destruct (Z.eqb_spec (y mod 100) 0) as [E100|E100];
  destruct (Z.eqb_spec (y mod 400) 0) as [E400|E400];
  cbn [negb andb orb]; Z.div_mod_to_equations; lia.
Qed.

Lemma days_before_year_mono (a b : Z) :
  a <= b -> days_before_year a <= days_before_year b.
Proof.
  intros H. unfold days_before_year.
  assert ((a - 1) / 4 <= (b - 1) / 4) by (apply Z.div_le_mono; lia).
  assert ((a - 1) / 400 <= (b - 1) / 400) by (apply Z.div_le_mono; lia).
  assert ((b - 1) / 100 - (a - 1) / 100 <= b - a)
    by (Z.div_mod_to_equations; lia).
  lia.
Qed.

Lemma day_of_year_bounds (y m d : Z) :
  1 <= m <= 12 -> 1 <= d <= days_in_month y m ->
  1 <= days_before_month y m + d <= 365 + b2z (is_leap y).
Proof.
  intros Hm Hd. rewrite days_in_month_alt in Hd. unfold days_before_month.
  destruct (is_leap y); month_cases m; eval_tables; lia.
Qed.

Lemma days_before_month_lt (y m m' d : Z) :
  1 <= m -> m < m' -> m' <= 12 -> d <= days_in_month y m ->
  days_before_month y m + d <= days_before_month y m'.
Proof.
  intros H1 H2 H3 Hd. rewrite days_in_month_alt in Hd. unfold days_before_month.
  destruct (is_leap y); month_cases m; month_cases m'; eval_tables; lia.
Qed.

Lemma toordinal_range (a : date) :
  valid a -> 1 <= toordinal a <= MAXORDINAL.
Proof.
  destruct a as [y m d]. unfold valid, toordinal, ymd2ord. cbn [year month day].
  rewrite valid_iff. intros (Hy & Hm & Hd).
  pose proof (day_of_year_bounds y m d Hm Hd) as B.
  pose proof (days_before_year_next y) as N.
  pose proof (days_before_year_mono 1 y ltac:(lia)) as L.
  pose proof (days_before_year_mono (y + 1) 10000 ltac:(lia)) as U.
  change (days_before_year 1) with 0 in L.
  change (days_before_year 10000) with MAXORDINAL in U.
  lia.
Qed.

Lemma toordinal_lt (a b : date) :
  valid a -> valid b -> ltb a b = true -> toordinal a < toordinal b.
Proof.
  destruct a as [y m d], b as [y' m' d'].
  unfold valid, toordinal, ymd2ord, ltb. cbn [year month day].
  rewrite !valid_iff. intros (Hy & Hm & Hd) (Hy' & Hm' & Hd') H.
  pose proof (day_of_year_bounds y m d Hm Hd) as B.
  pose proof (day_of_year_bounds y' m' d' Hm' Hd') as B'.
  apply orb_prop in H. destruct H as [H|H].
  - apply Z.ltb_lt in H.
    pose proof (days_before_year_next y) as N.
    pose proof (days_before_year_mono (y + 1) y' ltac:(lia)) as L.
    lia.
  - apply andb_prop in H. destruct H as [Ey H]. apply Z.eqb_eq in Ey. subst y'.
    apply orb_prop in H. destruct H as [H|H].
    + apply Z.ltb_lt in H.
      pose proof (days_before_month_lt y m m' d ltac:(lia) H ltac:(lia) ltac:(lia)).
      lia.
    + apply andb_prop in H. destruct H as [Em H].
      apply Z.eqb_eq in Em. apply Z.ltb_lt in H. subst m'. lia.
Qed.

Lemma ltb_trichotomy (a b : date) :
  ltb a b = true \/ a = b \/ ltb b a = true.
Proof.
  destruct a as [y m d], b as [y' m' d']. unfold ltb. cbn [year month day].
  destruct (Z.lt_trichotomy y y') as [H|[H|H]].
  - left. apply Z.ltb_lt in H. now rewrite H.
  - subst y'. rewrite Z.ltb_irrefl, Z.eqb_refl. cbn [orb andb].
    destruct (Z.lt_trichotomy m m') as [H|[H|H]].
    + left. apply Z.ltb_lt in H. now rewrite H.
    + subst m'. rewrite Z.ltb_irrefl, Z.eqb_refl. cbn [orb andb].
      destruct (Z.lt_trichotomy d d') as [H|[H|H]].
      * left. now apply Z.ltb_lt.
      * right; left. now subst.
      * right; right. now apply Z.ltb_lt.
    + right; right. apply Z.ltb_lt in H. now rewrite H.
  - right; right. apply Z.ltb_lt in H. now rewrite H.
Qed.

Lemma ltb_iff_toordinal (a b : date) :
  valid a -> valid b -> (ltb a b = true <-> toordinal a < toordinal b).
Proof.
  intros Va Vb. split; [now apply toordinal_lt|].
  intros H. destruct (ltb_trichotomy a b) as [L|[E|L]]; [assumption| |].
  - subst b. lia.
  - apply (toordinal_lt b a Vb Va) in L. lia.
Qed.

Lemma leb_iff_toordinal (a b : date) :
  valid a -> valid b -> (leb a b = true <-> toordinal a <= toordinal b).
Proof.
  intros Va Vb. unfold leb. rewrite negb_true_iff.
  pose proof (ltb_iff_toordinal b a Vb Va) as I.
  destruct (ltb b a); split; intros H; try discriminate; try reflexivity.
  - assert (toordinal b < toordinal a) by now apply I. lia.
  - destruct (Z.lt_ge_cases (toordinal b) (toordinal a)) as [L|L]; [|lia].
    apply I in L. discriminate.
Qed.

Lemma toordinal_inj (a b : date) :
  valid a -> valid b -> toordinal a = toordinal b -> a = b.
Proof.
  intros Va Vb E. destruct (ltb_trichotomy a b) as [L|[?|L]]; [|assumption|].
  - apply (toordinal_lt a b Va Vb) in L. lia.
  - apply (toordinal_lt b a Vb Va) in L. lia.
Qed.

Lemma ord2ymd_toordinal (a : date) : valid a -> ord2ymd (toordinal a) = a.
Proof.
  intros Va. pose proof (toordinal_range a Va) as R.
  destruct (ord2ymd_spec (toordinal a) R) as [V E].
  now apply toordinal_inj.
Qed.

Lemma add_days_0 (a : date) : valid a -> add_days a 0 = Ok a.
Proof.
  intros Va. unfold add_days. rewrite Z.add_0_r.
  pose proof (toordinal_range a Va) as R.
  replace (0 <? toordinal a) with true by (symmetry; apply Z.ltb_lt; lia).
  replace (toordinal a <=? MAXORDINAL) with true by (symmetry; apply Z.leb_le; lia).
  cbn. now rewrite ord2ymd_toordinal.
Qed.

Lemma add_days_spec (a : date) (n : Z) :
  valid a -> 1 <= toordinal a + n <= MAXORDINAL ->
  exists d, add_days a n = Ok d /\ valid d /\ toordinal d = toordinal a + n.
Proof.
  intros Va R. unfold add_days.
  replace (0 <? toordinal a + n) with true by (symmetry; apply Z.ltb_lt; lia).
  replace (toordinal a + n <=? MAXORDINAL) with true by (symmetry; apply Z.leb_le; lia).
  cbn. destruct (ord2ymd_spec _ R) as [V E]. eauto.
Qed.

Lemma new_ok_valid (y m d : Z) (x : date) : new y m d = Ok x -> valid x /\ x = mkdate y m d.
Proof.
  unfold new, valid. destruct (fits_int y && fits_int m && fits_int d); [|discriminate].
  destruct (check_date_fields y m d) eqn:E; [|discriminate].
  intros H. injection H as <-. now split.
Qed.

Lemma fits_int_iff (x : Z) :
  fits_int x = true <-> -2147483648 <= x <= 2147483647.
Proof. unfold fits_int. rewrite andb_true_iff, !Z.leb_le. tauto. Qed.

Lemma days_in_month_le (y m : Z) : days_in_month y m <= 31.
Proof.
  unfold days_in_month. destruct ((m =? 2) && is_leap y); [lia|].
  unfold DAYS_IN_MONTH.
  repeat match goal with |- context [match ?x with _ => _ end] => destruct x end; lia.
Qed.

(** the fields of a date fit a C [int] *)
Lemma new_valid (y m d : Z) :
  check_date_fields y m d = true -> new y m d = Ok (mkdate y m d).
Proof.
  intros C. unfold new. rewrite C.
  apply valid_iff in C. destruct C as (Hy & Hm & Hd).
  pose proof (days_in_month_le y m).
  replace (fits_int y) with true by (symmetry; apply fits_int_iff; lia).
  replace (fits_int m) with true by (symmetry; apply fits_int_iff; lia).
  replace (fits_int d) with true by (symmetry; apply fits_int_iff; lia).
  reflexivity.
Qed.

(** what the constructor raises: OverflowError for a field beyond the C
    [int], ValueError otherwise *)
Lemma new_raises (y m d : Z) :
  check_date_fields y m d = false ->
  new y m d =
  Raise (if fits_int y && fits_int m && fits_int d then ValueError
         else OverflowError).
Proof. intros C. unfold new. rewrite C. now destruct (_ && _). Qed.

(** ** relativedelta *)

Lemma make_months (y M : Z) :
  let r := RelDelta.make y M in
  RelDelta.years r * 12 + RelDelta.months r = y * 12 + M /\
  -11 <= RelDelta.months r <= 11 /\
  (0 < M -> 0 <= RelDelta.months r /\ y <= RelDelta.years r) /\
  (M = 0 -> r = RelDelta.mkrel y 0).
Proof.
  unfold RelDelta.make, RelDelta.fix_, RelDelta.sign. cbn [RelDelta.years RelDelta.months].
  destruct (Z.ltb_spec 11 (Z.abs M)) as [A|A]; cbn [RelDelta.years RelDelta.months].
  - destruct (Z.ltb_spec M 0) as [N|N].
    + repeat split; try lia; Z.div_mod_to_equations; lia.
    + repeat split; try lia; Z.div_mod_to_equations; lia.
  - repeat split; try lia. intros ->. reflexivity.
Qed.

Lemma DAYS_IN_MONTH_bounds (m : Z) :
  1 <= m <= 12 -> 28 <= DAYS_IN_MONTH m <= 31.
Proof. intros H. month_cases m; eval_tables; lia. Qed.

(** What [dt + relativedelta] yields, when it yields a date. *)
Lemma radd_spec (dt : date) (r : RelDelta.relativedelta) (x : date) :
  valid dt -> -11 <= RelDelta.months r <= 11 ->
  RelDelta.radd dt r = Ok x ->
  valid x /\
  year x * 12 + month x = (year dt + RelDelta.years r) * 12 + month dt + RelDelta.months r /\
  day x = Z.min (RelDelta.monthrange_ndays (year x) (month x)) (day dt).
Proof.
  intros V Hm. unfold RelDelta.radd.
  apply valid_iff in V. destruct V as (Vy & Vm & Vd).
  set (ym := if RelDelta.months r =? 0 then _ else _).
  assert (fst ym * 12 + snd ym =
          (year dt + RelDelta.years r) * 12 + month dt + RelDelta.months r) as E.
  { subst ym. destruct (Z.eqb_spec (RelDelta.months r) 0) as [E0|E0]; cbn [fst snd]; [lia|].
    destruct (Z.ltb_spec 12 (month dt + RelDelta.months r)); cbn [fst snd]; [lia|].
    destruct (Z.ltb_spec (month dt + RelDelta.months r) 1); cbn [fst snd]; lia. }
  destruct ym as [y m]. cbn [fst snd] in E.
  unfold PyDate.replace. intros H.
  destruct (new y m _) as [x0|] eqn:N; cbn [bind] in H; [|discriminate].
  apply new_ok_valid in N. destruct N as [V0 ->].
  rewrite add_days_0 in H by assumption. injection H as <-.
  cbn [year month day]. auto.
Qed.

Lemma radd_ok (dt : date) (r : RelDelta.relativedelta) :
  valid dt -> -11 <= RelDelta.months r <= 11 ->
  let t := (year dt + RelDelta.years r) * 12 + (month dt - 1) + RelDelta.months r in
  1 <= t / 12 <= 9999 ->
  RelDelta.radd dt r =
  Ok (mkdate (t / 12) (t mod 12 + 1)
             (Z.min (RelDelta.monthrange_ndays (t / 12) (t mod 12 + 1)) (day dt))).
Proof.
  intros V Hm t Ht. unfold RelDelta.radd.
  pose proof V as V'. apply valid_iff in V'. destruct V' as (Vy & Vm & Vd).
  set (ym := if RelDelta.months r =? 0 then _ else _).
  assert (ym = (t / 12, t mod 12 + 1)) as E.
  { subst ym t. destruct (Z.eqb_spec (RelDelta.months r) 0) as [E0|E0].
    - f_equal; Z.div_mod_to_equations; lia.
    - destruct (Z.ltb_spec 12 (month dt + RelDelta.months r)).
      + f_equal; Z.div_mod_to_equations; lia.
      + destruct (Z.ltb_spec (month dt + RelDelta.months r) 1);
          f_equal; Z.div_mod_to_equations; lia. }
  rewrite E. clear E ym.
  set (y := t / 12) in *. set (m := t mod 12 + 1).
  assert (1 <= m <= 12) as Hm12 by (subst m; Z.div_mod_to_equations; lia).
  set (d := Z.min _ _).
  assert (valid (mkdate y m d)) as Vx.
  { unfold valid. cbn [year month day]. apply valid_iff.
    rewrite days_in_month_alt. subst d.
    unfold RelDelta.monthrange_ndays.
    pose proof (DAYS_IN_MONTH_bounds m Hm12).
    assert (0 <= b2z ((m =? 2) && is_leap y)) by (destruct ((m =? 2) && is_leap y); cbn; lia).
    lia. }
  unfold PyDate.replace. unfold valid in Vx. cbn [year month day] in Vx.
  rewrite (new_valid _ _ _ Vx). cbn [bind]. apply add_days_0. exact Vx.
Qed.

(** Outside the years 1 to 9999 there is no date: [replace] raises
    ValueError, and OverflowError for a year that does not fit a C [int]. *)
Lemma radd_overflow (dt : date) (r : RelDelta.relativedelta) :
  valid dt -> -11 <= RelDelta.months r <= 11 ->
  let t := (year dt + RelDelta.years r) * 12 + (month dt - 1) + RelDelta.months r in
  ~ 1 <= t / 12 <= 9999 ->
  RelDelta.radd dt r =
  Raise (if fits_int (t / 12) then ValueError else OverflowError).
Proof.
  intros V Hm t Ht. unfold RelDelta.radd.
  pose proof V as V'. apply valid_iff in V'. destruct V' as (Vy & Vm & Vd).
  pose proof (days_in_month_le (year dt) (month dt)) as D31.
  set (ym := if RelDelta.months r =? 0 then _ else _).
  assert (ym = (t / 12, t mod 12 + 1)) as E.
  { subst ym t. destruct (Z.eqb_spec (RelDelta.months r) 0) as [E0|E0].
    - f_equal; Z.div_mod_to_equations; lia.
    - destruct (Z.ltb_spec 12 (month dt + RelDelta.months r)).
      + f_equal; Z.div_mod_to_equations; lia.
      + destruct (Z.ltb_spec (month dt + RelDelta.months r) 1);
          f_equal; Z.div_mod_to_equations; lia. }
  rewrite E. clear E ym.
  set (y := t / 12) in *. set (m := t mod 12 + 1).
  assert (1 <= m <= 12) as Hm12 by (subst m; Z.div_mod_to_equations; lia).
  set (d := Z.min _ _).
  assert (1 <= d <= 31) as Hd.
  { subst d. unfold RelDelta.monthrange_ndays.
    pose proof (DAYS_IN_MONTH_bounds m Hm12).
    assert (0 <= b2z ((m =? 2) && is_leap y)) by (destruct ((m =? 2) && is_leap y); cbn; lia).
    lia. }
  unfold PyDate.replace. rewrite new_raises.
  - replace (fits_int m) with true by (symmetry; apply fits_int_iff; lia).
    replace (fits_int d) with true by (symmetry; apply fits_int_iff; lia).
    rewrite !andb_true_r. now destruct (fits_int y).
  - destruct (check_date_fields y m d) eqn:C; [|reflexivity].
    apply valid_iff in C. lia.
Qed.

End DateFacts.

(** ** The dates of a trial *)

Import PyDate DateFacts Pandas Sys BackTesting Aux.


Lemma bind_ok_inv {A B : Type} (m : res A) (k : A -> res B) (b : B) :
  bind m k = Ok b -> exists a, m = Ok a /\ k a = Ok b.
Proof.
  destruct m as [a|e]; cbn [bind]; intros H; [eauto | discriminate].
Qed.

Lemma get_datetime_format_valid (s : string) (R : date) :
  get_datetime_format s = Ok R -> valid R.
Proof.
  unfold get_datetime_format. intros H.
  apply bind_ok_inv in H. destruct H as (y & _ & H).
  apply bind_ok_inv in H. destruct H as (m & _ & H).
  apply bind_ok_inv in H. destruct H as (d & _ & H).
  now apply new_ok_valid in H.
Qed.

(** The day that [relativedelta] keeps when only the year changes. *)
Lemma clamp_day (d : date) (y' : Z) :
  valid d ->
  Z.min (RelDelta.monthrange_ndays y' (month d)) (day d) =
  if (month d =? 2) && (day d =? 29) && negb (is_leap y') then 28 else day d.
Proof.
  intros V. apply valid_iff in V. destruct V as (Vy & Vm & Vd).
  rewrite days_in_month_alt in Vd. unfold RelDelta.monthrange_ndays.
  pose proof (DAYS_IN_MONTH_bounds (month d) Vm) as B.
  destruct (Z.eqb_spec (month d) 2) as [E|E]; cbn [andb].
  - rewrite E in *. change (DAYS_IN_MONTH 2) with 28 in *.
    change (2 =? 2) with true in *.
    destruct (is_leap y'), (is_leap (year d)), (Z.eqb_spec (day d) 29);
      cbn [b2z andb negb] in *; lia.
  - replace (month d =? 2) with false in * by (symmetry; now apply Z.eqb_neq).
    cbn [b2z andb] in *. lia.
Qed.

(** C6: the end date is the start date moved by [years] calendar years: same
    month and day, a 29 February becoming 28 February when the target year is
    not a leap year. *)
Theorem end_date_years_later (self : self_) (d : date) (years : Z) :
  valid d -> 1 <= year d + years <= 9999 ->
  get_backtesting_end_date self d years =
  Ok (set_backtesting_end_date self
        (mkdate (year d + years) (month d)
                (if (month d =? 2) && (day d =? 29) &&
                    negb (is_leap (year d + years))
                 then 28 else day d))).
Proof.
  intros V Hy. unfold get_backtesting_end_date.
  destruct (make_months years 0) as (_ & _ & _ & E). rewrite (E eq_refl).
  pose proof V as V'. apply valid_iff in V'. destruct V' as (Vy & Vm & Vd).
  pose proof (radd_ok d (RelDelta.mkrel years 0) V ltac:(cbn; lia)) as R.
  cbv zeta in R. cbn [RelDelta.years RelDelta.months] in R.
  replace (((year d + years) * 12 + (month d - 1) + 0) / 12)
    with (year d + years) in R by (Z.div_mod_to_equations; lia).
  replace (((year d + years) * 12 + (month d - 1) + 0) mod 12 + 1)
    with (month d) in R by (Z.div_mod_to_equations; lia).
  rewrite (R Hy). cbn [bind]. now rewrite clamp_day.
Qed.

Lemma end_date_years_later_witness :
  valid (mkdate 2016 2 29) /\ 1 <= 2016 + 3 <= 9999 /\
  get_backtesting_end_date (init ".SPX" "20160101" 10) (mkdate 2016 2 29) 3 =
  Ok (set_backtesting_end_date (init ".SPX" "20160101" 10) (mkdate 2019 2 28)).
Proof.
  split; [reflexivity|]. split; [lia|].
  apply (end_date_years_later (init ".SPX" "20160101" 10) (mkdate 2016 2 29) 3);
    [reflexivity | cbn [year]; lia].
Defined.

(** Outside the years 1 to 9999 there is no date: the call raises
    ValueError, and OverflowError when the year does not fit a C [int]. *)
Lemma end_date_out_of_range (self : self_) (d : date) (years : Z) :
  valid d -> ~ 1 <= year d + years <= 9999 ->
  get_backtesting_end_date self d years =
  Raise (if fits_int (year d + years) then ValueError else OverflowError).
Proof.
  intros V Hy. unfold get_backtesting_end_date.
  destruct (make_months years 0) as (_ & _ & _ & E). rewrite (E eq_refl).
  pose proof V as V'. apply valid_iff in V'. destruct V' as (Vy & Vm & Vd).
  assert (((year d + years) * 12 + (month d - 1) + 0) / 12 = year d + years) as Q
    by (Z.div_mod_to_equations; lia).
  rewrite radd_overflow; [| assumption | cbn; lia |];
    cbn [RelDelta.years RelDelta.months]; rewrite Q; [reflexivity | exact Hy].
Qed.

Lemma radd_months_later (R upper : date) (M : Z) :
  valid R -> 0 < M -> RelDelta.radd R (RelDelta.make 0 M) = Ok upper ->
  valid upper /\ ltb R upper = true.
Proof.
  intros V HM E.
  destruct (make_months 0 M) as (E12 & B & P & _). destruct (P HM) as [P1 P2].
  destruct (radd_spec R _ upper V B E) as (Vu & Eu & _).
  split; [assumption|].
  pose proof V as V'. apply valid_iff in V'. destruct V' as (Vy & Vm & Vd).
  pose proof Vu as V'. apply valid_iff in V'. destruct V' as (Uy & Um & Ud).
  unfold ltb.
  destruct (Z.ltb_spec (year R) (year upper)) as [L|L]; [reflexivity|].
  assert (year R = year upper) as Ey by lia.
  rewrite Ey, Z.eqb_refl. cbn [orb andb].
  replace (month R <? month upper) with true; [reflexivity|].
  symmetry. apply Z.ltb_lt. lia.
Qed.

(** C3: the sampled start date lies in the half-open window that begins at
    the reference date and ends [month_interval] calendar months later. *)
Theorem start_date_in_window
  (self : self_) (date_string : string) (month_interval u : Z) (R upper : date) :
  get_datetime_format date_string = Ok R ->
  0 < month_interval ->
  RelDelta.radd R (RelDelta.make 0 month_interval) = Ok upper ->
  exists d,
    get_backtestign_start_date self date_string month_interval u =
      Ok (set_backtesting_start_date self d) /\
    valid d /\ leb R d = true /\ ltb d upper = true.
Proof.
  intros HR HM HU.
  pose proof (get_datetime_format_valid _ _ HR) as V.
  destruct (radd_months_later R upper month_interval V HM HU) as [Vu L].
  pose proof (toordinal_lt R upper V Vu L) as Lo.
  pose proof (toordinal_range R V) as RR.
  pose proof (toordinal_range upper Vu) as RU.
  unfold get_backtestign_start_date. rewrite HR. cbn [bind]. rewrite HU. cbn [bind].
  unfold randrange, sub_days.
  replace (0 <? toordinal upper - toordinal R) with true
    by (symmetry; apply Z.ltb_lt; lia).
  cbn [bind].
  set (r := u mod (toordinal upper - toordinal R)).
  assert (0 <= r < toordinal upper - toordinal R) as Hr
    by (apply Z.mod_pos_bound; lia).
  destruct (add_days_spec R r V ltac:(lia)) as (d & Ed & Vd & Od).
  exists d. rewrite Ed. cbn [bind]. split; [reflexivity|]. split; [assumption|].
  split.
  - apply leb_iff_toordinal; [assumption..|]. lia.
  - apply ltb_iff_toordinal; [assumption..|]. lia.
Qed.

Lemma start_date_in_window_witness :
  get_datetime_format "20160101" = Ok (mkdate 2016 1 1) /\ 0 < 1 /\
  RelDelta.radd (mkdate 2016 1 1) (RelDelta.make 0 1) = Ok (mkdate 2016 2 1) /\
  exists d,
    get_backtestign_start_date (init ".SPX" "20160101" 10) "20160101" 1 30 =
      Ok (set_backtesting_start_date (init ".SPX" "20160101" 10) d) /\
    valid d /\ leb (mkdate 2016 1 1) d = true /\ ltb d (mkdate 2016 2 1) = true.
Proof.
  split; [reflexivity|]. split; [lia|]. split; [reflexivity|].
  apply (start_date_in_window (init ".SPX" "20160101" 10) "20160101" 1 30
           (mkdate 2016 1 1) (mkdate 2016 2 1)); [reflexivity | lia | reflexivity].
Defined.

(** Every day of the window is drawn by some [u]. *)
Lemma start_date_covers_window
  (self : self_) (date_string : string) (month_interval : Z) (R upper d : date) :
  get_datetime_format date_string = Ok R ->
  0 < month_interval ->
  RelDelta.radd R (RelDelta.make 0 month_interval) = Ok upper ->
  valid d -> leb R d = true -> ltb d upper = true ->
  get_backtestign_start_date self date_string month_interval
    (toordinal d - toordinal R) = Ok (set_backtesting_start_date self d).
Proof.
  intros HR HM HU Vd L1 L2.
  pose proof (get_datetime_format_valid _ _ HR) as V.
  destruct (radd_months_later R upper month_interval V HM HU) as [Vu L].
  apply leb_iff_toordinal in L1; [|assumption..].
  apply ltb_iff_toordinal in L2; [|assumption..].
  pose proof (toordinal_range d Vd) as RD.
  unfold get_backtestign_start_date. rewrite HR. cbn [bind]. rewrite HU. cbn [bind].
  unfold randrange, sub_days.
  replace (0 <? toordinal upper - toordinal R) with true
    by (symmetry; apply Z.ltb_lt; lia).
  cbn [bind]. rewrite Z.mod_small by lia.
  unfold add_days.
  replace (toordinal R + (toordinal d - toordinal R)) with (toordinal d) by ring.
  replace (0 <? toordinal d) with true by (symmetry; apply Z.ltb_lt; lia).
  replace (toordinal d <=? MAXORDINAL) with true by (symmetry; apply Z.leb_le; lia).
  cbn. now rewrite ord2ymd_toordinal.
Qed.

(** When the end of the window would fall after the year 9999, no date is
    sampled: the call raises. *)
Lemma start_date_window_overflow
  (self : self_) (date_string : string) (month_interval u : Z) (R : date) (e : exn) :
  get_datetime_format date_string = Ok R ->
  RelDelta.radd R (RelDelta.make 0 month_interval) = Raise e ->
  get_backtestign_start_date self date_string month_interval u = Raise e.
Proof.
  intros HR HU. unfold get_backtestign_start_date.
  rewrite HR. cbn [bind]. now rewrite HU.
Qed.

(** ** Digits: [int] and the formats of [strftime] *)

Module StrFacts.
Import PyStr CalendarAux.

Lemma digit_char_props (d : Z) :
  0 <= d <= 9 ->
  is_digit (digit_char d) = true /\ is_space (digit_char d) = false /\
  digit_val (digit_char d) = d /\ Ascii.eqb (digit_char d) "_" = false /\
  Ascii.eqb (digit_char d) "-" = false /\ Ascii.eqb (digit_char d) "+" = false.
Proof.
  intros H.
  assert (d = 0 \/ d = 1 \/ d = 2 \/ d = 3 \/ d = 4 \/ d = 5 \/ d = 6 \/
          d = 7 \/ d = 8 \/ d = 9) as C by lia.
  repeat (destruct C as [C|C]); subst d; vm_compute; repeat split; reflexivity.
Qed.

Lemma is_digit_char (c : ascii) :
  is_digit c = true -> digit_char (digit_val c) = c /\ 0 <= digit_val c <= 9.
Proof.
  unfold is_digit, digit_char, digit_val.
  rewrite andb_true_iff, !Z.leb_le. intros [H1 H2]. split; [|lia].
  replace (48 + (Z.of_nat (nat_of_ascii c) - 48)) with (Z.of_nat (nat_of_ascii c)) by ring.
  rewrite Nat2Z.id. apply ascii_nat_embedding.
Qed.

Lemma mod10 (a b : Z) : 0 <= b <= 9 -> (a * 10 + b) mod 10 = b /\ (a * 10 + b) / 10 = a.
Proof. intros H. Z.div_mod_to_equations. lia. Qed.

Ltac digit_facts :=
  repeat match goal with
  | H : 0 <= ?d <= 9 |- _ =>
      lazymatch goal with
      | _ : is_digit (digit_char d) = true |- _ => fail
      | _ => let P := fresh "P" in
             pose proof (digit_char_props d H) as P;
             destruct P as (? & ? & ? & ? & ? & ?)
      end
  end.

Ltac use_digit_facts :=
  repeat match goal with
  | H : is_digit _ = true |- _ => rewrite H
  | H : is_space _ = false |- _ => rewrite H
  | H : digit_val (digit_char _) = _ |- _ => rewrite H
  | H : Ascii.eqb _ _ = false |- _ => rewrite H
  end.

Lemma int_4 (a b c d : Z) :
  0 <= a <= 9 -> 0 <= b <= 9 -> 0 <= c <= 9 -> 0 <= d <= 9 ->
  int (String (digit_char a) (String (digit_char b)
        (String (digit_char c) (String (digit_char d) EmptyString)))) =
  Ok (((a * 10 + b) * 10 + c) * 10 + d).
Proof.
  intros Ha Hb Hc Hd. digit_facts.
  unfold int. cbn [lstrip]. use_digit_facts. cbn [rstrip]. use_digit_facts.
  cbn [int_digits]. use_digit_facts. cbn [int_digits]. f_equal.
Qed.

Lemma int_2 (a b : Z) :
  0 <= a <= 9 -> 0 <= b <= 9 ->
  int (String (digit_char a) (String (digit_char b) EmptyString)) =
  Ok (a * 10 + b).
Proof.
  intros Ha Hb. digit_facts.
  unfold int. cbn [lstrip]. use_digit_facts. cbn [rstrip]. use_digit_facts.
  cbn [int_digits]. use_digit_facts. cbn [int_digits]. f_equal.
Qed.

Lemma zero_padded_4 (n : Z) :
  zero_padded 4 n EmptyString =
  String (digit_char (n / 10 / 10 / 10 mod 10)) (String (digit_char (n / 10 / 10 mod 10))
    (String (digit_char (n / 10 mod 10)) (String (digit_char (n mod 10)) EmptyString))).
Proof. reflexivity. Qed.

Lemma zero_padded_2 (n : Z) :
  zero_padded 2 n EmptyString =
  String (digit_char (n / 10 mod 10)) (String (digit_char (n mod 10)) EmptyString).
Proof. reflexivity. Qed.

Lemma date_bounds (d : date) :
  valid d -> 1 <= year d <= 9999 /\ 1 <= month d <= 12 /\ 1 <= day d <= 31.
Proof.
  intros V. apply valid_iff in V. destruct V as (Vy & Vm & Vd).
  rewrite days_in_month_alt in Vd.
  pose proof (DAYS_IN_MONTH_bounds (month d) Vm).
  destruct (Z.eqb_spec (month d) 2) as [E|E].
  - rewrite E in *. change (DAYS_IN_MONTH 2) with 28 in *.
    destruct (is_leap (year d)); cbn [andb b2z] in *; lia.
  - cbn [andb b2z] in *. lia.
Qed.

Lemma parse_padded (d : date) :
  valid d -> get_datetime_format (strftime_Ymd Padded d) = Ok d.
Proof.
  intros V. pose proof (date_bounds d V) as (By & Bm & Bd).
  unfold get_datetime_format, strftime_Ymd.
  rewrite zero_padded_4, !zero_padded_2.
  cbn [String.append slice substring Nat.sub].
  rewrite int_4, !int_2 by (Z.div_mod_to_equations; lia).
  cbn [bind].
  replace (((year d / 10 / 10 / 10 mod 10 * 10 + year d / 10 / 10 mod 10) * 10 +
            year d / 10 mod 10) * 10 + year d mod 10) with (year d)
    by (Z.div_mod_to_equations; lia).
  replace (month d / 10 mod 10 * 10 + month d mod 10) with (month d)
    by (Z.div_mod_to_equations; lia).
  replace (day d / 10 mod 10 * 10 + day d mod 10) with (day d)
    by (Z.div_mod_to_equations; lia).
  unfold valid in V. rewrite (new_valid _ _ _ V). now destruct d.
Qed.

Lemma decimal_table :
  forallb (fun y => String.eqb (decimal y) (zero_padded 4 y EmptyString))
          four_digit_years = true.
Proof. vm_compute. reflexivity. Qed.

Lemma decimal_four_digits (y : Z) :
  1000 <= y <= 9999 -> decimal y = zero_padded 4 y EmptyString.
Proof.
  intros H. pose proof decimal_table as T. rewrite forallb_forall in T.
  apply String.eqb_eq. apply T. unfold four_digit_years.
  apply in_map_iff. exists (Z.to_nat (y - 1000)). split; [cbn beta; lia|].
  apply in_seq. lia.
Qed.

Lemma strftime_unpadded (d : date) :
  1000 <= year d <= 9999 -> strftime_Ymd Unpadded d = strftime_Ymd Padded d.
Proof. intros H. unfold strftime_Ymd. now rewrite decimal_four_digits. Qed.

Lemma eight_digits (s : string) :
  String.length s = 8%nat -> all_digits s = true ->
  exists a b c d e f g h,
    s = String (digit_char a) (String (digit_char b) (String (digit_char c)
          (String (digit_char d) (String (digit_char e) (String (digit_char f)
          (String (digit_char g) (String (digit_char h) EmptyString))))))) /\
    0 <= a <= 9 /\ 0 <= b <= 9 /\ 0 <= c <= 9 /\ 0 <= d <= 9 /\
    0 <= e <= 9 /\ 0 <= f <= 9 /\ 0 <= g <= 9 /\ 0 <= h <= 9.
Proof.
  intros L A.
  do 8 (destruct s as [|? s]; [discriminate L|]).
  destruct s; [|discriminate L].
  cbn [all_digits] in A. rewrite !andb_true_iff in A.
  destruct A as (A1 & A2 & A3 & A4 & A5 & A6 & A7 & A8 & _).
  apply is_digit_char in A1, A2, A3, A4, A5, A6, A7, A8.
  destruct A1 as [E1 ?], A2 as [E2 ?], A3 as [E3 ?], A4 as [E4 ?],
           A5 as [E5 ?], A6 as [E6 ?], A7 as [E7 ?], A8 as [E8 ?].
  exists (digit_val a), (digit_val a0), (digit_val a1), (digit_val a2),
         (digit_val a3), (digit_val a4), (digit_val a5), (digit_val a6).
  rewrite E1, E2, E3, E4, E5, E6, E7, E8. repeat split; lia.
Qed.

Lemma format_padded (s : string) (d : date) :
  String.length s = 8%nat -> all_digits s = true ->
  get_datetime_format s = Ok d -> strftime_Ymd Padded d = s.
Proof.
  intros L A H.
  destruct (eight_digits s L A)
    as (a & b & c & e & f & g & h & i & -> & Ha & Hb & Hc & He & Hf & Hg & Hh & Hi).
  unfold get_datetime_format in H.
  cbn [slice substring Nat.sub] in H.
  rewrite int_4, !int_2 in H by assumption. cbn [bind] in H.
  apply new_ok_valid in H. destruct H as [_ ->].
  unfold strftime_Ymd. cbn [year month day].
  rewrite zero_padded_4, !zero_padded_2. cbn [String.append].
  repeat (f_equal; try (Z.div_mod_to_equations; lia)).
Qed.

End StrFacts.

(** C9, as amended: parsing and formatting are mutually inverse for every
    date that is printed with a four-digit year: every date from the year
    1000 on, and every date where the C library zero-fills [%Y]. *)
Theorem date_string_round_trip (pf : platform) (d : date) :
  valid d ->
  pf = Padded \/ 1000 <= year d ->
  get_datetime_format (get_date_string_format pf d) = Ok d /\
  (forall s : string,
     String.length s = 8%nat -> PyStr.all_digits s = true ->
     get_datetime_format s = Ok d ->
     get_date_string_format pf d = s).
Proof.
  unfold get_date_string_format. intros V Hpf.
  pose proof (StrFacts.date_bounds d V) as (By & _).
  assert (strftime_Ymd pf d = strftime_Ymd Padded d) as E.
  { destruct pf; [reflexivity|]. destruct Hpf as [?|Hy]; [discriminate|].
    apply StrFacts.strftime_unpadded. lia. }
  rewrite E. split.
  - now apply StrFacts.parse_padded.
  - intros s L A H. now apply StrFacts.format_padded.
Qed.

Lemma date_string_round_trip_witness :
  valid (mkdate 2019 2 28) /\
  (Unpadded = Padded \/ 1000 <= 2019) /\
  get_datetime_format (get_date_string_format Unpadded (mkdate 2019 2 28)) =
    Ok (mkdate 2019 2 28) /\
  (String.length "20190228" = 8%nat -> PyStr.all_digits "20190228" = true ->
   get_datetime_format "20190228" = Ok (mkdate 2019 2 28) ->
   get_date_string_format Unpadded (mkdate 2019 2 28) = "20190228"%string).
Proof.
  split; [reflexivity|]. split; [right; lia|].
  destruct (date_string_round_trip Unpadded (mkdate 2019 2 28))
    as [P F]; [reflexivity | right; cbn [year]; lia |].
  split; [exact P | exact (F "20190228"%string)].
Defined.

(** C9 as stated fails where [%Y] is not zero-filled: the year 999 is printed
    with three digits, the seven characters read back as a date of the year
    9990, and the eight-character string of that date is not printed back. *)
Lemma date_string_round_trip_fails :
  valid (mkdate 999 1 2) /\
  get_date_string_format Unpadded (mkdate 999 1 2) = "9990102"%string /\
  get_datetime_format (get_date_string_format Unpadded (mkdate 999 1 2)) =
    Ok (mkdate 9990 10 2) /\
  get_datetime_format (get_date_string_format Unpadded (mkdate 999 1 2)) <>
    Ok (mkdate 999 1 2) /\
  String.length "09990102" = 8%nat /\ PyStr.all_digits "09990102" = true /\
  get_datetime_format "09990102" = Ok (mkdate 999 1 2) /\
  get_date_string_format Unpadded (mkdate 999 1 2) <> "09990102"%string.
Proof.
  repeat split; try reflexivity; vm_compute; discriminate.
Qed.

(** ** The retry loops *)

Section PriceLoop.
Variable env : Env.
Variable ric_list : list label.
Variable date_ : string.

Lemma errors_from_S (n k : nat) :
  errors_from env (price_request ric_list date_) n (S k) ->
  (exists df msgs, ek_get_data env n (price_request ric_list date_) = Ok (mkResponse df (Some msgs))) /\
  errors_from env (price_request ric_list date_) (S n) k.
Proof.
  intros H. split.
  - destruct (H O ltac:(lia)) as (df & msgs & E). rewrite Nat.add_0_r in E. eauto.
  - intros i Hi. destruct (H (S i) ltac:(lia)) as (df & msgs & E).
    replace (S n + i)%nat with (n + S i)%nat by lia. eauto.
Qed.

Lemma price_close_loop_running (k : nat) :
  forall (c : Z) (w : World),
    errors_from env (price_request ric_list date_) (requests w) k ->
    price_close_loop env k ric_list date_ c w =
    Running (after_requests w k (retry_lines date_ ric_list c k)).
Proof.
  induction k as [|k IH]; intros c w H.
  - cbn. unfold after_requests. rewrite Nat.add_0_r, app_nil_r. now destruct w.
  - apply errors_from_S in H. destruct H as [(df & msgs & E) H].
    cbn [price_close_loop]. unfold mbind at 1, get_price_close, request.
    fold (price_request ric_list date_). rewrite E.
    unfold mbind at 1.
    set (w1 := mkWorld (S (requests w)) (draws w) (stdout w) (written w)).
    destruct (Z.eqb_spec c 0) as [->|Hc].
    + cbn [ret err]. rewrite (IH _ w1 H). unfold after_requests, w1.
      cbn [requests draws stdout written retry_lines Z.eqb app].
      f_equal. f_equal. lia.
    + cbn [print err].
      rewrite (IH _ (mkWorld (S (requests w)) (draws w)
                       (stdout w ++ [MsgEikonRetry date_ ric_list c]) (written w)) H).
      unfold after_requests.
      cbn [requests draws stdout written retry_lines].
      replace (c =? 0) with false by (symmetry; now apply Z.eqb_neq).
      rewrite <- app_assoc. f_equal. f_equal. lia.
Qed.

Lemma price_close_loop_done (k : nat) :
  forall (c : Z) (w : World) (fuel : nat) (df : DataFrame),
    errors_from env (price_request ric_list date_) (requests w) k ->
    ek_get_data env (requests w + k) (price_request ric_list date_) = Ok (mkResponse df None) ->
    (k < fuel)%nat ->
    price_close_loop env fuel ric_list date_ c w =
    Done df (after_requests w (S k) (retry_lines date_ ric_list c (S k))).
Proof.
  induction k as [|k IH]; intros c w fuel df H E Hf.
  - destruct fuel as [|fuel]; [lia|]. rewrite Nat.add_0_r in E.
    cbn [price_close_loop]. unfold mbind at 1, get_price_close, request.
    fold (price_request ric_list date_). rewrite E. unfold mbind at 1.
    unfold after_requests. cbn [retry_lines]. rewrite app_nil_r.
    destruct (Z.eqb_spec c 0) as [->|Hc]; unfold ret, print;
      cbn [err data app requests draws stdout written].
    + rewrite app_nil_r. f_equal. f_equal. lia.
    + f_equal. f_equal. lia.
  - destruct fuel as [|fuel]; [lia|].
    apply errors_from_S in H. destruct H as [(df0 & msgs & E0) H].
    cbn [price_close_loop]. unfold mbind at 1, get_price_close, request.
    fold (price_request ric_list date_). rewrite E0. unfold mbind at 1.
    set (w1 := mkWorld (S (requests w)) (draws w) (stdout w) (written w)).
    assert (ek_get_data env (requests w1 + k) (price_request ric_list date_)
            = Ok (mkResponse df None)) as E1.
    { unfold w1. cbn [requests]. replace (S (requests w) + k)%nat
        with (requests w + S k)%nat by lia. exact E. }
    destruct (Z.eqb_spec c 0) as [->|Hc].
    + cbn [ret err]. rewrite (IH _ w1 fuel df H E1 ltac:(lia)).
      unfold after_requests, w1.
      cbn [requests draws stdout written]. 
      change (retry_lines date_ ric_list 0 (S (S k)))
        with (retry_lines date_ ric_list (0 + 1) (S k)).
      f_equal. f_equal. lia.
    + cbn [print err].
      rewrite (IH _ (mkWorld (S (requests w)) (draws w)
                       (stdout w ++ [MsgEikonRetry date_ ric_list c]) (written w))
                  fuel df H E1 ltac:(lia)).
      unfold after_requests. cbn [requests draws stdout written].
      cbn [retry_lines].
      replace (c =? 0) with false by (symmetry; now apply Z.eqb_neq).
      rewrite <- app_assoc. f_equal. f_equal. lia.
Qed.

End PriceLoop.

(** C1, as amended: a price loop of [get_asset_performance] asks again until
    an answer comes without an error and continues with that answer; while
    the answers carry errors it keeps asking, with no bound on the attempts
    and without raising. *)
Theorem price_loop_retries_until_success
  (env : Env) (ric_list : list label) (date_ : string) (w : World) (k : nat) :
  errors_from env (price_request ric_list date_) (requests w) k ->
  (forall (df : DataFrame) (fuel : nat),
     ek_get_data env (requests w + k) (price_request ric_list date_) =
       Ok (mkResponse df None) ->
     (k < fuel)%nat ->
     price_close_loop env fuel ric_list date_ 0 w =
     Done df (after_requests w (S k) (retry_lines date_ ric_list 0 (S k)))) /\
  price_close_loop env k ric_list date_ 0 w =
  Running (after_requests w k (retry_lines date_ ric_list 0 k)).
Proof.
  intros H. split.
  - intros df fuel E Hf. now apply price_close_loop_done.
  - now apply price_close_loop_running.
Qed.

Lemma price_loop_retries_until_success_witness :
  errors_from flaky_env_A (price_request [LStr "A"] "20160104")
              (requests world0) 2 /\
  price_close_loop flaky_env_A 3 [LStr "A"] "20160104" 0 world0 =
    Done quote_A
      (mkWorld 3 0 [MsgEikonRetry "20160104" [LStr "A"] 1;
                    MsgEikonRetry "20160104" [LStr "A"] 2] []) /\
  price_close_loop flaky_env_A 2 [LStr "A"] "20160104" 0 world0 =
    Running (mkWorld 2 0 [MsgEikonRetry "20160104" [LStr "A"] 1] []).
Proof.
  assert (errors_from flaky_env_A (price_request [LStr "A"] "20160104")
                      (requests world0) 2) as H.
  { intros i Hi. exists Pandas.empty, ["Backend error. 400 Bad Request"%string].
    destruct i as [|[|i]]; [reflexivity | reflexivity | lia]. }
  split; [exact H|].
  destruct (price_loop_retries_until_success flaky_env_A [LStr "A"] "20160104"
              world0 2 H) as [D R].
  split.
  - apply (D quote_A 3%nat); [reflexivity | lia].
  - exact R.
Defined.

Lemma failing_provider_errors (rq : Request) (n k : nat) :
  errors_from failing_env rq n k.
Proof. intros i _. now exists Pandas.empty, ["Backend error. 400 Bad Request"%string]. Qed.

(** With a provider that never answers without an error,
    [get_asset_performance] is still in its first loop after any number of
    passes: it has asked as many times and has neither returned nor raised. *)
Lemma get_asset_performance_never_gives_up
  (fuel : nat) (start_date end_date : string) (ric_list : list label) (w : World) :
  get_asset_performance failing_env fuel start_date end_date ric_list w =
  Running (after_requests w fuel (retry_lines start_date ric_list 0 fuel)).
Proof.
  unfold get_asset_performance, mbind at 1.
  now rewrite price_close_loop_running by apply failing_provider_errors.
Qed.

(** C1 as stated fails: when every answer carries an error the call makes a
    fourth request and goes on; it never raises. *)
Lemma retry_is_not_bounded :
  (forall n rq, exists df msgs,
      ek_get_data failing_env n rq = Ok (mkResponse df (Some msgs))) /\
  get_asset_performance failing_env 4 "20160104" "20190104" [LStr "MSFT.OQ"] world0 =
    Running (mkWorld 4 0 [MsgEikonRetry "20160104" [LStr "MSFT.OQ"] 1;
                          MsgEikonRetry "20160104" [LStr "MSFT.OQ"] 2;
                          MsgEikonRetry "20160104" [LStr "MSFT.OQ"] 3] []) /\
  (forall fuel e w,
      get_asset_performance failing_env fuel "20160104" "20190104"
        [LStr "MSFT.OQ"] world0 <> Fail e w).
Proof.
  split; [|split].
  - intros n rq. now exists Pandas.empty, ["Backend error. 400 Bad Request"%string].
  - rewrite get_asset_performance_never_gives_up. reflexivity.
  - intros fuel e w. rewrite get_asset_performance_never_gives_up. discriminate.
Qed.

(** [get_index] is the bounded loop: after the third request it stops asking,
    prints, and saves what it has, even an empty table; it does not raise. *)
Lemma get_index_gives_up_after_three (self : self_) (fields_list : list string)
  (start_date_arg : string) :
  exists w,
    get_index failing_env 3 self fields_list start_date_arg world0 = Done tt w /\
    requests w = 3%nat /\ stdout w = [MsgIndexFailed start_date_arg] /\
    List.length (written w) = 3%nat.
Proof. eexists. split; [reflexivity|]. repeat split. Qed.

Lemma get_index_loop_bounded (env : Env) (self : self_) (start_date_arg : string)
  (fuel : nat) :
  forall (index_df : DataFrame) (count : Z) (w : World),
    0 <= count <= 2 -> 3 - count <= Z.of_nat fuel ->
    match get_index_loop env fuel self start_date_arg index_df count w with
    | Done _ w' | Fail _ w' => Z.of_nat (requests w') <= Z.of_nat (requests w) + (3 - count)
    | Running _ => False
    end.
Proof.
  induction fuel as [|fuel IH]; intros index_df count w Hc Hf; [lia|].
  cbn [get_index_loop].
  destruct (len index_df <=? 1); [|unfold ret; lia].
  unfold mbind at 1, request.
  destruct (ek_get_data env (requests w) _) as [r|e]; [|cbn [requests]; lia].
  destruct (Z.eqb_spec count 2) as [->|Hne].
  - unfold mbind, print, ret. cbn [requests]. lia.
  - set (w1 := mkWorld _ _ _ _).
    specialize (IH (data r) (count + 1) w1 ltac:(lia) ltac:(lia)).
    destruct (get_index_loop env fuel self start_date_arg (data r) (count + 1) w1);
      subst w1; cbn [requests] in IH; try lia.
Qed.

(** [get_index] never asks more than three times. *)
Lemma get_index_at_most_three_requests (env : Env) (self : self_)
  (start_date_arg : string) (w : World) :
  match get_index_loop env 3 self start_date_arg Pandas.empty 0 w with
  | Done _ w' | Fail _ w' => (requests w' <= requests w + 3)%nat
  | Running _ => False
  end.
Proof.
  pose proof (get_index_loop_bounded env self start_date_arg 3 Pandas.empty 0 w
                ltac:(lia) ltac:(lia)) as H.
  destruct (get_index_loop env 3 self start_date_arg Pandas.empty 0 w); lia.
Qed.

(** C10: with [equally_weighted = True] and an allocation, or with
    [equally_weighted = False] and none, the call prints its message and
    returns [None]; nothing is computed and nothing is raised, whatever the
    state of the object. *)
Theorem inconsistent_arguments_return_None
  (self : self_) (allocation_dict : PyDict.dict float) (w : World) :
  get_portfolio_return self true (Some allocation_dict) w =
    Done None (after_requests w 0 [MsgAllocationUnexpected]) /\
  get_portfolio_return self false None w =
    Done None (after_requests w 0 [MsgAllocationMissing]).
Proof.
  unfold after_requests. rewrite Nat.add_0_r. split; reflexivity.
Qed.

(** On an object without performance rows the consistent call raises, the
    inconsistent ones still return [None]. *)
Lemma inconsistent_arguments_example :
  get_portfolio_return demo_self true None world0 = Fail ZeroDivisionError world0 /\
  get_portfolio_return demo_self true (Some []) world0 =
    Done None (mkWorld 0 0 [MsgAllocationUnexpected] []) /\
  get_portfolio_return demo_self false None world0 =
    Done None (mkWorld 0 0 [MsgAllocationMissing] []) /\
  get_portfolio_return demo_self false (Some []) world0 =
    Done (Some 0%float) world0.
Proof. repeat split. Qed.

(** ** Returns *)

Lemma add_asset_return_spec (self : self_) (acc : float) (item : PyDict.key * float)
  (r : float) :
  simple_return_of self (fst item) = Ok r ->
  add_asset_return self acc item =
  Ok (PrimFloat.add acc (PrimFloat.mul (PrimFloat.div r 100) (snd item))).
Proof.
  destruct item as [asset weight]. unfold simple_return_of, add_asset_return.
  cbn [fst snd].
  destruct (getitem (asset_performance self) "Instrument") as [ins|]; cbn [bind];
    [|discriminate].
  destruct (loc_mask_first _ _ _) as [[p|o]|]; cbn [bind]; try discriminate.
  intros H. injection H as ->. reflexivity.
Qed.

Lemma portfolio_loop_spec (self : self_) (alloc : PyDict.dict float) (rets : list float) :
  Forall2 (fun item r => simple_return_of self (fst item) = Ok r) alloc rets ->
  forall acc,
    portfolio_loop self acc alloc =
    Ok (fold_left (fun acc wr =>
                     PrimFloat.add acc (PrimFloat.mul (PrimFloat.div (snd wr) 100) (fst wr)))
                  (combine (map snd alloc) rets) acc).
Proof.
  induction 1 as [|item r alloc rets H _ IH]; intros acc; [reflexivity|].
  cbn [portfolio_loop map combine fold_left].
  rewrite (add_asset_return_spec self acc item r H). cbn [bind fst snd].
  apply IH.
Qed.

(** C2, as amended: the portfolio return is the sum, taken from 0 in the
    order of the allocation, of (return / 100) * weight, times 100, every
    operation being a binary64 operation. *)
Theorem portfolio_return_weighted_sum
  (self : self_) (allocation_dict : PyDict.dict float) (returns : list float) :
  Forall2 (fun item r => simple_return_of self (fst item) = Ok r)
          allocation_dict returns ->
  calculate_portfolio_return self allocation_dict =
  Ok (PrimFloat.mul
        (weighted_sum (combine (map snd allocation_dict) returns)) 100).
Proof.
  intros H. unfold calculate_portfolio_return, weighted_sum.
  now rewrite (portfolio_loop_spec self allocation_dict returns H).
Qed.

Lemma portfolio_return_weighted_sum_witness :
  Forall2 (fun item r => simple_return_of self_AB (fst item) = Ok r)
          alloc_AB [10%float; (-4)%float] /\
  calculate_portfolio_return self_AB alloc_AB = Ok (0x1.8000000000001p+1)%float /\
  PrimFloat.leb (PrimFloat.abs (PrimFloat.sub (0x1.8000000000001p+1) 3)) (0x1p-51)
  = true.
Proof.
  assert (Forall2 (fun item r => simple_return_of self_AB (fst item) = Ok r)
                  alloc_AB [10%float; (-4)%float]) as H
    by (repeat constructor).
  split; [exact H|]. split; [|reflexivity].
  exact (portfolio_return_weighted_sum self_AB alloc_AB [10%float; (-4)%float] H).
Defined.

(** C2 as stated fails on its own example: the sum 0.05 + -0.02 is rounded
    to 0.030000000000000002, and the result is 3.0000000000000004. *)
Lemma portfolio_return_example_not_3 :
  calculate_portfolio_return self_AB alloc_AB = Ok (0x1.8000000000001p+1)%float /\
  is_float 3%float (calculate_portfolio_return self_AB alloc_AB) = false /\
  calculate_portfolio_return self_AB alloc_AB <> Ok 3%float.
Proof.
  split; [reflexivity|]. split; [reflexivity|].
  intros H. apply (f_equal (is_float 3%float)) in H. discriminate H.
Qed.

(** An allocation entry without a performance row raises. *)
Lemma portfolio_return_unknown_instrument :
  calculate_portfolio_return self_AB [(Some "C"%string, 1%float)] = Raise IndexError.
Proof. reflexivity. Qed.

Lemma label_eqb_refl (l : label) : label_eqb l l = true.
Proof. destruct l; cbn; [apply Z.eqb_refl | apply String.eqb_refl]. Qed.

Lemma index_equals_refl (ls : list label) : index_equals ls ls = true.
Proof.
  induction ls as [|l ls IH]; [reflexivity|].
  cbn. now rewrite label_eqb_refl.
Qed.

Lemma reindex_same (idx : list label) (c : column) :
  reindex (mkSeries idx c) idx = Ok c.
Proof. unfold reindex. cbn [s_index s_values]. now rewrite index_equals_refl. Qed.

(** assigning a column that carries the frame's own index *)
Lemma setitem_same_index (idx : list label) (cols : list (string * column))
  (name : string) (c : column) :
  setitem (mkDF idx cols) name (mkSeries idx c) =
  if existsb (fun nc => String.eqb (fst nc) name) cols
  then Ok (mkDF idx (map (fun nc => if String.eqb (fst nc) name then (fst nc, c) else nc) cols))
  else Ok (mkDF idx (cols ++ [(name, c)])).
Proof.
  unfold setitem. cbn [index s_index columns].
  assert ((match idx with
           | [] => match idx with
                   | [] => mkDF idx cols
                   | _ :: _ => mkDF idx (map (fun nc => (fst nc, col_missing (List.length idx) (snd nc))) cols)
                   end
           | _ :: _ => mkDF idx cols
           end) = mkDF idx cols) as E by (destruct idx; reflexivity).
  destruct idx; cbn [index columns]; rewrite reindex_same; reflexivity.
Qed.

Lemma eqb_false (a b : string) : a <> b -> String.eqb a b = false.
Proof. apply String.eqb_neq. Qed.

Lemma iloc_col_last_of_2 (idx : list label) (a b : string * column) :
  iloc_col (mkDF idx [a; b]) (-1) = Ok (mkSeries idx (snd b)).
Proof. reflexivity. Qed.

Lemma iloc_col_of_3 (idx : list label) (a b c : string * column) :
  iloc_col (mkDF idx [a; b; c]) 1 = Ok (mkSeries idx (snd b)) /\
  iloc_col (mkDF idx [a; b; c]) 2 = Ok (mkSeries idx (snd c)).
Proof. split; reflexivity. Qed.

Lemma iloc_col_of_4 (idx : list label) (a b c d : string * column) :
  iloc_col (mkDF idx [a; b; c; d]) 1 = Ok (mkSeries idx (snd b)) /\
  iloc_col (mkDF idx [a; b; c; d]) 2 = Ok (mkSeries idx (snd c)).
Proof. split; reflexivity. Qed.

(** the two derived columns, for a frame of three columns *)
Lemma add_returns_spec (env : Env) (idx : list label) (c0 : column)
  (n0 n1 n2 : string) (xs ys : list float) :
  n0 <> "return"%string -> n1 <> "return"%string -> n2 <> "return"%string ->
  n0 <> "log_return"%string -> n1 <> "log_return"%string ->
  n2 <> "log_return"%string ->
  add_returns env (mkDF idx [(n0, c0); (n1, FloatCol xs); (n2, FloatCol ys)]) =
  Ok (mkDF idx
        [(n0, c0); (n1, FloatCol xs); (n2, FloatCol ys);
         ("return"%string,
          FloatCol (per_row (fun s e =>
                      PrimFloat.mul (PrimFloat.sub (PrimFloat.div e s) 1) 100) xs ys));
         ("log_return"%string,
          FloatCol (per_row (fun s e =>
                      PrimFloat.mul (np_log env (PrimFloat.div e s)) 100) xs ys))]).
Proof.
  intros R0 R1 R2 L0 L1 L2. unfold add_returns.
  destruct (iloc_col_of_3 idx (n0, c0) (n1, FloatCol xs) (n2, FloatCol ys)) as [I1 I2].
  rewrite I2. cbn [bind]. rewrite I1. cbn [bind snd].
  unfold series_binop, series_map. cbn [s_values s_index bind].
  rewrite setitem_same_index. cbn [existsb fst].
  rewrite (eqb_false _ _ R0), (eqb_false _ _ R1), (eqb_false _ _ R2).
  cbn [orb bind app].
  match goal with
  | |- context [iloc_col (mkDF idx [?a; ?b; ?c; ?d]) 2] =>
      destruct (iloc_col_of_4 idx a b c d) as [J1 J2]
  end.
  rewrite J2. cbn [bind]. rewrite J1. cbn [bind snd s_values s_index].
  rewrite setitem_same_index. cbn [existsb fst].
  rewrite (eqb_false _ _ L0), (eqb_false _ _ L1), (eqb_false _ _ L2).
  cbn [String.eqb Ascii.eqb Bool.eqb orb andb app].
  unfold per_row. now rewrite !map_map.
Qed.

(** C4: from the two price tables, [get_asset_performance] computes for each
    row the simple return (e / s - 1) * 100 and the log return
    log(e / s) * 100, where s and e are the row's start and end price and
    log is [np.log]. *)
Theorem returns_per_instrument
  (env : Env) (fuel : nat) (start_date end_date : string)
  (ric_list : list label) (rics : list string) (starts ends : list float)
  (w : World) :
  (0 < fuel)%nat ->
  end_date <> "Instrument"%string -> end_date <> start_date ->
  start_date <> "return"%string -> end_date <> "return"%string ->
  start_date <> "log_return"%string -> end_date <> "log_return"%string ->
  ek_get_data env (requests w) (price_request ric_list start_date) =
    Ok (mkResponse (price_frame rics starts) None) ->
  ek_get_data env (S (requests w)) (price_request ric_list end_date) =
    Ok (mkResponse (price_frame rics ends) None) ->
  get_asset_performance env fuel start_date end_date ric_list w =
  Done (mkDF (RangeIndex (List.length rics))
          [("Instrument"%string, ObjCol (map Some rics));
           (start_date, FloatCol starts);
           (end_date, FloatCol ends);
           ("return"%string,
            FloatCol (per_row (fun s e =>
                        PrimFloat.mul (PrimFloat.sub (PrimFloat.div e s) 1) 100)
                      starts ends));
           ("log_return"%string,
            FloatCol (per_row (fun s e =>
                        PrimFloat.mul (np_log env (PrimFloat.div e s)) 100)
                      starts ends))])
       (after_requests w 2 []).
Proof.
  intros Hf N1 N2 N3 N4 N5 N6 E1 E2.
  destruct fuel as [|fuel]; [lia|].
  unfold get_asset_performance.
  unfold mbind at 1. cbn [price_close_loop].
  unfold mbind at 1, get_price_close, request.
  fold (price_request ric_list start_date). rewrite E1.
  unfold mbind at 1. cbn [Z.eqb ret err data].
  unfold mbind at 1, lift, change_column_name, set_columns, price_frame.
  cbn [columns List.length Nat.eqb map snd combine index].
  unfold mbind at 1. cbn [price_close_loop].
  unfold mbind at 1, get_price_close, request.
  fold (price_request ric_list end_date). cbn [requests]. rewrite E2.
  unfold mbind at 1. cbn [Z.eqb ret err data].
  unfold lift, change_column_name, set_columns, price_frame.
  cbn [columns List.length Nat.eqb map snd combine index bind].
  rewrite iloc_col_last_of_2. cbn [bind snd].
  rewrite setitem_same_index. cbn [existsb fst].
  rewrite (String.eqb_sym "Instrument" end_date), (eqb_false _ _ N1).
  rewrite (String.eqb_sym start_date end_date), (eqb_false _ _ N2).
  cbn [orb bind app].
  rewrite add_returns_spec by (assumption || discriminate).
  unfold after_requests. cbn [requests draws stdout written].
  rewrite app_nil_r. f_equal. f_equal. lia.
Qed.

Lemma returns_per_instrument_witness :
  get_asset_performance quotes_env_AB 1 "20160104" "20190104"
                        [LStr "A"; LStr "B"] world0 =
  Done (mkDF [LInt 0; LInt 1]
          [("Instrument"%string, ObjCol [Some "A"; Some "B"]%string);
           ("20160104"%string, FloatCol [100; 50]%float);
           ("20190104"%string, FloatCol [110; 45]%float);
           ("return"%string,
            FloatCol [0x1.4000000000005p+3; -0x1.3ffffffffffffp+3]%float);
           ("log_return"%string,
            FloatCol
              [PrimFloat.mul (np_log quotes_env_AB (PrimFloat.div 110 100)) 100;
               PrimFloat.mul (np_log quotes_env_AB (PrimFloat.div 45 50)) 100])])
       (mkWorld 2 0 [] []).
Proof.
  apply (returns_per_instrument quotes_env_AB 1 "20160104" "20190104"
           [LStr "A"; LStr "B"]
           ["A"; "B"]%string [100; 50]%float [110; 45]%float world0);
    try discriminate; try reflexivity. lia.
Defined.

(** ** The order of numpy's sorts on floats *)

Module FloatOrder.

Lemma SFeqb_refl_finite s m e : SFeqb (S754_finite s m e) (S754_finite s m e) = true.
Proof.
  unfold SFeqb, SFcompare. rewrite Z.compare_refl.
  destruct s; rewrite Pos.compare_cont_refl; reflexivity.
Qed.

Lemma SF_lt_rank (a b : spec_float) :
  SFltb a b || (negb (SFeqb b b) && negb (negb (SFeqb a a)))
  = lex_ltb (rank a) (rank b).
Proof.
  destruct a as [sa|sa| |sa ma ea], b as [sb|sb| |sb mb eb];
    try (destruct sa); try (destruct sb);
    rewrite ?SFeqb_refl_finite; try reflexivity;
    unfold SFltb, SFeqb, SFcompare, rank, lex_ltb; cbn [negb andb orb].
  all: rewrite ?orb_false_r.
  all: try (destruct (Z.compare_spec ea eb) as [E|E|E];
            [subst; rewrite Pos.compare_cont_spec; cbn [Pos.switch_Eq];
             destruct (Pos.compare_spec ma mb) as [E'|E'|E']; cbn [CompOpp]
            | | ]).
  all: repeat match goal with
       | |- context [(?x <? ?y)%Z] => destruct (Z.ltb_spec x y)
       | |- context [(?x =? ?y)%Z] => destruct (Z.eqb_spec x y)
       end; cbn [andb orb]; try reflexivity; try lia.
Qed.

Lemma np_lt_sort_key (a b : float) :
  Numpy.np_lt a b = lex_ltb (sort_key a) (sort_key b).
Proof.
  unfold Numpy.np_lt, Pandas.is_nan, sort_key.
  rewrite FloatAxioms.ltb_spec, !FloatAxioms.eqb_spec. apply SF_lt_rank.
Qed.

Lemma lex_ltb_lt (a b : Z * Z * Z) :
  lex_ltb a b = true <->
  let '(a1, a2, a3) := a in
  let '(b1, b2, b3) := b in
  (a1 < b1 \/ (a1 = b1 /\ (a2 < b2 \/ (a2 = b2 /\ a3 < b3))))%Z.
Proof.
  destruct a as [[a1 a2] a3], b as [[b1 b2] b3]. unfold lex_ltb.
  rewrite !orb_true_iff, !andb_true_iff, !orb_true_iff, !andb_true_iff,
    !Z.ltb_lt, !Z.eqb_eq. reflexivity.
Qed.

Lemma lex_ltb_ge (a b : Z * Z * Z) :
  lex_ltb a b = false <->
  let '(a1, a2, a3) := a in
  let '(b1, b2, b3) := b in
  (b1 < a1 \/ (a1 = b1 /\ (b2 < a2 \/ (a2 = b2 /\ b3 <= a3))))%Z.
Proof.
  rewrite <- not_true_iff_false, lex_ltb_lt.
  destruct a as [[a1 a2] a3], b as [[b1 b2] b3]. lia.
Qed.

Lemma np_lt_asym (a b : float) :
  Numpy.np_lt a b = true -> Numpy.np_lt b a = false.
Proof.
  rewrite !np_lt_sort_key, lex_ltb_lt, lex_ltb_ge.
  destruct (sort_key a) as [[? ?] ?], (sort_key b) as [[? ?] ?]. lia.
Qed.

Lemma np_lt_trans (a b c : float) :
  Numpy.np_lt a b = true -> Numpy.np_lt b c = true -> Numpy.np_lt a c = true.
Proof.
  rewrite !np_lt_sort_key, !lex_ltb_lt.
  destruct (sort_key a) as [[? ?] ?], (sort_key b) as [[? ?] ?],
    (sort_key c) as [[? ?] ?]. lia.
Qed.

Lemma np_ge_trans (a b c : float) :
  Numpy.np_lt a b = false -> Numpy.np_lt b c = false -> Numpy.np_lt a c = false.
Proof.
  rewrite !np_lt_sort_key, !lex_ltb_ge.
  destruct (sort_key a) as [[? ?] ?], (sort_key b) as [[? ?] ?],
    (sort_key c) as [[? ?] ?]. lia.
Qed.

Lemma np_lt_ge_trans (a b c : float) :
  Numpy.np_lt a b = true -> Numpy.np_lt c b = false -> Numpy.np_lt a c = true.
Proof.
  rewrite !np_lt_sort_key, !lex_ltb_lt, lex_ltb_ge.
  destruct (sort_key a) as [[? ?] ?], (sort_key b) as [[? ?] ?],
    (sort_key c) as [[? ?] ?]. lia.
Qed.

End FloatOrder.

Import FloatOrder.

(** ** Selection *)

Section SortedLists.
Context {A B : Type}.

Lemma StronglySorted_app (R : A -> A -> Prop) (l1 l2 : list A) :
  StronglySorted R l1 -> StronglySorted R l2 ->
  (forall a b, In a l1 -> In b l2 -> R a b) ->
  StronglySorted R (l1 ++ l2).
Proof.
  induction l1 as [|x l1 IH]; intros S1 S2 H; [exact S2|].
  apply StronglySorted_inv in S1. destruct S1 as [S1 F].
  cbn [app]. constructor.
  - apply IH; [assumption..|]. intros a b Ha Hb. apply H; [now right | assumption].
  - apply Forall_app. split; [assumption|].
    apply Forall_forall. intros b Hb. apply H; [now left | assumption].
Qed.

Lemma StronglySorted_rev (R : A -> A -> Prop) (l : list A) :
  StronglySorted R l -> StronglySorted (fun a b => R b a) (rev l).
Proof.
  induction 1 as [|x l S IH F]; [constructor|].
  cbn [rev]. apply StronglySorted_app; [exact IH | repeat constructor |].
  intros a b Ha [<-|[]]. apply in_rev in Ha.
  rewrite Forall_forall in F. now apply F.
Qed.

Lemma StronglySorted_map_in (R : A -> A -> Prop) (R' : B -> B -> Prop)
  (f : A -> B) (l : list A) :
  StronglySorted R l ->
  (forall a b, In a l -> In b l -> R a b -> R' (f a) (f b)) ->
  StronglySorted R' (map f l).
Proof.
  induction 1 as [|x l S IH F]; intros H; [constructor|].
  cbn [map]. constructor.
  - apply IH. intros a b Ha Hb. apply H; now right.
  - rewrite Forall_forall in *. intros y Hy.
    apply in_map_iff in Hy. destruct Hy as (b & <- & Hb).
    apply H; [now left | now right | now apply F].
Qed.

Lemma StronglySorted_weaken_in (R R' : A -> A -> Prop) (l : list A) :
  StronglySorted R l ->
  (forall a b, In a l -> In b l -> R a b -> R' a b) ->
  StronglySorted R' l.
Proof.
  induction 1 as [|x l S IH F]; intros H; [constructor|].
  constructor.
  - apply IH. intros a b Ha Hb. apply H; now right.
  - rewrite Forall_forall in *. intros y Hy.
    apply H; [now left | now right | now apply F].
Qed.

Lemma StronglySorted_filter_of (R : A -> A -> Prop) (f : A -> bool) (l : list A) :
  StronglySorted R l -> StronglySorted R (filter f l).
Proof.
  induction 1 as [|x l S IH F]; [constructor|].
  cbn [filter]. destruct (f x); [|exact IH].
  constructor; [exact IH|].
  rewrite Forall_forall in *. intros y Hy. apply filter_In in Hy. now apply F.
Qed.

Lemma StronglySorted_nth (R : A -> A -> Prop) (l : list A) (d : A) (a b : nat) :
  StronglySorted R l -> (a < b < List.length l)%nat -> R (nth a l d) (nth b l d).
Proof.
  intros S. revert a b. induction S as [|x l S IH F]; intros a b H.
  - cbn in H. lia.
  - destruct b as [|b]; [lia|]. cbn [List.length] in H. destruct a as [|a].
    + cbn [nth]. rewrite Forall_forall in F. apply F, nth_In. lia.
    + cbn [nth]. apply IH. lia.
Qed.

(** two lists in the same strict order with the same elements are equal *)
Lemma StronglySorted_unique (R : A -> A -> Prop) (l1 l2 : list A) :
  (forall a b, R a b -> R b a -> False) ->
  StronglySorted R l1 -> StronglySorted R l2 -> Permutation l1 l2 -> l1 = l2.
Proof.
  intros Asym S1. revert l2.
  induction S1 as [|x l1 S1 IH F1]; intros l2 S2 P.
  - apply Permutation_nil in P. now subst.
  - destruct S2 as [|y l2 S2 F2].
    + apply Permutation_sym, Permutation_nil in P. discriminate P.
    + assert (x = y) as ->.
      { rewrite Forall_forall in F1, F2.
        assert (In x (y :: l2)) as Hx by (apply (Permutation_in _ P); now left).
        assert (In y (x :: l1)) as Hy
            by (apply (Permutation_in _ (Permutation_sym P)); now left).
        destruct Hx as [->|Hx]; [reflexivity|].
        destruct Hy as [->|Hy]; [reflexivity|].
        exfalso. apply (Asym x y); [now apply F1 | now apply F2]. }
      f_equal. apply IH; [exact S2|]. now apply Permutation_cons_inv in P.
Qed.

End SortedLists.

Lemma map_nth_seq {A : Type} (l : list A) (d : A) :
  map (fun i => nth i l d) (seq 0 (List.length l)) = l.
Proof.
  induction l as [|x l IH]; [reflexivity|].
  cbn [List.length seq map nth]. f_equal.
  rewrite <- seq_shift, map_map. exact IH.
Qed.

Lemma Permutation_map_nth {A : Type} (l : list A) (d : A) (q : list nat) :
  Permutation q (seq 0 (List.length l)) ->
  Permutation (map (fun i => nth i l d) q) l.
Proof.
  intros P. apply (Permutation_map (fun i => nth i l d)) in P.
  now rewrite map_nth_seq in P.
Qed.

Lemma Permutation_filter_split {A : Type} (f : A -> bool) (l : list A) :
  Permutation (filter (fun x => negb (f x)) l ++ filter f l) l.
Proof.
  induction l as [|x l IH]; [constructor|].
  cbn [filter]. destruct (f x); cbn [negb app].
  - apply Permutation_sym, Permutation_cons_app, Permutation_sym, IH.
  - now constructor.
Qed.

Lemma firstn_min_length {A : Type} (l : list A) (k : nat) :
  firstn (Nat.min (List.length l) k) l = firstn k l.
Proof.
  destruct (Nat.le_gt_cases k (List.length l)) as [H|H].
  - now rewrite Nat.min_r.
  - rewrite Nat.min_l by lia. rewrite firstn_all. symmetry. apply firstn_all2. lia.
Qed.

(** what a list accepted by [argsort_ok] is *)
Lemma ascending_sorted (v : list float) (r : list nat) :
  ascending v r = true ->
  StronglySorted (fun a b => Numpy.np_lt (nth b v nan) (nth a v nan) = false) r.
Proof.
  induction r as [|a r IH]; intros H; [constructor|].
  cbn [ascending] in H. apply andb_prop in H. destruct H as [H1 H2].
  constructor; [now apply IH|].
  rewrite forallb_forall in H1. apply Forall_forall. intros b Hb.
  apply H1 in Hb. now apply negb_true_iff in Hb.
Qed.

Lemma argsort_ok_spec (v : list float) (r : list nat) :
  argsort_ok v r = true ->
  Permutation r (seq 0 (List.length v)) /\
  StronglySorted (fun a b => Numpy.np_lt (nth b v nan) (nth a v nan) = false) r.
Proof.
  unfold argsort_ok. rewrite !andb_true_iff. intros [[L I] S].
  apply Nat.eqb_eq in L. split; [|now apply ascending_sorted].
  apply Permutation_sym. apply NoDup_Permutation_bis.
  - apply seq_NoDup.
  - rewrite length_seq. lia.
  - intros i Hi. rewrite forallb_forall in I. apply I in Hi.
    apply existsb_exists in Hi. destruct Hi as (j & Hj & E).
    apply Nat.eqb_eq in E. now subst.
Qed.

Lemma seq_sorted (a n : nat) : StronglySorted lt (seq a n).
Proof.
  revert a. induction n as [|n IH]; intros a; [constructor|].
  cbn [seq]. constructor; [apply IH|].
  apply Forall_forall. intros b Hb. apply in_seq in Hb. lia.
Qed.

(** ** The stable argsort *)

Section StableArgsort.
Variable v : list float.

Lemma insert_position_permutation (i : nat) (s : list nat) :
  Permutation (Numpy.insert_position v i s) (i :: s).
Proof.
  induction s as [|j s IH]; [reflexivity|].
  cbn [Numpy.insert_position].
  destruct (Numpy.np_lt (nth i v nan) (nth j v nan)); [reflexivity|].
  rewrite IH. apply perm_swap.
Qed.

Lemma insert_position_sorted (i : nat) (s : list nat) :
  StronglySorted (stably_before v) s ->
  Forall (fun p => (p < i)%nat) s ->
  StronglySorted (stably_before v) (Numpy.insert_position v i s).
Proof.
  induction 1 as [|j s S IH F]; intros L.
  - repeat constructor.
  - cbn [Numpy.insert_position].
    apply Forall_cons_iff in L. destruct L as [Lj L].
    destruct (Numpy.np_lt (nth i v nan) (nth j v nan)) eqn:E.
    + constructor; [now constructor|].
      assert (forall b, In b (j :: s) ->
                Numpy.np_lt (nth i v nan) (nth b v nan) = true) as Hlt.
      { intros b [<-|Hb]; [exact E|].
        rewrite Forall_forall in F. destruct (F b Hb) as [Hbj _].
        now apply (np_lt_ge_trans _ (nth j v nan)). }
      apply Forall_forall. intros b Hb. apply Hlt in Hb. split.
      * now apply np_lt_asym.
      * intros N. rewrite Hb in N. discriminate N.
    + constructor; [now apply IH|].
      apply Forall_forall. intros b Hb.
      apply (Permutation_in _ (insert_position_permutation i s)) in Hb.
      destruct Hb as [<-|Hb].
      * split; [exact E | intros _; exact Lj].
      * rewrite Forall_forall in F. now apply F.
Qed.

Lemma insert_all (m k : nat) (acc : list nat) :
  Permutation acc (seq 0 k) ->
  StronglySorted (stably_before v) acc ->
  Permutation
    (fold_left (fun sorted i => Numpy.insert_position v i sorted) (seq k m) acc)
    (seq 0 (k + m)) /\
  StronglySorted (stably_before v)
    (fold_left (fun sorted i => Numpy.insert_position v i sorted) (seq k m) acc).
Proof.
  revert k acc. induction m as [|m IH]; intros k acc P St.
  - cbn [seq fold_left]. now rewrite Nat.add_0_r.
  - cbn [seq fold_left]. replace (k + S m)%nat with (S k + m)%nat by lia.
    apply IH.
    + rewrite insert_position_permutation, seq_S. cbn [Nat.add].
      rewrite P. apply Permutation_cons_append.
    + apply insert_position_sorted; [exact St|].
      apply Forall_forall. intros p Hp.
      apply (Permutation_in _ P) in Hp. apply in_seq in Hp. lia.
Qed.

(** [argsort_stable] returns the positions in ascending order of value,
    equal values in the order of their positions *)
Lemma argsort_stable_spec :
  Permutation (Numpy.argsort_stable v) (seq 0 (List.length v)) /\
  StronglySorted (stably_before v) (Numpy.argsort_stable v).
Proof.
  unfold Numpy.argsort_stable.
  apply (insert_all (List.length v) 0 []); constructor.
Qed.

Lemma sorted_ascending (r : list nat) :
  StronglySorted (fun a b => Numpy.np_lt (nth b v nan) (nth a v nan) = false) r ->
  ascending v r = true.
Proof.
  induction 1 as [|a r S IH F]; [reflexivity|].
  cbn [ascending]. rewrite IH, andb_true_r.
  apply forallb_forall. intros b Hb. rewrite Forall_forall in F.
  now rewrite (F b Hb).
Qed.

(** it meets the contract that the selection theorems ask of [np.argsort] *)
Lemma argsort_stable_ok : argsort_ok v (Numpy.argsort_stable v) = true.
Proof.
  destruct argsort_stable_spec as [P S].
  unfold argsort_ok. rewrite !andb_true_iff. repeat split.
  - apply Nat.eqb_eq. apply Permutation_length in P. now rewrite P, length_seq.
  - apply forallb_forall. intros i Hi.
    apply (Permutation_in _ (Permutation_sym P)) in Hi.
    apply existsb_exists. exists i. split; [exact Hi | apply Nat.eqb_refl].
  - apply sorted_ascending.
    apply (StronglySorted_weaken_in _ _ _ S). now intros a b _ _ [H _].
Qed.

End StableArgsort.

Section Nargsort.
Variable argsort : list float -> list nat.
Variable xs : list float.
Hypothesis Hok : argsort_ok (sort_input xs) (argsort (sort_input xs)) = true.

Lemma nargsort_unfold :
  nargsort_descending argsort xs =
  rev (map (fun p => nth p (rev (scored xs)) O) (argsort (sort_input xs)))
  ++ unscored xs.
Proof. reflexivity. Qed.

Lemma sort_input_length :
  List.length (sort_input xs) = List.length (rev (scored xs)).
Proof. unfold sort_input. now rewrite !length_rev, length_map. Qed.

Lemma sort_input_nth (p : nat) :
  (p < List.length (rev (scored xs)))%nat ->
  nth p (sort_input xs) nan = nth (nth p (rev (scored xs)) O) xs nan.
Proof.
  intros Hp. unfold sort_input. fold (scored xs).
  rewrite <- map_rev.
  rewrite (nth_indep _ nan (nth O xs nan)) by now rewrite length_map.
  apply (map_nth (fun i => nth i xs nan)).
Qed.

Lemma nargsort_permutation :
  Permutation (nargsort_descending argsort xs) (seq 0 (List.length xs)).
Proof.
  rewrite nargsort_unfold.
  destruct (argsort_ok_spec _ _ Hok) as [P _].
  rewrite sort_input_length in P.
  apply (Permutation_map_nth (rev (scored xs)) O) in P.
  rewrite <- (Permutation_filter_split (fun i => is_nan (nth i xs nan))
                (seq 0 (List.length xs))).
  fold (scored xs). fold (unscored xs). apply Permutation_app_tail.
  rewrite <- Permutation_rev. rewrite P. apply Permutation_sym, Permutation_rev.
Qed.

Lemma nargsort_descending_sorted :
  StronglySorted
    (fun a b => may_precede (nth a xs nan) (nth b xs nan) = true)
    (nargsort_descending argsort xs).
Proof.
  rewrite nargsort_unfold.
  destruct (argsort_ok_spec _ _ Hok) as [P S].
  rewrite sort_input_length in P.
  assert (forall p, In p (argsort (sort_input xs)) ->
                    (p < List.length (rev (scored xs)))%nat) as Hin.
  { intros p Hp. apply (Permutation_in _ P) in Hp. apply in_seq in Hp. lia. }
  assert (forall p, (p < List.length (rev (scored xs)))%nat ->
                    is_nan (nth (nth p (rev (scored xs)) O) xs nan) = false) as Hnn.
  { intros p Hp. assert (In (nth p (rev (scored xs)) O) (scored xs)) as Hk
      by (apply in_rev; now apply nth_In).
    unfold scored in Hk. apply filter_In in Hk. destruct Hk as [_ Hk].
    now apply negb_true_iff in Hk. }
  apply StronglySorted_app.
  - apply (StronglySorted_weaken_in
             (fun a b => Numpy.np_lt (nth a xs nan) (nth b xs nan) = false
                         /\ is_nan (nth a xs nan) = false
                         /\ is_nan (nth b xs nan) = false)).
    + apply (StronglySorted_rev
               (fun a b => Numpy.np_lt (nth b xs nan) (nth a xs nan) = false
                           /\ is_nan (nth b xs nan) = false
                           /\ is_nan (nth a xs nan) = false)).
      apply (StronglySorted_map_in _ _ _ _ S).
      intros a b Ha Hb R. rewrite !sort_input_nth in R by now apply Hin.
      repeat split; [exact R | now apply Hnn, Hin | now apply Hnn, Hin].
    + intros a b _ _ (R & Na & Nb). unfold may_precede, Numpy.np_lt in *.
      rewrite Na, Nb in *. cbn [negb andb orb] in *.
      rewrite orb_false_r in R. now rewrite R.
  - unfold unscored. clear.
    induction (seq 0 (List.length xs)) as [|i l IH]; [constructor|].
    cbn [filter]. destruct (is_nan (nth i xs nan)) eqn:E; [|exact IH].
    constructor; [exact IH|].
    apply Forall_forall. intros b Hb. apply filter_In in Hb.
    unfold may_precede. now rewrite (proj2 Hb).
  - intros a b _ Hb. unfold unscored in Hb. apply filter_In in Hb.
    unfold may_precede. now rewrite (proj2 Hb).
Qed.

End Nargsort.

Section StableNargsort.
Variable argsort : list float -> list nat.
Variable xs : list float.
Hypothesis Hperm :
  Permutation (argsort (sort_input xs)) (seq 0 (List.length (sort_input xs))).
Hypothesis Hstable :
  StronglySorted (stably_before (sort_input xs)) (argsort (sort_input xs)).

(** a stable argsort makes the descending order of [nargsort] stable too:
    rows of equal score keep the order of the table *)
Lemma nargsort_descending_stable :
  StronglySorted (stably_precedes xs) (nargsort_descending argsort xs).
Proof.
  rewrite nargsort_unfold.
  pose proof Hperm as P. rewrite sort_input_length in P.
  assert (forall p, In p (argsort (sort_input xs)) ->
                    (p < List.length (rev (scored xs)))%nat) as Hin.
  { intros p Hp. apply (Permutation_in _ P) in Hp. apply in_seq in Hp. lia. }
  assert (forall p, (p < List.length (rev (scored xs)))%nat ->
                    is_nan (nth (nth p (rev (scored xs)) O) xs nan) = false) as Hnn.
  { intros p Hp. assert (In (nth p (rev (scored xs)) O) (scored xs)) as Hk
      by (apply in_rev; now apply nth_In).
    unfold scored in Hk. apply filter_In in Hk. destruct Hk as [_ Hk].
    now apply negb_true_iff in Hk. }
  assert (StronglySorted (fun a b => (b < a)%nat) (rev (scored xs))) as Hdec.
  { apply (StronglySorted_rev lt). apply StronglySorted_filter_of, seq_sorted. }
  apply StronglySorted_app.
  - apply (StronglySorted_rev (fun a b => stably_precedes xs b a)).
    apply (StronglySorted_map_in _ _ _ _ Hstable).
    intros a b Ha Hb [R1 R2].
    rewrite !sort_input_nth in R1, R2 by now apply Hin.
    pose proof (Hnn a (Hin a Ha)) as Na. pose proof (Hnn b (Hin b Hb)) as Nb.
    unfold stably_precedes, may_precede, Numpy.np_lt in *.
    rewrite Na, Nb in *. cbn [negb andb orb] in *.
    rewrite orb_false_r in *. split.
    + now rewrite R1.
    + intros M. apply negb_true_iff in M. apply R2 in M.
      apply (StronglySorted_nth _ _ O a b Hdec). split; [exact M | now apply Hin].
  - assert (StronglySorted lt (unscored xs)) as Hinc
        by apply StronglySorted_filter_of, seq_sorted.
    apply (StronglySorted_weaken_in _ _ _ Hinc).
    intros a b _ Hb L. unfold unscored in Hb. apply filter_In in Hb.
    unfold stably_precedes, may_precede. rewrite (proj2 Hb). now split.
  - intros a b Ha Hb. unfold unscored in Hb. apply filter_In in Hb.
    apply in_rev, in_map_iff in Ha. destruct Ha as (p & <- & Hp).
    pose proof (Hnn p (Hin p Hp)) as Np.
    unfold stably_precedes, may_precede. rewrite (proj2 Hb), Np.
    cbn [negb andb orb]. split; [reflexivity | discriminate].
Qed.

End StableNargsort.

(** no two rows stand before each other, so the stable descending order of a
    table is unique *)
Lemma stably_precedes_asym (xs : list float) (a b : nat) :
  stably_precedes xs a b -> stably_precedes xs b a -> False.
Proof. intros [M1 L1] [M2 L2]. specialize (L1 M2). specialize (L2 M1). lia. Qed.

Lemma stable_order_unique (xs : list float) (l1 l2 : list nat) :
  StronglySorted (stably_precedes xs) l1 ->
  StronglySorted (stably_precedes xs) l2 ->
  Permutation l1 l2 -> l1 = l2.
Proof. apply StronglySorted_unique, stably_precedes_asym. Qed.

Local Open Scope Z_scope.

(** [select_assets] on a table with a numeric score column *)
Lemma select_assets_unfold (env : Env) (self : self_) (results_df : DataFrame)
  (xs : list float) (k : Z) :
  score_column results_df xs -> 0 <= k ->
  let order := nargsort_descending (np_argsort env) xs in
  let rows := map (fun p => nth p (index results_df) (LInt 0)) order in
  exists self',
    select_assets env self results_df k = Ok self' /\
    ric_list self' = firstn (Z.to_nat k) rows /\
    index (selected_assets self') = ric_list self'.
Proof.
  intros Hs Hk order rows.
  unfold select_assets, sort_values_descending. unfold score_column in Hs.
  rewrite Hs. cbn [bind]. eexists. split; [reflexivity|].
  cbn [ric_list set_selection selected_assets iloc_head_last2 index take].
  split; [|reflexivity].
  unfold slice_stop. replace (0 <=? k) with true by (symmetry; now apply Z.leb_le).
  fold order. fold rows. apply firstn_min_length.
Qed.

(** C5, as amended: the selection is the first k rows of the table put in
    descending order of score (rows without a score last), provided numpy's
    argsort returns a sorted permutation for the scores of the table; the
    order among equal scores is the one argsort leaves. *)
Theorem select_assets_top_k
  (env : Env) (self : self_) (results_df : DataFrame) (xs : list float) (k : Z) :
  score_column results_df xs ->
  0 <= k ->
  argsort_ok (sort_input xs) (np_argsort env (sort_input xs)) = true ->
  exists (order : list nat) (self' : self_),
    Permutation order (seq 0 (List.length xs)) /\
    StronglySorted
      (fun a b => may_precede (nth a xs nan) (nth b xs nan) = true) order /\
    select_assets env self results_df k = Ok self' /\
    ric_list self' =
      firstn (Z.to_nat k)
             (map (fun p => nth p (index results_df) (LInt 0)) order).
Proof.
  intros Hs Hk Hok.
  destruct (select_assets_unfold env self results_df xs k Hs Hk)
    as (self' & E & R & _).
  exists (nargsort_descending (np_argsort env) xs), self'.
  split; [now apply nargsort_permutation|].
  split; [now apply nargsort_descending_sorted|].
  now split.
Qed.

Lemma select_assets_top_k_witness :
  score_column eighteen
    (map float_of_Z [9; 9; 8; 8; 7; 7; 6; 6; 5; 5; 4; 4; 3; 3; 2; 2; 1; 1]) /\
  exists (order : list nat) (self' : self_),
    Permutation order (seq 0 18) /\
    StronglySorted
      (fun a b =>
         may_precede
           (nth a (map float_of_Z [9; 9; 8; 8; 7; 7; 6; 6; 5; 5; 4; 4; 3; 3; 2; 2; 1; 1]) nan)
           (nth b (map float_of_Z [9; 9; 8; 8; 7; 7; 6; 6; 5; 5; 4; 4; 3; 3; 2; 2; 1; 1]) nan)
         = true) order /\
    select_assets numpy_env (init ".SPX" "20160101" 10) eighteen 10 = Ok self' /\
    ric_list self' =
      firstn 10 (map (fun p => nth p (index eighteen) (LInt 0)) order).
Proof.
  split; [reflexivity|].
  apply (select_assets_top_k numpy_env (init ".SPX" "20160101" 10) eighteen
           (map float_of_Z [9; 9; 8; 8; 7; 7; 6; 6; 5; 5; 4; 4; 3; 3; 2; 2; 1; 1]) 10);
    [reflexivity | lia | vm_compute; reflexivity].
Defined.

(** C5 as stated fails: on eighteen assets, numpy's default argsort puts
    A09 before A08, two assets of score 5 that stand the other way round in
    the table. *)
Lemma selection_is_not_stable :
  exists self',
    select_assets numpy_env (init ".SPX" "20160101" 10) eighteen 10 = Ok self' /\
    ric_list self' =
      map LStr ["A00"; "A01"; "A02"; "A03"; "A04"; "A05"; "A06"; "A07";
                "A09"; "A08"]%string /\
    ric_list self' <>
      map LStr ["A00"; "A01"; "A02"; "A03"; "A04"; "A05"; "A06"; "A07";
                "A08"; "A09"]%string.
Proof.
  eexists. split; [vm_compute; reflexivity|]. split; [reflexivity|].
  cbn. discriminate.
Qed.

(** Were [np.argsort] called with a stable kind, the selection would be the
    first k rows of the one stable descending order of the table: rows of
    equal score in the order of the table. *)
Lemma select_assets_with_stable_sort
  (env : Env) (self : self_) (results_df : DataFrame) (xs : list float) (k : Z) :
  score_column results_df xs ->
  0 <= k ->
  np_argsort env (sort_input xs) = Numpy.argsort_stable (sort_input xs) ->
  exists (order : list nat) (self' : self_),
    Permutation order (seq 0 (List.length xs)) /\
    StronglySorted (stably_precedes xs) order /\
    (forall order', Permutation order' (seq 0 (List.length xs)) ->
                    StronglySorted (stably_precedes xs) order' ->
                    order' = order) /\
    select_assets env self results_df k = Ok self' /\
    ric_list self' =
      firstn (Z.to_nat k)
             (map (fun p => nth p (index results_df) (LInt 0)) order).
Proof.
  intros Hs Hk Hst.
  destruct (select_assets_unfold env self results_df xs k Hs Hk)
    as (self' & E & R & _).
  destruct (argsort_stable_spec (sort_input xs)) as [P S].
  assert (Permutation (nargsort_descending (np_argsort env) xs)
                      (seq 0 (List.length xs))) as Pn.
  { apply nargsort_permutation. rewrite Hst. apply argsort_stable_ok. }
  assert (StronglySorted (stably_precedes xs)
                         (nargsort_descending (np_argsort env) xs)) as Sn.
  { apply nargsort_descending_stable; now rewrite Hst. }
  exists (nargsort_descending (np_argsort env) xs), self'.
  repeat split; try assumption.
  intros order' P' S'. apply (stable_order_unique xs); [assumption..|].
  rewrite P'. now apply Permutation_sym.
Qed.

(** The order that the default sort leaves on the eighteen assets is not
    the stable one. *)
Lemma default_order_not_stable :
  ~ StronglySorted
      (stably_precedes
         (map float_of_Z [9; 9; 8; 8; 7; 7; 6; 6; 5; 5; 4; 4; 3; 3; 2; 2; 1; 1]))
      (nargsort_descending (np_argsort numpy_env)
         (map float_of_Z [9; 9; 8; 8; 7; 7; 6; 6; 5; 5; 4; 4; 3; 3; 2; 2; 1; 1])).
Proof.
  intros S.
  apply (StronglySorted_nth _ _ O 8 9) in S; [|vm_compute; lia].
  destruct S as [_ L].
  assert (nth 8 (nargsort_descending (np_argsort numpy_env)
            (map float_of_Z [9; 9; 8; 8; 7; 7; 6; 6; 5; 5; 4; 4; 3; 3; 2; 2; 1; 1])) O
          = 9%nat) as E8 by (vm_compute; reflexivity).
  assert (nth 9 (nargsort_descending (np_argsort numpy_env)
            (map float_of_Z [9; 9; 8; 8; 7; 7; 6; 6; 5; 5; 4; 4; 3; 3; 2; 2; 1; 1])) O
          = 8%nat) as E9 by (vm_compute; reflexivity).
  rewrite E8, E9 in L.
  assert (9 < 8)%nat as F by (apply L; vm_compute; reflexivity).
  lia.
Qed.

(** With a stable argsort the same call keeps A08 before A09, and the small
    example of the specification keeps its two assets of score 5 in order
    under both. *)
Lemma selection_examples :
  (exists self',
     select_assets failing_env (init ".SPX" "20160101" 10) eighteen 10 = Ok self' /\
     ric_list self' =
       map LStr ["A00"; "A01"; "A02"; "A03"; "A04"; "A05"; "A06"; "A07";
                 "A08"; "A09"]%string) /\
  (exists self',
     select_assets numpy_env (init ".SPX" "20160101" 10) five 3 = Ok self' /\
     ric_list self' = map LStr ["P"; "Q"; "R"]%string).
Proof.
  split; eexists; (split; [vm_compute; reflexivity | reflexivity]).
Qed.

(** C7, as amended: with fewer than k rows the selection holds every row of
    the table, and the call returns normally. *)
Theorem select_assets_fewer_than_k
  (env : Env) (self : self_) (results_df : DataFrame) (xs : list float) (k : Z) :
  score_column results_df xs ->
  List.length xs = List.length (index results_df) ->
  Z.of_nat (List.length (index results_df)) < k ->
  argsort_ok (sort_input xs) (np_argsort env (sort_input xs)) = true ->
  exists self',
    select_assets env self results_df k = Ok self' /\
    Permutation (ric_list self') (index results_df) /\
    List.length (ric_list self') = List.length (index results_df).
Proof.
  intros Hs Hl Hk Hok.
  destruct (select_assets_unfold env self results_df xs k Hs ltac:(lia))
    as (self' & E & R & _).
  exists self'. split; [exact E|].
  pose proof (nargsort_permutation (np_argsort env) xs Hok) as P.
  rewrite Hl in P.
  assert (ric_list self' =
          map (fun p => nth p (index results_df) (LInt 0))
              (nargsort_descending (np_argsort env) xs)) as R'.
  { rewrite R. apply firstn_all2. rewrite length_map.
    apply Permutation_length in P. rewrite P, length_seq. lia. }
  split.
  - rewrite R'. now apply Permutation_map_nth.
  - rewrite R', length_map. apply Permutation_length in P.
    now rewrite P, length_seq.
Qed.

Lemma select_assets_fewer_than_k_witness :
  exists self',
    select_assets numpy_env (init ".SPX" "20160101" 3) two 3 = Ok self' /\
    Permutation (ric_list self') (index two) /\
    List.length (ric_list self') = List.length (index two).
Proof.
  apply (select_assets_fewer_than_k numpy_env (init ".SPX" "20160101" 3) two
           (map float_of_Z [5; 3]) 3);
    [reflexivity | reflexivity | cbn; lia | vm_compute; reflexivity].
Defined.

(** C7 as stated fails: asked for three assets out of two, the call returns
    the two. *)
Lemma selection_of_too_few_succeeds :
  Z.of_nat (List.length (index two)) < 3 /\
  exists self',
    select_assets numpy_env (init ".SPX" "20160101" 3) two 3 = Ok self' /\
    ric_list self' = [LStr "P"; LStr "Q"].
Proof.
  split; [cbn; lia|]. eexists. split; [vm_compute; reflexivity | reflexivity].
Qed.

(** ** The campaign *)

Lemma append_pair (idx : list label) (xs ys : list float) (x y : float) :
  append (mkDF idx [("index_performance"%string, FloatCol xs);
                    ("portfolio_return"%string, FloatCol ys)])
         (pair_frame x y) =
  Ok (mkDF (idx ++ [LInt 0])
           [("index_performance"%string, FloatCol (xs ++ [x]));
            ("portfolio_return"%string, FloatCol (ys ++ [y]))]).
Proof. reflexivity. Qed.

(** the passes of the loop after the first one *)
Lemma trials_loop_later (env : Env) (fuel : nat) (years : Z) (n : nat)
  (self self' : self_) (w w' : World)
  (ps : list (float * float)) (ds : list results_dict) :
  trials env fuel years n self w ps ds self' w' ->
  forall (b : Z) (idx : list label) (xs ys : list float) (lst : list results_dict),
    0 < b ->
    trials_loop env fuel years n b
      (Some (mkDF idx [("index_performance"%string, FloatCol xs);
                       ("portfolio_return"%string, FloatCol ys)]))
      lst self w =
    Done (Some (mkDF (idx ++ repeat (LInt 0) n)
                  [("index_performance"%string, FloatCol (xs ++ map fst ps));
                   ("portfolio_return"%string, FloatCol (ys ++ map snd ps))]),
          lst ++ ds, self') w'.
Proof.
  induction 1 as [self w | n self self1 self2 w w1 w2 x y d ps ds Hrun _ IH];
    intros b idx xs ys lst Hb.
  - cbn [trials_loop repeat map]. unfold ret. now rewrite !app_nil_r.
  - cbn [trials_loop]. unfold mbind at 1. rewrite Hrun.
    replace (b =? 0) with false by (symmetry; apply Z.eqb_neq; lia).
    unfold mbind at 1, lift. rewrite append_pair.
    rewrite (IH (b + 1) _ _ _ _ ltac:(lia)).
    cbn [repeat map fst snd]. rewrite <- !app_assoc. reflexivity.
Qed.

Lemma trials_length (env : Env) (fuel : nat) (years : Z) (n : nat)
  (self self' : self_) (w w' : World)
  (ps : list (float * float)) (ds : list results_dict) :
  trials env fuel years n self w ps ds self' w' ->
  List.length ps = n /\ List.length ds = n.
Proof.
  induction 1 as [|n self self1 self2 w w1 w2 x y d ps ds _ _ [IH1 IH2]];
    [now split|]. cbn [List.length]. now rewrite IH1, IH2.
Qed.

Lemma combine_map_snd_fst {A : Type} (f : float -> float -> A)
  (ps : list (float * float)) :
  map (fun xy => f (fst xy) (snd xy)) (combine (map snd ps) (map fst ps)) =
  map (fun p => f (snd p) (fst p)) ps.
Proof.
  induction ps as [|[x y] ps IH]; [reflexivity|].
  cbn [map combine fst snd]. now rewrite IH.
Qed.

(** C8: when each of the [num_backtesting >= 1] trials returns, the
    campaign returns a frame with one row per trial, numbered from 0 in
    the order the trials ran, whose row i holds the index and portfolio
    return of trial i (and their difference, [alpha]); the result records
    come in the same order. *)
Theorem campaign_preserves_trial_order
  (env : Env) (fuel : nat) (self self' : self_) (num_backtesting years : Z)
  (w w' : World) (ps : list (float * float)) (ds : list results_dict) :
  1 <= num_backtesting ->
  trials env fuel years (Z.to_nat num_backtesting) self (printed w MsgRunning)
         ps ds self' w' ->
  run_multiple_backtesting env fuel self num_backtesting years w =
    Done (summary_frame ps, ds, self') (with_files w' (campaign_files self')) /\
  Z.of_nat (List.length ps) = num_backtesting /\
  index (summary_frame ps) =
    map (fun i => LInt (Z.of_nat i)) (seq 0 (Z.to_nat num_backtesting)).
Proof.
  intros Hn T.
  destruct (trials_length _ _ _ _ _ _ _ _ _ _ T) as [Lp Ld].
  split; [|split; [lia | cbn [summary_frame index]; now rewrite Lp]].
  unfold run_multiple_backtesting. unfold mbind at 1, print. fold (printed w MsgRunning).
  destruct (Z.to_nat num_backtesting) as [|n] eqn:En; [lia|].
  inversion T as [|n0 s0 s1 s2 w0 w1 w2 x y d ps' ds' Hrun T']; subst.
  unfold mbind at 1. cbn [trials_loop]. unfold mbind at 1. rewrite Hrun.
  cbn [Z.eqb].
  pose proof (trials_loop_later _ _ _ _ _ _ _ _ _ _ T' 1 [LInt 0] [x] [y] [d]
                ltac:(lia)) as L.
  change (0 + 1) with 1. unfold pair_frame at 1. rewrite L. clear L.
  cbn [app].
  unfold reset_index_drop. cbn [index columns].
  unfold save_df, save_list, save_graphs, write_file, mbind, lift, ret.
  cbn [getitem lookup find columns fst snd String.eqb Ascii.eqb Bool.eqb andb
       option_map bind series_binop s_values s_index index requests draws stdout written].
  cbn [List.length]. rewrite repeat_length.
  destruct (trials_length _ _ _ _ _ _ _ _ _ _ T') as [Lp' _].
  replace (RangeIndex (S n)) with (RangeIndex (S (List.length ps')))
    by now rewrite Lp'.
  rewrite setitem_same_index.
  cbn [existsb fst String.eqb Ascii.eqb Bool.eqb andb orb].
  cbn [app]. unfold summary_frame, with_files, campaign_files.
  cbn [List.length map fst snd app requests draws stdout written].
  change (y :: map snd ps') with (map snd ((x, y) :: ps')).
  change (x :: map fst ps') with (map fst ((x, y) :: ps')).
  rewrite (combine_map_snd_fst PrimFloat.sub).
  cbn [map fst snd]. 
  repeat rewrite <- app_assoc. cbn [app].
  reflexivity.
Qed.

(** *** Every trial that returns, returns a one-row frame of two numbers *)

Lemma mbind_done {A B : Type} (m : M A) (k : A -> M B) (w w2 : World) (b : B) :
  mbind m k w = Done b w2 ->
  exists a w1, m w = Done a w1 /\ k a w1 = Done b w2.
Proof.
  unfold mbind. destruct (m w) as [a w1| |]; try discriminate. eauto.
Qed.

Lemma lift_done {A : Type} (r : res A) (w w1 : World) (a : A) :
  lift r w = Done a w1 -> r = Ok a /\ w1 = w.
Proof.
  unfold lift. destruct r; [|discriminate]. intros H. injection H as -> ->. now split.
Qed.

Lemma existsb_map_comp {A B : Type} (f : B -> bool) (g : A -> B) (l : list A) :
  existsb f (map g l) = existsb (fun x => f (g x)) l.
Proof. induction l as [|x l IH]; [reflexivity|]. cbn. now rewrite IH. Qed.

Lemma reindex_float (s : Series) (target : list label) (c : column) :
  is_float_col (s_values s) = true -> reindex s target = Ok c ->
  is_float_col c = true.
Proof.
  unfold reindex. intros F.
  destruct (index_equals _ _); [intros H; injection H as <-; exact F|].
  destruct (has_duplicates _); [discriminate|].
  destruct (s_values s); [|discriminate]. intros H. now injection H as <-.
Qed.

Lemma setitem_kinds (df df' : DataFrame) (name : string) (s : Series) :
  is_float_col (s_values s) = true -> setitem df name s = Ok df' ->
  kinds df' =
  if existsb (fun k => String.eqb (fst k) name) (kinds df)
  then map (fun k => if String.eqb (fst k) name then (fst k, true) else k) (kinds df)
  else kinds df ++ [(name, true)].
Proof.
  intros F. unfold setitem.
  set (df0 := match index df with [] => _ | _ => _ end).
  assert (kinds df0 = kinds df) as K.
  { subst df0. destruct (index df); [|reflexivity].
    destruct (s_index s); [reflexivity|].
    unfold kinds. cbn [columns]. rewrite map_map. apply map_ext.
    intros [n c]. cbn [fst snd]. now destruct c. }
  rewrite <- K. clear K. intros H.
  apply bind_ok_inv in H. destruct H as (c & R & H).
  apply (reindex_float _ _ _ F) in R.
  unfold kinds. rewrite existsb_map_comp. cbn [fst].
  destruct (existsb _ (columns df0)); injection H as <-; cbn [columns].
  - rewrite !map_map. apply map_ext. intros [n c0]. cbn [fst snd].
    destruct (String.eqb n name); cbn [fst snd]; now rewrite ?R.
  - rewrite map_app. cbn [map fst snd]. now rewrite R.
Qed.

Lemma series_map_float (f : float -> float) (a r : Series) :
  series_map f a = Ok r -> is_float_col (s_values r) = true.
Proof.
  unfold series_map. destruct (s_values a); [|discriminate].
  intros H. now injection H as <-.
Qed.

Lemma iloc_col_length (df : DataFrame) (i : Z) (s : Series) :
  iloc_col df i = Ok s -> 0 <= i -> (Z.to_nat i < List.length (columns df))%nat.
Proof.
  unfold iloc_col, norm_pos. intros H Hi.
  destruct ((0 <=? i) && (i <? _)) eqn:E.
  - apply andb_prop in E. destruct E as [_ E]. apply Z.ltb_lt in E. lia.
  - replace (i <? 0) with false in H by (symmetry; apply Z.ltb_ge; lia).
    discriminate.
Qed.

Lemma iloc_cell_kind (df : DataFrame) (v : value) :
  iloc_cell df 0 3 = Ok v ->
  exists k, nth_error (kinds df) 3 = Some k /\
            (snd k = true -> exists x, v = VFloat x).
Proof.
  unfold iloc_cell, kinds. intros H.
  rewrite nth_error_map.
  destruct (norm_pos (List.length (columns df)) 3) as [p|] eqn:P; [|discriminate H].
  assert (p = 3%nat) as ->.
  { unfold norm_pos in P. destruct (_ && _); [now injection P as <-|].
    cbn in P. discriminate. }
  destruct (nth_error (columns df) 3) as [[n c]|]; [|discriminate H].
  cbn [option_map fst snd]. eexists. split; [reflexivity|]. cbn [snd]. intros F.
  destruct c; [|discriminate F]. cbn [snd] in H.
  destruct (norm_pos (List.length (index df)) 0); [|discriminate H].
  unfold col_nth in H. destruct (nth_error xs n0); cbn in H; [|discriminate H].
  injection H as <-. eauto.
Qed.

Lemma add_returns_kinds (env : Env) (df ip : DataFrame) :
  add_returns env df = Ok ip -> (List.length (columns df) <= 3)%nat ->
  forall k, nth_error (kinds ip) 3 = Some k -> snd k = true.
Proof.
  unfold add_returns. intros H L.
  apply bind_ok_inv in H. destruct H as (e & He & H).
  apply bind_ok_inv in H. destruct H as (s & _ & H).
  apply bind_ok_inv in H. destruct H as (q & _ & H).
  apply bind_ok_inv in H. destruct H as (q1 & _ & H).
  apply bind_ok_inv in H. destruct H as (r & Hr & H).
  apply bind_ok_inv in H. destruct H as (df1 & S1 & H).
  apply bind_ok_inv in H. destruct H as (e' & _ & H).
  apply bind_ok_inv in H. destruct H as (s' & _ & H).
  apply bind_ok_inv in H. destruct H as (q' & _ & H).
  apply bind_ok_inv in H. destruct H as (l & _ & H).
  apply bind_ok_inv in H. destruct H as (lr & Hlr & S2).
  apply series_map_float in Hr, Hlr.
  apply (setitem_kinds _ _ _ _ Hr) in S1.
  apply (setitem_kinds _ _ _ _ Hlr) in S2.
  apply iloc_col_length in He; [|lia]. change (Z.to_nat 2) with 2%nat in He.
  assert (List.length (kinds df) = 3%nat) as L3
    by (unfold kinds; rewrite length_map; lia).
  destruct (kinds df) as [|[n0 b0] [|[n1 b1] [|[n2 b2] [|]]]]; try discriminate L3.
  clear L3 L He.
  rewrite S2, S1. clear. cbn [existsb map fst app].
  destruct (String.eqb n0 "return"), (String.eqb n1 "return"),
           (String.eqb n2 "return");
    cbn [orb existsb map fst app String.eqb Ascii.eqb Bool.eqb andb];
    destruct (String.eqb n0 "log_return"), (String.eqb n1 "log_return"),
             (String.eqb n2 "log_return");
    cbn [orb existsb map fst app nth_error]; intros k K;
    try discriminate K; injection K as <-; reflexivity.
Qed.

Lemma setitem_length (df df' : DataFrame) (name : string) (s : Series) :
  setitem df name s = Ok df' ->
  (List.length (columns df') <= S (List.length (columns df)))%nat.
Proof.
  unfold setitem.
  set (df0 := match index df with [] => _ | _ => _ end).
  assert (List.length (columns df0) = List.length (columns df)) as K.
  { subst df0. destruct (index df); [|reflexivity].
    destruct (s_index s); [reflexivity|]. cbn [columns]. apply length_map. }
  rewrite <- K. intros H. apply bind_ok_inv in H. destruct H as (c & _ & H).
  destruct (existsb _ _); injection H as <-; cbn [columns].
  - rewrite length_map. lia.
  - rewrite length_app. cbn. lia.
Qed.

Lemma change_column_name_length (df df' : DataFrame) (name : string) :
  change_column_name df name = Ok df' -> List.length (columns df') = 2%nat.
Proof.
  unfold change_column_name, set_columns.
  destruct (Nat.eqb_spec (List.length ["Instrument"%string; name])
                         (List.length (columns df))) as [E|]; [|discriminate].
  intros H. injection H as <-. cbn [columns].
  destruct (columns df) as [|a [|b [|c l]]]; try discriminate E. reflexivity.
Qed.

Lemma get_asset_performance_float_return (env : Env) (fuel : nat)
  (start_date end_date : string) (ric_list : list label) (w w' : World)
  (ip : DataFrame) (v : value) :
  get_asset_performance env fuel start_date end_date ric_list w = Done ip w' ->
  iloc_cell ip 0 3 = Ok v -> exists x, v = VFloat x.
Proof.
  unfold get_asset_performance. intros H Hv.
  apply mbind_done in H. destruct H as (df0 & w1 & _ & H).
  apply mbind_done in H. destruct H as (df1 & w2 & C1 & H).
  apply lift_done in C1. destruct C1 as [C1 _].
  apply mbind_done in H. destruct H as (dfe & w3 & _ & H).
  apply lift_done in H. destruct H as [H _].
  apply bind_ok_inv in H. destruct H as (dfe' & _ & H).
  apply bind_ok_inv in H. destruct H as (last & _ & H).
  apply bind_ok_inv in H. destruct H as (df2 & S & H).
  apply change_column_name_length in C1.
  apply setitem_length in S. rewrite C1 in S.
  pose proof (add_returns_kinds env df2 ip H S) as K.
  destruct (iloc_cell_kind ip v Hv) as (k & E & F).
  apply F. now apply K.
Qed.

(** a trial that returns, returns a frame of one row and two numbers *)
Lemma run_back_testing_returns_pair (env : Env) (fuel : nat) (self self1 : self_)
  (years : Z) (w w1 : World) (returns_df : DataFrame) (d : results_dict) :
  run_back_testing env fuel self years w = Done (returns_df, d, self1) w1 ->
  exists x y, returns_df = pair_frame x y.
Proof.
  unfold run_back_testing. cbv zeta. intros H.
  repeat (apply mbind_done in H; destruct H as (? & ? & ? & H)).
  unfold ret in H. injection H as <- <- <- <-.
  repeat match goal with
         | H : lift _ _ = Done _ _ |- _ => apply lift_done in H; destruct H as [H ?]
         end.
  match goal with
  | H : get_portfolio_return _ true None _ = Done ?pr _ |- _ =>
      assert (exists y, pr = Some y) as [y ->]
  end.
  { match goal with
    | H : get_portfolio_return _ true None _ = Done _ _ |- _ =>
        unfold get_portfolio_return in H;
        apply mbind_done in H; destruct H as (? & ? & ? & H);
        apply mbind_done in H; destruct H as (? & ? & ? & H);
        unfold ret in H; injection H as <- <-
    end. eauto. }
  match goal with
  | H : iloc_cell _ 0 3 = Ok ?v, G : get_asset_performance _ _ _ _ [LStr _] _ = Done _ _ |- _ =>
      cbn [index_performance set_portfolio_return set_index_performance] in H;
      destruct (get_asset_performance_float_return _ _ _ _ _ _ _ _ _ G H) as [xf ->]
  end.
  match goal with
  | H : one_row _ _ = Ok _ |- _ => cbn in H; injection H as <-
  end.
  now exists xf, y.
Qed.

Lemma campaign_preserves_trial_order_witness :
  exists (ps : list (float * float)) (ds : list results_dict)
         (self' : self_) (w' : World),
    1 <= 3 /\
    trials demo_env 1 3 (Z.to_nat 3) demo_self (printed world0 MsgRunning)
           ps ds self' w' /\
    run_multiple_backtesting demo_env 1 demo_self 3 3 world0 =
      Done (summary_frame ps, ds, self') (with_files w' (campaign_files self')) /\
    map fst ps = [0x1.e000000000014p+1; 0x1.17ffffffffffbp+3; 0x1.b7ffffffffffep+3]%float.
Proof.
  do 4 eexists. split; [lia|].
  assert (forall P Q R : Prop, P -> (P -> Q /\ R) -> P /\ Q /\ R) as cut by tauto.
  apply cut.
  - eapply trials_next; [vm_compute; reflexivity|].
    eapply trials_next; [vm_compute; reflexivity|].
    eapply trials_next; [vm_compute; reflexivity|].
    apply trials_done.
  - intros T. split.
    + exact (proj1 (campaign_preserves_trial_order demo_env 1 demo_self _ 3 3
                      world0 _ _ _ ltac:(lia) T)).
    + reflexivity.
Defined.

(** * Errors, bounds and effects *)

Import Behaviour.

(** ** The index constituents *)

Lemma get_index_loop_effects (env : Env) (self : self_) (start_date_arg : string)
  (fuel : nat) :
  forall (index_df : DataFrame) (count : Z) (w : World),
    0 <= count <= 2 -> 3 - count <= Z.of_nat fuel ->
    match get_index_loop env fuel self start_date_arg index_df count w with
    | Done _ w' =>
        Z.of_nat (requests w') <= Z.of_nat (requests w) + (3 - count) /\
        (requests w <= requests w')%nat /\
        (len index_df <= 1 -> (requests w < requests w')%nat) /\
        written w' = written w /\ draws w' = draws w
    | Fail _ w' =>
        Z.of_nat (requests w') <= Z.of_nat (requests w) + (3 - count) /\
        (requests w < requests w')%nat /\
        written w' = written w /\ draws w' = draws w
    | Running _ => False
    end.
Proof.
  induction fuel as [|fuel IH]; intros index_df count w Hc Hf; [lia|].
  cbn [get_index_loop].
  destruct (Z.leb_spec (len index_df) 1) as [L|L];
    [|unfold ret; repeat split; lia].
  unfold mbind at 1, request.
  destruct (ek_get_data env (requests w) _) as [r|e];
    [|cbn [requests written draws]; repeat split; lia].
  destruct (Z.eqb_spec count 2) as [->|Hne].
  - unfold mbind, print, ret. cbn [requests written draws]. repeat split; lia.
  - set (w1 := mkWorld _ _ _ _).
    specialize (IH (data r) (count + 1) w1 ltac:(lia) ltac:(lia)).
    destruct (get_index_loop env fuel self start_date_arg (data r) (count + 1) w1);
      subst w1; cbn [requests written draws] in IH; [|now repeat split; try lia|exact IH].
    destruct IH as (I1 & I2 & I3 & I4 & I5). repeat split; try lia; assumption.
Qed.

(** X1: [get_index] always ends: it sends at least one and at most three
    requests; if it returns, it has saved the table in the three formats,
    and if the provider raises, nothing has been written. *)
Theorem get_index_stops_within_three
  (env : Env) (fuel : nat) (self : self_) (fields_list : list string)
  (start_date_arg : string) (w : World) :
  (3 <= fuel)%nat ->
  match get_index env fuel self fields_list start_date_arg w with
  | Done _ w' =>
      (requests w < requests w' <= requests w + 3)%nat /\
      written w' = written w ++ index_files self
  | Fail _ w' =>
      (requests w < requests w' <= requests w + 3)%nat /\
      written w' = written w
  | Running _ => False
  end.
Proof.
  intros Hf. unfold get_index, mbind at 1.
  pose proof (get_index_loop_effects env self start_date_arg fuel Pandas.empty 0 w
                ltac:(lia) ltac:(lia)) as H.
  destruct (get_index_loop env fuel self start_date_arg Pandas.empty 0 w)
    as [df w1|e w1|w1]; [| |exact H].
  - destruct H as (H1 & H2 & H3 & H4 & H5).
    specialize (H3 ltac:(cbn; lia)).
    unfold save_df, mbind, write_file. cbn [requests written].
    split; [lia|]. rewrite H4. unfold index_files.
    rewrite <- !app_assoc. reflexivity.
  - destruct H as (H1 & H2 & H3 & H4). split; [lia | assumption].
Qed.

Lemma get_index_stops_within_three_witness :
  (3 <= 3)%nat /\
  match get_index short_env 3 (init ".SPX" "20160101" 10) [] "20160101" world0 with
  | Done _ w' =>
      (requests world0 < requests w' <= requests world0 + 3)%nat /\
      written w' = written world0 ++ index_files (init ".SPX" "20160101" 10)
  | Fail _ w' =>
      (requests world0 < requests w' <= requests world0 + 3)%nat /\
      written w' = written world0
  | Running _ => False
  end.
Proof.
  split; [lia|].
  apply (get_index_stops_within_three short_env 3 (init ".SPX" "20160101" 10)
           [] "20160101" world0). lia.
Defined.

Lemma short_answers_S (env : Env) (self : self_) (n j : nat) :
  short_answers env self n (S j) ->
  (exists r, ek_get_data env n (index_request self) = Ok r /\ len (data r) <= 1) /\
  short_answers env self (S n) j.
Proof.
  intros H. split.
  - destruct (H O ltac:(lia)) as (r & E & L). rewrite Nat.add_0_r in E. eauto.
  - intros i Hi. destruct (H (S i) ltac:(lia)) as (r & E & L).
    replace (S n + i)%nat with (n + S i)%nat by lia. eauto.
Qed.

Lemma get_index_loop_answer_from (env : Env) (self : self_) (start_date_arg : string)
  (r : Response) (j : nat) :
  forall (fuel : nat) (index_df : DataFrame) (count : Z) (w : World),
    0 <= count -> count + Z.of_nat j <= 2 -> (j < fuel)%nat ->
    len index_df <= 1 ->
    short_answers env self (requests w) j ->
    ek_get_data env (requests w + j) (index_request self) = Ok r ->
    count + Z.of_nat j = 2 \/ 1 < len (data r) ->
    get_index_loop env fuel self start_date_arg index_df count w =
    Done (data r)
         (mkWorld (requests w + S j) (draws w)
            (stdout w ++ (if count + Z.of_nat j =? 2
                          then [MsgIndexFailed start_date_arg] else []))
            (written w)).
Proof.
  induction j as [|j IH]; intros fuel index_df count w Hc Hj Hf L SA E G.
  - destruct fuel as [|fuel]; [lia|]. cbn [get_index_loop].
    replace (len index_df <=? 1) with true by (symmetry; apply Z.leb_le; lia).
    unfold mbind at 1, request. fold (index_request self).
    rewrite Nat.add_0_r in E. rewrite E.
    rewrite Z.add_0_r in *.
    destruct (Z.eqb_spec count 2) as [->|Hne].
    + unfold mbind, print, ret. cbn [requests draws stdout written].
      f_equal. f_equal. lia.
    + destruct G as [G|G]; [lia|].
      destruct fuel as [|fuel]; cbn [get_index_loop];
        replace (len (data r) <=? 1) with false by (symmetry; apply Z.leb_gt; lia);
        unfold ret; rewrite app_nil_r; f_equal; f_equal; lia.
  - destruct fuel as [|fuel]; [lia|]. cbn [get_index_loop].
    replace (len index_df <=? 1) with true by (symmetry; apply Z.leb_le; lia).
    apply short_answers_S in SA. destruct SA as [(r0 & E0 & L0) SA].
    unfold mbind at 1, request. fold (index_request self). rewrite E0.
    replace (count =? 2) with false by (symmetry; apply Z.eqb_neq; lia).
    set (w1 := mkWorld _ _ _ _).
    rewrite (IH fuel (data r0) (count + 1) w1); try lia; try assumption.
    + subst w1. cbn [requests draws stdout written].
      replace (count + 1 + Z.of_nat j) with (count + Z.of_nat (S j)) by lia.
      f_equal. f_equal. lia.
    + subst w1. cbn [requests].
      replace (S (requests w) + j)%nat with (requests w + S j)%nat by lia. exact E.
Qed.

(** X2: the loop of [get_index] returns the first answer that has more than
    one row, or the third answer whatever it holds; the requests carry the
    object's own start date; the line saying that the constituents could
    not be downloaded is printed exactly when a third request was sent,
    even if that request brought the table. *)
Theorem get_index_loop_answer
  (env : Env) (fuel : nat) (self : self_) (start_date_arg : string) (w : World)
  (j : nat) (r : Response) :
  (j <= 2)%nat -> (j < fuel)%nat ->
  short_answers env self (requests w) j ->
  ek_get_data env (requests w + j) (index_request self) = Ok r ->
  j = 2%nat \/ 1 < len (data r) ->
  get_index_loop env fuel self start_date_arg Pandas.empty 0 w =
  Done (data r)
       (mkWorld (requests w + S j) (draws w)
          (stdout w ++ (if Nat.eqb j 2 then [MsgIndexFailed start_date_arg] else []))
          (written w)).
Proof.
  intros Hj Hf SA E G.
  assert (0 + Z.of_nat j = 2 \/ 1 < len (data r)) as G'
    by (destruct G as [->|G]; [left; reflexivity | now right]).
  rewrite (get_index_loop_answer_from env self start_date_arg r j fuel
             Pandas.empty 0 w ltac:(lia) ltac:(lia) Hf ltac:(cbn; lia) SA E G').
  replace (0 + Z.of_nat j =? 2) with (Nat.eqb j 2); [reflexivity|].
  destruct (Nat.eqb_spec j 2) as [->|N]; [reflexivity|].
  symmetry. apply Z.eqb_neq. lia.
Qed.

Lemma get_index_loop_answer_witness :
  (1 <= 2)%nat /\ (1 < 3)%nat /\
  short_answers short_env (init ".SPX" "20160101" 10) (requests world0) 1 /\
  get_index_loop short_env 3 (init ".SPX" "20160101" 10) "20151231" Pandas.empty 0 world0 =
  Done (mkDF [LInt 0; LInt 1]
          [("Instrument"%string, ObjCol [Some ".SPX"; Some ".SPX"]%string);
           ("Constituent RIC"%string, ObjCol [Some "A"; Some "B"]%string)])
       (mkWorld 2 0 [] []).
Proof.
  assert (short_answers short_env (init ".SPX" "20160101" 10) (requests world0) 1) as SA.
  { intros i Hi. destruct i; [|lia]. eexists. split; [reflexivity|]. cbn. lia. }
  split; [lia|]. split; [lia|]. split; [exact SA|].
  apply (get_index_loop_answer short_env 3 (init ".SPX" "20160101" 10) "20151231"
           world0 1
           (mkResponse
              (mkDF [LInt 0; LInt 1]
                 [("Instrument"%string, ObjCol [Some ".SPX"; Some ".SPX"]%string);
                  ("Constituent RIC"%string, ObjCol [Some "A"; Some "B"]%string)])
              None));
    [lia | lia | exact SA | reflexivity | right; cbn; lia].
Defined.

(** ** Selection: the number of assets *)

(** [select_assets] for any count, positive or not *)
Lemma select_assets_rows (env : Env) (self : self_) (results_df : DataFrame)
  (xs : list float) (k : Z) :
  score_column results_df xs ->
  let order := nargsort_descending (np_argsort env) xs in
  let rows := map (fun p => nth p (index results_df) (LInt 0)) order in
  exists self',
    select_assets env self results_df k = Ok self' /\
    ric_list self' = firstn (slice_stop (List.length order) k) rows /\
    index (selected_assets self') = ric_list self'.
Proof.
  intros Hs order rows.
  unfold select_assets, sort_values_descending. unfold score_column in Hs.
  rewrite Hs. cbn [bind]. eexists. split; [reflexivity|].
  cbn [ric_list set_selection selected_assets iloc_head_last2 index take].
  split; [|reflexivity].
  fold order. fold rows. unfold rows at 1. now rewrite length_map.
Qed.

(** X3: a negative [num_assets] is not refused: the selection is then the
    table in descending order of score without its last [- num_assets]
    rows. *)
Theorem select_assets_negative_count
  (env : Env) (self : self_) (results_df : DataFrame) (xs : list float) (k : Z) :
  score_column results_df xs ->
  k < 0 ->
  argsort_ok (sort_input xs) (np_argsort env (sort_input xs)) = true ->
  exists (order : list nat) (self' : self_),
    Permutation order (seq 0 (List.length xs)) /\
    StronglySorted
      (fun a b => may_precede (nth a xs nan) (nth b xs nan) = true) order /\
    select_assets env self results_df k = Ok self' /\
    ric_list self' =
      firstn (Z.to_nat (Z.of_nat (List.length xs) + k))
             (map (fun p => nth p (index results_df) (LInt 0)) order).
Proof.
  intros Hs Hk Hok.
  destruct (select_assets_rows env self results_df xs k Hs) as (self' & E & R & _).
  pose proof (nargsort_permutation (np_argsort env) xs Hok) as P.
  exists (nargsort_descending (np_argsort env) xs), self'.
  split; [exact P|].
  split; [now apply nargsort_descending_sorted|].
  split; [exact E|].
  rewrite R. unfold slice_stop.
  replace (0 <=? k) with false by (symmetry; apply Z.leb_gt; lia).
  apply Permutation_length in P. rewrite length_seq in P. now rewrite P.
Qed.

Lemma select_assets_negative_count_witness :
  exists (order : list nat) (self' : self_),
    Permutation order (seq 0 5) /\
    StronglySorted
      (fun a b =>
         may_precede (nth a (map float_of_Z [5; 5; 3; 2; 1]) nan)
                     (nth b (map float_of_Z [5; 5; 3; 2; 1]) nan) = true) order /\
    select_assets numpy_env (init ".SPX" "20160101" 10) five (-2) = Ok self' /\
    ric_list self' =
      firstn 3 (map (fun p => nth p (index five) (LInt 0)) order).
Proof.
  apply (select_assets_negative_count numpy_env (init ".SPX" "20160101" 10) five
           (map float_of_Z [5; 5; 3; 2; 1]) (-2));
    [reflexivity | lia | vm_compute; reflexivity].
Defined.

Lemma NoDup_firstn_of {A : Type} (n : nat) (l : list A) : NoDup l -> NoDup (firstn n l).
Proof.
  intros H. rewrite <- (firstn_skipn n l) in H. now apply NoDup_app_remove_r in H.
Qed.

Lemma In_firstn_of {A : Type} (n : nat) (l : list A) (x : A) :
  In x (firstn n l) -> In x l.
Proof.
  intros H. rewrite <- (firstn_skipn n l). apply in_or_app. now left.
Qed.

(** X4: for a count that is not negative and a table whose row labels are
    distinct, the selection holds min(num_assets, rows) assets, each of
    them a row label of the table and none of them twice, and the list of
    RICs is the index of the selected table. *)
Theorem selection_is_part_of_table
  (env : Env) (self : self_) (results_df : DataFrame) (xs : list float) (k : Z) :
  score_column results_df xs ->
  List.length xs = List.length (index results_df) ->
  NoDup (index results_df) ->
  0 <= k ->
  argsort_ok (sort_input xs) (np_argsort env (sort_input xs)) = true ->
  exists self',
    select_assets env self results_df k = Ok self' /\
    List.length (ric_list self') =
      Nat.min (Z.to_nat k) (List.length (index results_df)) /\
    NoDup (ric_list self') /\
    (forall l, In l (ric_list self') -> In l (index results_df)) /\
    index (selected_assets self') = ric_list self'.
Proof.
  intros Hs Hl ND Hk Hok.
  destruct (select_assets_unfold env self results_df xs k Hs Hk)
    as (self' & E & R & I).
  exists self'. split; [exact E|].
  pose proof (nargsort_permutation (np_argsort env) xs Hok) as P.
  rewrite Hl in P.
  pose proof (Permutation_map_nth (index results_df) (LInt 0) _ P) as Pr.
  rewrite R. repeat split.
  - rewrite length_firstn. now rewrite (Permutation_length Pr).
  - apply NoDup_firstn_of.
    apply (Permutation_NoDup (Permutation_sym Pr) ND).
  - intros l H. apply In_firstn_of in H. now apply (Permutation_in _ Pr).
  - now rewrite I, R.
Qed.

Lemma selection_is_part_of_table_witness :
  exists self',
    select_assets numpy_env (init ".SPX" "20160101" 10) five 3 = Ok self' /\
    List.length (ric_list self') = Nat.min (Z.to_nat 3) (List.length (index five)) /\
    NoDup (ric_list self') /\
    (forall l, In l (ric_list self') -> In l (index five)) /\
    index (selected_assets self') = ric_list self'.
Proof.
  apply (selection_is_part_of_table numpy_env (init ".SPX" "20160101" 10) five
           (map float_of_Z [5; 5; 3; 2; 1]) 3);
    [reflexivity | reflexivity | | lia | vm_compute; reflexivity].
  repeat constructor; cbn; intuition discriminate.
Defined.

(** ** Prices: the shape of the answers *)

(** X5: a first answer that does not have exactly two columns makes
    [get_asset_performance] raise ValueError when it renames the columns;
    the end prices are not asked for. *)
Theorem price_table_of_wrong_shape
  (env : Env) (fuel : nat) (start_date end_date : string)
  (ric_list : list label) (df : DataFrame) (w : World) :
  (0 < fuel)%nat ->
  ek_get_data env (requests w) (price_request ric_list start_date) =
    Ok (mkResponse df None) ->
  List.length (columns df) <> 2%nat ->
  get_asset_performance env fuel start_date end_date ric_list w =
  Fail ValueError (after_requests w 1 []).
Proof.
  intros Hf E N. destruct fuel as [|fuel]; [lia|].
  unfold get_asset_performance.
  unfold mbind at 1. cbn [price_close_loop].
  unfold mbind at 1, get_price_close, request.
  fold (price_request ric_list start_date). rewrite E.
  unfold mbind at 1. cbn [Z.eqb ret err data].
  unfold mbind at 1, lift, change_column_name, set_columns.
  replace (Nat.eqb _ _) with false.
  - unfold after_requests. cbn [requests draws stdout written].
    rewrite app_nil_r. f_equal. f_equal. lia.
  - symmetry. apply Nat.eqb_neq. cbn [List.length]. congruence.
Qed.

Lemma price_table_of_wrong_shape_witness :
  get_asset_performance (constant_env Pandas.empty) 1 "20160104" "20190104"
                        [LStr "A"] world0 =
  Fail ValueError (mkWorld 1 0 [] []).
Proof.
  apply (price_table_of_wrong_shape (constant_env Pandas.empty) 1
           "20160104" "20190104" [LStr "A"] Pandas.empty world0);
    [lia | reflexivity | discriminate].
Defined.

(** X6: the end prices are attached to the rows of the start table by
    position: the instrument names of the second answer are dropped without
    being compared with those of the first. *)
Theorem end_prices_matched_by_position
  (env : Env) (fuel : nat) (start_date end_date : string)
  (ric_list : list label) (rics rics' : list string) (starts ends : list float)
  (w : World) :
  (0 < fuel)%nat ->
  end_date <> "Instrument"%string -> end_date <> start_date ->
  start_date <> "return"%string -> end_date <> "return"%string ->
  start_date <> "log_return"%string -> end_date <> "log_return"%string ->
  List.length rics' = List.length rics ->
  ek_get_data env (requests w) (price_request ric_list start_date) =
    Ok (mkResponse (price_frame rics starts) None) ->
  ek_get_data env (S (requests w)) (price_request ric_list end_date) =
    Ok (mkResponse (price_frame rics' ends) None) ->
  get_asset_performance env fuel start_date end_date ric_list w =
  Done (mkDF (RangeIndex (List.length rics))
          [("Instrument"%string, ObjCol (map Some rics));
           (start_date, FloatCol starts);
           (end_date, FloatCol ends);
           ("return"%string,
            FloatCol (per_row (fun s e =>
                        PrimFloat.mul (PrimFloat.sub (PrimFloat.div e s) 1) 100)
                      starts ends));
           ("log_return"%string,
            FloatCol (per_row (fun s e =>
                        PrimFloat.mul (np_log env (PrimFloat.div e s)) 100)
                      starts ends))])
       (after_requests w 2 []).
Proof.
  intros Hf N1 N2 N3 N4 N5 N6 HL E1 E2.
  destruct fuel as [|fuel]; [lia|].
  unfold get_asset_performance.
  unfold mbind at 1. cbn [price_close_loop].
  unfold mbind at 1, get_price_close, request.
  fold (price_request ric_list start_date). rewrite E1.
  unfold mbind at 1. cbn [Z.eqb ret err data].
  unfold mbind at 1, lift, change_column_name, set_columns, price_frame.
  cbn [columns List.length Nat.eqb map snd combine index].
  unfold mbind at 1. cbn [price_close_loop].
  unfold mbind at 1, get_price_close, request.
  fold (price_request ric_list end_date). cbn [requests]. rewrite E2.
  unfold mbind at 1. cbn [Z.eqb ret err data].
  unfold lift, change_column_name, set_columns, price_frame.
  cbn [columns List.length Nat.eqb map snd combine index bind].
  rewrite HL.
  rewrite iloc_col_last_of_2. cbn [bind snd].
  rewrite setitem_same_index. cbn [existsb fst].
  rewrite (String.eqb_sym "Instrument" end_date), (eqb_false _ _ N1).
  rewrite (String.eqb_sym start_date end_date), (eqb_false _ _ N2).
  cbn [orb bind app].
  rewrite add_returns_spec by (assumption || discriminate).
  unfold after_requests. cbn [requests draws stdout written].
  rewrite app_nil_r. f_equal. f_equal. lia.
Qed.

Lemma end_prices_matched_by_position_witness :
  get_asset_performance quotes_env_AB_swapped 1 "20160104" "20190104"
                        [LStr "A"; LStr "B"] world0 =
  Done (mkDF [LInt 0; LInt 1]
          [("Instrument"%string, ObjCol [Some "A"; Some "B"]%string);
           ("20160104"%string, FloatCol [100; 50]%float);
           ("20190104"%string, FloatCol [45; 110]%float);
           ("return"%string,
            FloatCol [PrimFloat.mul (PrimFloat.sub (PrimFloat.div 45 100) 1) 100;
                      PrimFloat.mul (PrimFloat.sub (PrimFloat.div 110 50) 1) 100]%float);
           ("log_return"%string,
            FloatCol
              [PrimFloat.mul (np_log quotes_env_AB_swapped (PrimFloat.div 45 100)) 100;
               PrimFloat.mul (np_log quotes_env_AB_swapped (PrimFloat.div 110 50)) 100])])
       (mkWorld 2 0 [] []).
Proof.
  apply (end_prices_matched_by_position quotes_env_AB_swapped 1
           "20160104" "20190104" [LStr "A"; LStr "B"]
           ["A"; "B"]%string ["B"; "A"]%string [100; 50]%float [45; 110]%float world0);
    try discriminate; try reflexivity. lia.
Defined.

(** ** Allocations *)

Lemma key_eqb_eq (a b : PyDict.key) : PyDict.key_eqb a b = true <-> a = b.
Proof.
  destruct a as [a|], b as [b|]; cbn; try (split; congruence).
  rewrite String.eqb_eq. split; congruence.
Qed.

Lemma set_absent {V : Type} (d : PyDict.dict V) (k : PyDict.key) (v : V) :
  ~ In k (map fst d) -> PyDict.set d k v = d ++ [(k, v)].
Proof.
  induction d as [|[k' v'] d IH]; intros N; [reflexivity|].
  cbn [PyDict.set]. cbn [map fst In] in N.
  destruct (PyDict.key_eqb k' k) eqn:E.
  - apply key_eqb_eq in E. tauto.
  - cbn [app]. f_equal. apply IH. tauto.
Qed.

Lemma set_present {V : Type} (d : PyDict.dict V) (k : PyDict.key) (v : V) :
  In k (map fst d) ->
  map fst (PyDict.set d k v) = map fst d /\
  (forall w, Forall (fun kv => snd kv = w) d -> v = w ->
             Forall (fun kv => snd kv = w) (PyDict.set d k v)).
Proof.
  induction d as [|[k' v'] d IH]; intros I; [destruct I|].
  cbn [PyDict.set]. destruct (PyDict.key_eqb k' k) eqn:E.
  - split; [reflexivity|]. intros w F ->.
    apply Forall_cons_iff in F. constructor; [reflexivity | tauto].
  - cbn [map fst In] in I. destruct I as [->|I].
    + assert (PyDict.key_eqb k k = true) by now apply key_eqb_eq. congruence.
    + destruct (IH I) as [K F]. split; [cbn [map fst]; now rewrite K|].
      intros w Fw Hv. apply Forall_cons_iff in Fw. constructor; [tauto|].
      apply F; tauto.
Qed.

Lemma key_in_dec (k : PyDict.key) (ks : list PyDict.key) : In k ks \/ ~ In k ks.
Proof.
  induction ks as [|a ks IH]; [now right|].
  destruct (PyDict.key_eqb a k) eqn:E.
  - apply key_eqb_eq in E. left. now left.
  - destruct IH as [I|N]; [left; now right|]. right. intros [->|I]; [|tauto].
    assert (PyDict.key_eqb k k = true) by now apply key_eqb_eq. congruence.
Qed.

Lemma set_all (w : float) (ks : list PyDict.key) :
  forall d : PyDict.dict float,
    Forall (fun kv => snd kv = w) d -> NoDup (map fst d) ->
    let d' := fold_left (fun d k => PyDict.set d k w) ks d in
    Forall (fun kv => snd kv = w) d' /\ NoDup (map fst d') /\
    (forall k, In k (map fst d') <-> In k (map fst d) \/ In k ks) /\
    (NoDup ks -> (forall k, In k ks -> ~ In k (map fst d)) ->
     d' = d ++ map (fun k => (k, w)) ks).
Proof.
  induction ks as [|k ks IH]; intros d F N; cbn [fold_left].
  - repeat split; try assumption; try tauto.
    + intros [?|[]]; assumption.
    + intros _ _. cbn. now rewrite app_nil_r.
  - destruct (key_in_dec k (map fst d)) as [I|NI].
    + destruct (set_present d k w I) as [K Fs].
      destruct (IH (PyDict.set d k w) (Fs w F eq_refl) ltac:(now rewrite K))
        as (F' & N' & I' & _).
      repeat split; try assumption.
      * intros H. apply I' in H. rewrite K in H. cbn [In]. tauto.
      * intros H. apply I'. rewrite K. cbn [In] in H.
        destruct H as [H|[<-|H]]; tauto.
      * intros _ D. exfalso. apply (D k); [now left | assumption].
    + rewrite (set_absent d k w NI).
      assert (Forall (fun kv => snd kv = w) (d ++ [(k, w)])) as F1.
      { apply Forall_app. split; [assumption|]. now repeat constructor. }
      assert (NoDup (map fst (d ++ [(k, w)]))) as N1.
      { rewrite map_app. cbn [map fst].
        apply NoDup_app; [assumption | repeat constructor; intros [] |].
        intros x Hx [<-|[]]. tauto. }
      destruct (IH (d ++ [(k, w)]) F1 N1) as (F' & N' & I' & E').
      repeat split; try assumption.
      * intros H. apply I' in H. rewrite map_app, in_app_iff in H. cbn in H. cbn [In]. tauto.
      * intros H. apply I'. rewrite map_app, in_app_iff. cbn. cbn [In] in H. tauto.
      * intros ND D. apply NoDup_cons_iff in ND. destruct ND as [Nk ND].
        rewrite E'; [now rewrite <- app_assoc|assumption|].
        intros x Hx. rewrite map_app, in_app_iff. cbn.
        intros [H|[<-|[]]]; [|tauto]. apply (D x); [now right | assumption].
Qed.

Lemma NoDup_map_Some {A : Type} (l : list A) : NoDup l -> NoDup (map Some l).
Proof.
  induction 1 as [|a l N ND IH]; cbn [map]; constructor; [|assumption].
  intros H. apply in_map_iff in H. destruct H as (b & E & H). congruence.
Qed.

(** X7: the equally weighted allocation gives every instrument of the
    performance table the weight 1 / n, n being the number of rows; each
    instrument is a key once, and the keys are the instruments in the order
    of the table when no instrument has two rows. *)
Theorem equal_weights_allocation
  (self : self_) (names : list string) (rs : list float) :
  performance_of (asset_performance self) names rs ->
  names <> [] ->
  exists d,
    get_equally_weighted_portfolio self = Ok d /\
    Forall (fun kv => snd kv = equal_weight (List.length names)) d /\
    NoDup (map fst d) /\
    (forall k, In k (map fst d) <-> exists n, k = Some n /\ In n names) /\
    (NoDup names ->
     d = map (fun n => (Some n, equal_weight (List.length names))) names).
Proof.
  intros (HI & _ & _ & HL) Hne.
  unfold get_equally_weighted_portfolio, int_reciprocal. rewrite HL.
  replace (Z.of_nat (List.length names) =? 0) with false
    by (symmetry; apply Z.eqb_neq; destruct names; [congruence | cbn; lia]).
  cbn [bind]. unfold getitem. rewrite HI. cbn [bind s_values].
  fold (float_of_Z (Z.of_nat (List.length names))).
  fold (equal_weight (List.length names)).
  eexists. split; [reflexivity|].
  destruct (set_all (equal_weight (List.length names)) (map Some names) []
              ltac:(constructor) ltac:(constructor)) as (F & N & I & E).
  repeat split; try assumption.
  - intros H. apply I in H. destruct H as [[]|H].
    apply in_map_iff in H. destruct H as (n & <- & H). eauto.
  - intros (n & -> & H). apply I. right. now apply in_map.
  - intros ND. cbv zeta in E. rewrite E.
    + cbn [app]. now rewrite map_map.
    + now apply NoDup_map_Some.
    + intros k _ [].
Qed.

Lemma equal_weights_allocation_witness :
  exists d,
    get_equally_weighted_portfolio self_ABA = Ok d /\
    Forall (fun kv => snd kv = equal_weight 3) d /\
    NoDup (map fst d) /\
    (forall k, In k (map fst d) <->
               exists n, k = Some n /\ In n ["A"; "B"; "A"]%string) /\
    (NoDup ["A"; "B"; "A"]%string ->
     d = map (fun n => (Some n, equal_weight 3)) ["A"; "B"; "A"]%string).
Proof.
  apply (equal_weights_allocation self_ABA ["A"; "B"; "A"]%string [10; -4; 7]%float).
  - repeat split.
  - discriminate.
Defined.

(** X8: on a performance table without rows the equally weighted return
    raises ZeroDivisionError, whatever columns the table has. *)
Theorem equal_weights_of_no_rows (self : self_) (w : World) :
  len (asset_performance self) = 0 ->
  get_equally_weighted_portfolio self = Raise ZeroDivisionError /\
  get_portfolio_return self true None w = Fail ZeroDivisionError w.
Proof.
  intros H. unfold get_portfolio_return, get_equally_weighted_portfolio, int_reciprocal.
  rewrite H. split; reflexivity.
Qed.

Lemma equal_weights_of_no_rows_witness :
  get_equally_weighted_portfolio (init ".SPX" "20160101" 10) = Raise ZeroDivisionError /\
  get_portfolio_return (init ".SPX" "20160101" 10) true None world0 =
    Fail ZeroDivisionError world0.
Proof.
  apply (equal_weights_of_no_rows (init ".SPX" "20160101" 10) world0). reflexivity.
Defined.

Lemma first_true_absent (names : list string) (n : string) :
  ~ In n names ->
  first_true (eq_mask (ObjCol (map Some names)) (Some n)) = None.
Proof.
  induction names as [|a names IH]; intros N; [reflexivity|].
  cbn [eq_mask map first_true] in *. cbn [In] in N.
  replace (String.eqb a n) with false by (symmetry; apply String.eqb_neq; tauto).
  rewrite IH by tauto. reflexivity.
Qed.

Lemma first_true_present (names : list string) (n : string) :
  In n names ->
  exists i, first_true (eq_mask (ObjCol (map Some names)) (Some n)) = Some i /\
            (i < List.length names)%nat /\ nth_error names i = Some n.
Proof.
  induction names as [|a names IH]; intros I; [destruct I|].
  cbn [eq_mask map first_true] in *.
  destruct (String.eqb_spec a n) as [->|Ne].
  - exists O. repeat split. cbn. lia.
  - destruct I as [I|I]; [congruence|]. destruct (IH I) as (i & E & L & Nth).
    exists (S i). rewrite E. repeat split; [cbn; lia | exact Nth].
Qed.

Lemma first_true_NoDup (names : list string) (n : string) (i : nat) :
  NoDup names -> nth_error names i = Some n ->
  first_true (eq_mask (ObjCol (map Some names)) (Some n)) = Some i.
Proof.
  intros ND. revert i. induction ND as [|a names Na ND IH]; intros i H.
  - destruct i; discriminate H.
  - cbn [eq_mask map first_true] in *. destruct i as [|i].
    + cbn in H. injection H as ->. now rewrite String.eqb_refl.
    + cbn [nth_error] in H.
      replace (String.eqb a n) with false.
      * now rewrite (IH i H).
      * symmetry. apply String.eqb_neq. intros ->. apply Na.
        eapply nth_error_In. exact H.
Qed.

Lemma simple_return_at (self : self_) (names : list string) (rs : list float)
  (n : string) (i : nat) (r : float) :
  performance_of (asset_performance self) names rs ->
  first_true (eq_mask (ObjCol (map Some names)) (Some n)) = Some i ->
  nth_error rs i = Some r ->
  simple_return_of self (Some n) = Ok r.
Proof.
  intros (HI & HR & _ & _) F R.
  unfold simple_return_of, getitem. rewrite HI. cbn [bind s_values].
  unfold loc_mask_first. rewrite HR, F. cbn [col_nth]. rewrite R. reflexivity.
Qed.

Lemma missing_asset_step (self : self_) (names : list string) (rs : list float)
  (acc : float) (item : PyDict.key * float) :
  performance_of (asset_performance self) names rs ->
  (exists r, add_asset_return self acc item = Ok r) \/
  add_asset_return self acc item = Raise IndexError.
Proof.
  intros P. pose proof P as (HI & HR & HL & _). destruct item as [[n|] wt].
  - destruct (in_dec string_dec n names) as [I|N].
    + left. destruct (first_true_present names n I) as (i & F & L & _).
      destruct (nth_error rs i) as [r|] eqn:R.
      * eexists. apply (add_asset_return_spec self acc (Some n, wt) r).
        now apply (simple_return_at self names rs n i r).
      * apply nth_error_None in R. lia.
    + right. unfold add_asset_return, getitem. rewrite HI. cbn [bind s_values].
      unfold loc_mask_first. rewrite HR, (first_true_absent names n N). reflexivity.
  - right. unfold add_asset_return, getitem. rewrite HI. cbn [bind s_values].
    unfold loc_mask_first. rewrite HR.
    replace (first_true _) with (@None nat); [reflexivity|].
    cbn [eq_mask]. clear. induction (map Some names) as [|a l IH]; [reflexivity|].
    cbn [map first_true]. now rewrite <- IH.
Qed.

Lemma missing_asset_here (self : self_) (names : list string) (rs : list float)
  (acc : float) (item : PyDict.key * float) :
  performance_of (asset_performance self) names rs ->
  (forall n, fst item = Some n -> ~ In n names) ->
  add_asset_return self acc item = Raise IndexError.
Proof.
  intros P. pose proof P as (HI & HR & HL & _). destruct item as [[n|] wt];
    cbn [fst]; intros A.
  - unfold add_asset_return, getitem. rewrite HI. cbn [bind s_values].
    unfold loc_mask_first. rewrite HR, (first_true_absent names n (A n eq_refl)).
    reflexivity.
  - destruct (missing_asset_step self names rs acc (None, wt) P) as [[r E]|E];
      [|exact E].
    exfalso. revert E. unfold add_asset_return, getitem. rewrite HI. cbn [bind s_values].
    unfold loc_mask_first. rewrite HR.
    replace (first_true _) with (@None nat); [discriminate|].
    cbn [eq_mask]. clear. induction (map Some names) as [|a l IH]; [reflexivity|].
    cbn [map first_true]. now rewrite <- IH.
Qed.

(** X9: an allocation that names an asset without a row in the performance
    table makes [calculate_portfolio_return] raise IndexError, wherever the
    asset stands in the allocation: no asset is skipped silently. *)
Theorem allocation_of_unknown_asset
  (self : self_) (names : list string) (rs : list float)
  (allocation_dict : PyDict.dict float) :
  performance_of (asset_performance self) names rs ->
  Exists (fun item => forall n, fst item = Some n -> ~ In n names) allocation_dict ->
  calculate_portfolio_return self allocation_dict = Raise IndexError.
Proof.
  intros P X. unfold calculate_portfolio_return.
  assert (forall acc, portfolio_loop self acc allocation_dict = Raise IndexError) as H.
  { induction X as [item l A | item l X IH]; intros acc; cbn [portfolio_loop].
    - now rewrite (missing_asset_here self names rs acc item P A).
    - destruct (missing_asset_step self names rs acc item P) as [[r E]|E];
        rewrite E; cbn [bind]; [apply IH | reflexivity]. }
  now rewrite H.
Qed.

Lemma allocation_of_unknown_asset_witness :
  calculate_portfolio_return self_AB
    [(Some "A"%string, 0.5%float); (Some "C"%string, 0.5%float)] = Raise IndexError.
Proof.
  apply (allocation_of_unknown_asset self_AB ["A"; "B"]%string [10; -4]%float).
  - repeat split.
  - apply Exists_cons_tl, Exists_cons_hd. cbn [fst]. intros n E.
    injection E as <-. intros [H|[H|[]]]; discriminate H.
Defined.

Lemma Forall2_pointwise {A B : Type} (P : A -> B -> Prop) (l1 : list A) :
  forall l2 : list B,
    List.length l1 = List.length l2 ->
    (forall i a b, nth_error l1 i = Some a -> nth_error l2 i = Some b -> P a b) ->
    Forall2 P l1 l2.
Proof.
  induction l1 as [|a l1 IH]; intros [|b l2] L H; try discriminate L; constructor.
  - exact (H O a b eq_refl eq_refl).
  - apply IH; [now injection L|]. intros i x y Hx Hy. exact (H (S i) x y Hx Hy).
Qed.

Lemma combine_constant {A : Type} (c : float) (names : list A) :
  forall rs : list float,
    List.length rs = List.length names ->
    combine (map (fun _ => c) names) rs = map (fun r => (c, r)) rs.
Proof.
  induction names as [|n names IH]; intros [|r rs] HL; try discriminate HL;
    [reflexivity|].
  cbn [map combine]. f_equal. apply IH. now injection HL.
Qed.

(** X10: with one row for each instrument, the equally weighted portfolio
    return is the sum over the rows, in the order of the table, of
    (return / 100) * (1 / n), times 100, in binary64 arithmetic. *)
Theorem equally_weighted_return
  (self : self_) (names : list string) (rs : list float) (w : World) :
  performance_of (asset_performance self) names rs ->
  names <> [] -> NoDup names ->
  get_portfolio_return self true None w =
  Done (Some (PrimFloat.mul
                (weighted_sum
                   (map (fun r => (equal_weight (List.length names), r)) rs))
                100)) w.
Proof.
  intros P Hne ND. pose proof P as (HI & HR & HL & HN).
  unfold get_portfolio_return, mbind at 1, lift.
  assert (get_equally_weighted_portfolio self =
          Ok (map (fun n => (Some n, equal_weight (List.length names))) names)) as E.
  { unfold get_equally_weighted_portfolio, int_reciprocal. rewrite HN.
    replace (Z.of_nat (List.length names) =? 0) with false
      by (symmetry; apply Z.eqb_neq; destruct names; [congruence | cbn; lia]).
    cbn [bind]. unfold getitem. rewrite HI. cbn [bind s_values].
    fold (float_of_Z (Z.of_nat (List.length names))).
    fold (equal_weight (List.length names)).
    destruct (set_all (equal_weight (List.length names)) (map Some names) []
                ltac:(constructor) ltac:(constructor)) as (_ & _ & _ & E).
    cbv zeta in E. rewrite E.
    - cbn [app]. now rewrite map_map.
    - now apply NoDup_map_Some.
    - intros k _ []. }
  rewrite E. unfold mbind at 1, lift, calculate_portfolio_return.
  rewrite (portfolio_loop_spec self _ rs).
  - cbn [bind]. unfold ret. rewrite map_map. cbn [snd].
    now rewrite (combine_constant _ names rs HL).
  - apply Forall2_pointwise; [now rewrite length_map|].
    intros i item r Hi Hr. rewrite nth_error_map in Hi.
    destruct (nth_error names i) as [n|] eqn:Hn; [|discriminate Hi].
    injection Hi as <-. cbn [fst].
    apply (simple_return_at self names rs n i r P); [|exact Hr].
    now apply first_true_NoDup.
Qed.

Lemma equally_weighted_return_witness :
  get_portfolio_return self_AB true None world0 =
  Done (Some (PrimFloat.mul
                (weighted_sum [(equal_weight 2, 10%float); (equal_weight 2, (-4)%float)])
                100)) world0.
Proof.
  apply (equally_weighted_return self_AB ["A"; "B"]%string [10; -4]%float world0).
  - repeat split.
  - discriminate.
  - repeat constructor; cbn; intuition discriminate.
Defined.

(** ** Missing returns *)

Lemma is_nan_spec (x : float) : is_nan x = true <-> Prim2SF x = S754_nan.
Proof.
  unfold is_nan. rewrite negb_true_iff, FloatAxioms.eqb_spec.
  destruct (Prim2SF x) as [s|s| |s m e].
  - destruct s; split; discriminate.
  - destruct s; split; discriminate.
  - split; reflexivity.
  - rewrite SFeqb_refl_finite. split; discriminate.
Qed.

Lemma nan_add_l (x y : float) : is_nan x = true -> is_nan (x + y)%float = true.
Proof.
  rewrite !is_nan_spec, FloatAxioms.add_spec. intros ->. reflexivity.
Qed.

Lemma nan_add_r (x y : float) : is_nan y = true -> is_nan (x + y)%float = true.
Proof.
  rewrite !is_nan_spec, FloatAxioms.add_spec. intros ->.
  destruct (Prim2SF x) as [[]|[]| |[] ? ?]; reflexivity.
Qed.

Lemma nan_mul_l (x y : float) : is_nan x = true -> is_nan (x * y)%float = true.
Proof.
  rewrite !is_nan_spec, FloatAxioms.mul_spec. intros ->. reflexivity.
Qed.

Lemma nan_div_l (x y : float) : is_nan x = true -> is_nan (x / y)%float = true.
Proof.
  rewrite !is_nan_spec, FloatAxioms.div_spec. intros ->. reflexivity.
Qed.

Lemma weighted_fold_nan (terms : list (float * float)) :
  forall acc,
    is_nan acc = true \/ Exists (fun wr => is_nan (snd wr) = true) terms ->
    is_nan (fold_left (fun acc wr =>
                         PrimFloat.add acc
                           (PrimFloat.mul (PrimFloat.div (snd wr) 100) (fst wr)))
                      terms acc) = true.
Proof.
  induction terms as [|[wt r] terms IH]; intros acc H; cbn [fold_left fst snd].
  - destruct H as [H|H]; [exact H | inversion H].
  - apply IH. destruct H as [H|H].
    + left. now apply nan_add_l.
    + apply Exists_cons in H. destruct H as [H|H]; [|now right].
      left. cbn [snd] in H. now apply nan_add_r, nan_mul_l, nan_div_l.
Qed.

(** X11: a missing return is never skipped: when the return of one asset
    of the allocation is NaN, the portfolio return is NaN, whatever the
    weights and the other returns are. *)
Theorem missing_return_spoils_portfolio
  (self : self_) (allocation_dict : PyDict.dict float) (returns : list float) :
  Forall2 (fun item r => simple_return_of self (fst item) = Ok r)
          allocation_dict returns ->
  Exists (fun r => is_nan r = true) returns ->
  exists z,
    calculate_portfolio_return self allocation_dict = Ok z /\ is_nan z = true.
Proof.
  intros F X. unfold calculate_portfolio_return.
  rewrite (portfolio_loop_spec self allocation_dict returns F). cbn [bind].
  eexists. split; [reflexivity|]. apply nan_mul_l, weighted_fold_nan. right.
  clear - F X. revert allocation_dict F.
  induction X as [r rs H|r rs X IH]; intros alloc F; inversion F; subst;
    cbn [map combine].
  - now left.
  - right. now apply IH.
Qed.

Lemma missing_return_spoils_portfolio_witness :
  exists z,
    calculate_portfolio_return
      (set_asset_performance (init ".SPX" "20160101" 2)
         (mkDF [LInt 0; LInt 1]
            [("Instrument"%string, ObjCol [Some "A"; Some "B"]%string);
             ("return"%string, FloatCol [10%float; nan])]))
      alloc_AB = Ok z /\
    is_nan z = true.
Proof.
  apply (missing_return_spoils_portfolio _ alloc_AB [10%float; nan]).
  - repeat constructor.
  - apply Exists_cons_tl, Exists_cons_hd. reflexivity.
Defined.

(** ** Parsing and printing dates: errors and formats *)

Module ParseFacts.
Import PyStr CalendarAux StrFacts.

Lemma int_digits_raises (s : string) :
  forall acc e, int_digits acc s = Raise e -> e = ValueError.
Proof.
  induction s as [|c s IH]; intros acc e; cbn [int_digits]; [discriminate|].
  destruct (is_digit c); [apply IH|].
  destruct (Ascii.eqb c "_"); [|congruence].
  destruct (starts_with_digit s); [apply IH | congruence].
Qed.

Lemma int_raises (s : string) (e : exn) : int s = Raise e -> e = ValueError.
Proof.
  unfold int. destruct (rstrip (lstrip s)) as [|c s']; [congruence|].
  destruct (Ascii.eqb c "-").
  - destruct (starts_with_digit s'); [|congruence].
    destruct (int_digits 0 s') eqn:E; cbn [bind]; [discriminate|].
    apply int_digits_raises in E. congruence.
  - destruct (Ascii.eqb c "+").
    + destruct (starts_with_digit s'); [apply int_digits_raises | congruence].
    + destruct (is_digit c); [apply int_digits_raises | congruence].
Qed.

Lemma int_digits_bound (s : string) :
  forall acc v,
    0 <= acc -> int_digits acc s = Ok v ->
    0 <= v < (acc + 1) * 10 ^ Z.of_nat (String.length s).
Proof.
  induction s as [|c s IH]; intros acc v Ha; cbn [int_digits String.length].
  - intros H. injection H as <-. cbn. lia.
  - rewrite Nat2Z.inj_succ, Z.pow_succ_r by lia.
    assert (0 < 10 ^ Z.of_nat (String.length s)) as P by (apply Z.pow_pos_nonneg; lia).
    destruct (is_digit c) eqn:D.
    + destruct (is_digit_char c D) as [_ B]. intros H.
      apply IH in H; [|lia]. nia.
    + destruct (Ascii.eqb c "_"); [|discriminate].
      destruct (starts_with_digit s); [|discriminate].
      intros H. apply IH in H; [|lia]. nia.
Qed.

Lemma lstrip_length (s : string) :
  (String.length (lstrip s) <= String.length s)%nat.
Proof.
  induction s as [|c s IH]; cbn [lstrip String.length]; [lia|].
  destruct (is_space c); cbn [String.length]; lia.
Qed.

Lemma rstrip_length (s : string) :
  (String.length (rstrip s) <= String.length s)%nat.
Proof.
  induction s as [|c s IH]; cbn [rstrip String.length]; [lia|].
  destruct (rstrip s); [destruct (is_space c)|]; cbn [String.length] in *; lia.
Qed.

Lemma substring_length (s : string) :
  forall a n, (String.length (substring a n s) <= n)%nat.
Proof.
  induction s as [|c s IH]; intros a n.
  - destruct a, n; cbn; lia.
  - destruct a as [|a]; cbn [substring].
    + destruct n as [|n]; cbn [String.length]; [lia|]. specialize (IH O n). lia.
    + apply IH.
Qed.

(** the number that [int] reads in a string has no more digits than the
    string has characters *)
Lemma int_bound (s : string) (v : Z) :
  int s = Ok v -> Z.abs v < 10 ^ Z.of_nat (String.length s).
Proof.
  unfold int.
  pose proof (lstrip_length s) as L1.
  pose proof (rstrip_length (lstrip s)) as L2.
  assert (forall t w, (String.length t <= String.length s)%nat ->
            0 <= w < (0 + 1) * 10 ^ Z.of_nat (String.length t) ->
            Z.abs w < 10 ^ Z.of_nat (String.length s)) as K.
  { intros t w Ht Hw.
    assert (10 ^ Z.of_nat (String.length t) <= 10 ^ Z.of_nat (String.length s))
      by (apply Z.pow_le_mono_r; lia). lia. }
  destruct (rstrip (lstrip s)) as [|c s'] eqn:E; [discriminate|].
  cbn [String.length] in L2.
  destruct (Ascii.eqb c "-").
  - destruct (starts_with_digit s'); [|discriminate].
    destruct (int_digits 0 s') as [u|] eqn:D; cbn [bind]; [|discriminate].
    intros H. injection H as <-. rewrite Z.abs_opp.
    apply (K s'); [lia|]. now apply int_digits_bound.
  - destruct (Ascii.eqb c "+").
    + destruct (starts_with_digit s'); [|discriminate].
      intros D. apply (K s'); [lia|]. now apply int_digits_bound.
    + destruct (is_digit c); [|discriminate].
      intros D. apply (K (String c s')); [cbn [String.length]; lia|].
      now apply int_digits_bound.
Qed.

Lemma int_slice_fits (a b : nat) (s : string) (v : Z) :
  (b - a <= 9)%nat -> int (slice a b s) = Ok v -> fits_int v = true.
Proof.
  intros Hab H. apply int_bound in H.
  pose proof (substring_length s a (b - a)) as L. fold (slice a b s) in L.
  assert (10 ^ Z.of_nat (String.length (slice a b s)) <= 10 ^ 9)
    by (apply Z.pow_le_mono_r; lia).
  apply fits_int_iff. change (10 ^ 9) with 1000000000 in *. lia.
Qed.

Lemma get_datetime_format_raises (date_string : string) (e : exn) :
  get_datetime_format date_string = Raise e -> e = ValueError.
Proof.
  unfold get_datetime_format.
  destruct (int (slice 0 4 date_string)) as [y|e1] eqn:E1; cbn [bind];
    [|intros H; injection H as <-; now apply int_raises in E1].
  destruct (int (slice 4 6 date_string)) as [m|e2] eqn:E2; cbn [bind];
    [|intros H; injection H as <-; now apply int_raises in E2].
  destruct (int (slice 6 8 date_string)) as [dd|e3] eqn:E3; cbn [bind];
    [|intros H; injection H as <-; now apply int_raises in E3].
  unfold new.
  rewrite (int_slice_fits 0 4 _ _ ltac:(cbn; lia) E1),
          (int_slice_fits 4 6 _ _ ltac:(cbn; lia) E2),
          (int_slice_fits 6 8 _ _ ltac:(cbn; lia) E3).
  cbn [andb]. destruct (check_date_fields y m dd); congruence.
Qed.
Lemma substring_of_prefix (s : string) :
  forall a n m : nat,
    (a + n <= m)%nat -> substring a n (substring 0 m s) = substring a n s.
Proof.
  induction s as [|c s IH]; intros a n m H.
  - destruct m; cbn; destruct a, n; reflexivity.
  - destruct m as [|m].
    + assert (a = O) by lia. assert (n = O) by lia. subst. reflexivity.
    + cbn [substring]. destruct a as [|a].
      * destruct n as [|n]; [reflexivity|].
        cbn [substring]. f_equal. apply (IH O n m). lia.
      * cbn [substring]. apply IH. lia.
Qed.

Lemma short_years_table :
  forallb (fun y => Nat.ltb (String.length (decimal y)) 4) short_years = true.
Proof. vm_compute. reflexivity. Qed.

Lemma decimal_short (y : Z) :
  1 <= y < 1000 -> (String.length (decimal y) < 4)%nat.
Proof.
  intros H. pose proof short_years_table as T. rewrite forallb_forall in T.
  apply Nat.ltb_lt. apply T. unfold short_years.
  apply in_map_iff. exists (Z.to_nat (y - 1)). split; [lia|].
  apply in_seq. lia.
Qed.

Lemma length_append (a b : string) :
  String.length (a ++ b) = (String.length a + String.length b)%nat.
Proof. induction a as [|c a IH]; [reflexivity|]. cbn. now rewrite IH. Qed.

Lemma all_digits_padded (d : date) :
  valid d -> all_digits (strftime_Ymd Padded d) = true.
Proof.
  intros V. pose proof (date_bounds d V) as (By & Bm & Bd).
  unfold strftime_Ymd. rewrite zero_padded_4, !zero_padded_2.
  cbn [String.append all_digits].
  repeat match goal with
  | |- context [is_digit (digit_char ?x)] =>
      let P := fresh in
      assert (is_digit (digit_char x) = true) as P
        by (apply digit_char_props; Z.div_mod_to_equations; lia);
      rewrite P; clear P
  end. reflexivity.
Qed.

Lemma strftime_short (d : date) :
  valid d -> year d < 1000 ->
  String.length (strftime_Ymd Unpadded d) <> 8%nat.
Proof.
  intros V S. pose proof (date_bounds d V) as (By & _).
  unfold strftime_Ymd. rewrite !length_append.
  pose proof (decimal_short (year d) ltac:(lia)). cbn [zero_padded String.length]. lia.
Qed.

Lemma reads_eight (date_string : string) :
  get_datetime_format date_string =
  get_datetime_format (slice 0 8 date_string).
Proof.
  unfold get_datetime_format, slice.
  cbn [Nat.sub].
  now rewrite !substring_of_prefix by lia.
Qed.

End ParseFacts.

(** X12: whatever the string, [get_datetime_format] either returns a date of
    the calendar or raises ValueError; it raises nothing else. *)
Theorem get_datetime_format_date_or_ValueError (date_string : string) :
  match get_datetime_format date_string with
  | Ok d => valid d
  | Raise e => e = ValueError
  end.
Proof.
  destruct (get_datetime_format date_string) as [d|e] eqn:E.
  - now apply get_datetime_format_valid in E.
  - now apply ParseFacts.get_datetime_format_raises in E.
Qed.

(** X13: only the first eight characters of the string are read: whatever
    follows them is ignored, be the eight characters a date or not. *)
Theorem get_datetime_format_reads_eight (date_string tail : string) :
  String.length date_string = 8%nat ->
  get_datetime_format (date_string ++ tail) = get_datetime_format date_string.
Proof.
  intros L.
  rewrite (ParseFacts.reads_eight (date_string ++ tail)).
  rewrite (ParseFacts.reads_eight date_string).
  f_equal. unfold PyStr.slice. cbn [Nat.sub].
  do 8 (destruct date_string as [|? date_string]; [discriminate L|]).
  destruct date_string; [|discriminate L]. cbn [String.append substring]. now destruct tail.
Qed.

Lemma get_datetime_format_reads_eight_witness :
  get_datetime_format ("20160101" ++ "T09:30") = get_datetime_format "20160101".
Proof.
  apply (get_datetime_format_reads_eight "20160101" "T09:30"). reflexivity.
Defined.

(** X14: the string that [get_date_string_format] gives for a date of the
    calendar has eight characters exactly when the year is printed with
    four digits (from the year 1000 on, or where the C library zero-fills);
    it is then made of decimal digits only. *)
Theorem date_string_has_eight_digits (pf : platform) (d : date) :
  valid d ->
  (String.length (get_date_string_format pf d) = 8%nat <->
   (pf = Padded \/ 1000 <= year d)) /\
  (pf = Padded \/ 1000 <= year d ->
   PyStr.all_digits (get_date_string_format pf d) = true).
Proof.
  intros V. pose proof (StrFacts.date_bounds d V) as (By & Bm & Bd).
  unfold get_date_string_format.
  assert (pf = Padded \/ 1000 <= year d -> strftime_Ymd pf d = strftime_Ymd Padded d) as E.
  { intros [->|Hy]; [reflexivity|]. destruct pf; [reflexivity|].
    apply StrFacts.strftime_unpadded. lia. }
  split; [split|].
  - intros L. destruct pf; [now left|]. right.
    destruct (Z.lt_ge_cases (year d) 1000) as [S|S]; [|assumption].
    exfalso. now apply (ParseFacts.strftime_short d V S).
  - intros H. rewrite (E H). reflexivity.
  - intros H. rewrite (E H). now apply ParseFacts.all_digits_padded.
Qed.

Lemma date_string_has_eight_digits_witness :
  (String.length (get_date_string_format Unpadded (mkdate 2019 2 28)) = 8%nat <->
   (Unpadded = Padded \/ 1000 <= 2019)) /\
  (Unpadded = Padded \/ 1000 <= 2019 ->
   PyStr.all_digits (get_date_string_format Unpadded (mkdate 2019 2 28)) = true).
Proof.
  apply (date_string_has_eight_digits Unpadded (mkdate 2019 2 28)). reflexivity.
Defined.

(** ** The window of a trial: bounds *)

Lemma radd_raises (dt : date) (r : RelDelta.relativedelta) (e : exn) :
  valid dt -> -11 <= RelDelta.months r <= 11 ->
  -2147483648 * 12 <=
    (year dt + RelDelta.years r) * 12 + (month dt - 1) + RelDelta.months r
    < 2147483648 * 12 ->
  RelDelta.radd dt r = Raise e -> e = ValueError.
Proof.
  intros V B F H.
  set (t := (year dt + RelDelta.years r) * 12 + (month dt - 1) + RelDelta.months r) in *.
  assert (1 <= t / 12 <= 9999 \/ ~ 1 <= t / 12 <= 9999) as [In|Out] by lia.
  - rewrite (radd_ok dt r V B In) in H. discriminate H.
  - rewrite (radd_overflow dt r V B Out) in H. fold t in H.
    replace (fits_int (t / 12)) with true in H
      by (symmetry; apply fits_int_iff; Z.div_mod_to_equations; lia).
    congruence.
Qed.

Lemma radd_months_not_later (R upper : date) (M : Z) :
  valid R -> M <= 0 -> RelDelta.radd R (RelDelta.make 0 M) = Ok upper ->
  valid upper /\ toordinal upper <= toordinal R.
Proof.
  intros V HM E.
  destruct (make_months 0 M) as (E12 & B & _ & _).
  destruct (radd_spec R _ upper V B E) as (Vu & Eu & Du).
  split; [assumption|].
  apply leb_iff_toordinal; [assumption..|].
  pose proof V as V'. apply valid_iff in V'. destruct V' as (Vy & Vm & Vd).
  pose proof Vu as V'. apply valid_iff in V'. destruct V' as (Uy & Um & Ud).
  unfold leb, ltb. apply negb_true_iff.
  destruct (Z.ltb_spec (year R) (year upper)) as [L|L]; [lia|].
  cbn [orb].
  destruct (Z.eqb_spec (year R) (year upper)) as [Ey|Ey]; [|reflexivity].
  cbn [andb].
  destruct (Z.ltb_spec (month R) (month upper)) as [L'|L']; [lia|].
  cbn [orb].
  destruct (Z.eqb_spec (month R) (month upper)) as [Em|Em]; [|reflexivity].
  cbn [andb]. apply Z.ltb_ge. lia.
Qed.

(** X15: with a month interval that is zero or negative (down to -2^31,
    the years the date library reads as a C int) the window holds no day:
    [get_backtestign_start_date] raises ValueError for every reference
    string and every draw. *)
Theorem start_date_of_empty_window
  (self : self_) (date_string : string) (month_interval u : Z) :
  - 2 ^ 31 <= month_interval <= 0 ->
  get_backtestign_start_date self date_string month_interval u = Raise ValueError.
Proof.
  intros [HL HM]. unfold get_backtestign_start_date.
  destruct (get_datetime_format date_string) as [R|e] eqn:P; cbn [bind];
    [|now apply ParseFacts.get_datetime_format_raises in P as ->].
  apply get_datetime_format_valid in P.
  destruct (make_months 0 month_interval) as (E12 & B & _ & _).
  destruct (RelDelta.radd R (RelDelta.make 0 month_interval)) as [upper|e] eqn:E;
    cbn [bind].
  - destruct (radd_months_not_later R upper month_interval P HM E) as [Vu L].
    unfold randrange, sub_days.
    replace (0 <? toordinal upper - toordinal R) with false
      by (symmetry; apply Z.ltb_ge; lia).
    reflexivity.
  - apply (radd_raises R _ e P B) in E; [now subst e|].
    pose proof (StrFacts.date_bounds R P) as (By & Bm & _).
    change (2 ^ 31) with 2147483648 in HL. lia.
Qed.

Lemma start_date_of_empty_window_witness :
  get_backtestign_start_date (init ".SPX" "20160101" 10) "20160101" 0 5 =
  Raise ValueError.
Proof.
  apply (start_date_of_empty_window (init ".SPX" "20160101" 10) "20160101" 0 5).
  split; [vm_compute; discriminate | lia].
Defined.

(** X16: the dates that [get_backtestign_start_date] can set, over all draws,
    are exactly the days of the window: from the reference date up to the
    day before the date [month_interval] months later. *)
Theorem start_dates_are_the_window
  (self : self_) (date_string : string) (month_interval : Z) (R upper d : date) :
  get_datetime_format date_string = Ok R ->
  0 < month_interval ->
  RelDelta.radd R (RelDelta.make 0 month_interval) = Ok upper ->
  (exists u,
     get_backtestign_start_date self date_string month_interval u =
     Ok (set_backtesting_start_date self d)) <->
  (valid d /\ leb R d = true /\ ltb d upper = true).
Proof.
  intros HR HM HU.
  pose proof (get_datetime_format_valid _ _ HR) as V.
  destruct (radd_months_later R upper month_interval V HM HU) as [Vu L].
  pose proof (toordinal_lt R upper V Vu L) as Lo.
  pose proof (toordinal_range R V) as RR.
  pose proof (toordinal_range upper Vu) as RU.
  split.
  - intros [u H]. revert H.
    unfold get_backtestign_start_date. rewrite HR. cbn [bind]. rewrite HU. cbn [bind].
    unfold randrange, sub_days.
    replace (0 <? toordinal upper - toordinal R) with true
      by (symmetry; apply Z.ltb_lt; lia).
    cbn [bind].
    set (r := u mod (toordinal upper - toordinal R)).
    assert (0 <= r < toordinal upper - toordinal R) as Hr
      by (apply Z.mod_pos_bound; lia).
    destruct (add_days_spec R r V ltac:(lia)) as (d' & Ed & Vd & Od).
    rewrite Ed. cbn [bind]. intros H.
    assert (d' = d) as <-.
    { injection H as H. exact H. }
    split; [assumption|]. split.
    + apply leb_iff_toordinal; [assumption..|]. lia.
    + apply ltb_iff_toordinal; [assumption..|]. lia.
  - intros (Vd & L1 & L2). exists (toordinal d - toordinal R).
    now apply (start_date_covers_window self date_string month_interval R upper d).
Qed.

Lemma start_dates_are_the_window_witness :
  (exists u,
     get_backtestign_start_date (init ".SPX" "20160101" 10) "20160101" 6 u =
     Ok (set_backtesting_start_date (init ".SPX" "20160101" 10) (mkdate 2016 6 30))) <->
  (valid (mkdate 2016 6 30) /\ leb (mkdate 2016 1 1) (mkdate 2016 6 30) = true /\
   ltb (mkdate 2016 6 30) (mkdate 2016 7 1) = true).
Proof.
  apply (start_dates_are_the_window (init ".SPX" "20160101" 10) "20160101" 6
           (mkdate 2016 1 1) (mkdate 2016 7 1) (mkdate 2016 6 30));
    [reflexivity | lia | reflexivity].
Defined.

(** adding whole years to a date *)
Lemma radd_years (d : date) (years : Z) :
  valid d -> 1 <= year d + years <= 9999 ->
  RelDelta.radd d (RelDelta.make years 0) =
  Ok (mkdate (year d + years) (month d)
        (if (month d =? 2) && (day d =? 29) && negb (is_leap (year d + years))
         then 28 else day d)).
Proof.
  intros V Hy.
  destruct (make_months years 0) as (_ & _ & _ & E). rewrite (E eq_refl).
  pose proof V as V'. apply valid_iff in V'. destruct V' as (Vy & Vm & Vd).
  pose proof (radd_ok d (RelDelta.mkrel years 0) V ltac:(cbn; lia)) as R.
  cbv zeta in R. cbn [RelDelta.years RelDelta.months] in R.
  replace (((year d + years) * 12 + (month d - 1) + 0) / 12)
    with (year d + years) in R by (Z.div_mod_to_equations; lia).
  replace (((year d + years) * 12 + (month d - 1) + 0) mod 12 + 1)
    with (month d) in R by (Z.div_mod_to_equations; lia).
  rewrite (R Hy). now rewrite clamp_day.
Qed.

(** X17: when the year of the start date plus [years] is not a year from 1
    to 9999 (and is an integer that the date library reads as a C int),
    [get_backtesting_end_date] raises ValueError and sets no date. *)
Theorem end_date_outside_calendar (self : self_) (d : date) (years : Z) :
  valid d ->
  - 2 ^ 31 <= year d + years < 2 ^ 31 ->
  ~ 1 <= year d + years <= 9999 ->
  get_backtesting_end_date self d years = Raise ValueError.
Proof.
  intros V F Hy. rewrite (end_date_out_of_range self d years V Hy).
  change (2 ^ 31) with 2147483648 in F.
  replace (fits_int (year d + years)) with true
    by (symmetry; apply fits_int_iff; lia).
  reflexivity.
Qed.

Lemma end_date_outside_calendar_witness :
  get_backtesting_end_date (init ".SPX" "20160101" 10) (mkdate 9998 5 17) 3 =
  Raise ValueError.
Proof.
  apply (end_date_outside_calendar (init ".SPX" "20160101" 10) (mkdate 9998 5 17) 3);
    [reflexivity | cbn [year]; split; [vm_compute; discriminate | reflexivity]
    | cbn [year]; lia].
Defined.

(** X18: the end date lies on the side of the start date that the sign of
    [years] says: later for a positive number of years, the start date
    itself for zero, and earlier for a negative number, which the method
    accepts as well. *)
Theorem end_date_side_of_start (self : self_) (d : date) (years : Z) :
  valid d -> 1 <= year d + years <= 9999 ->
  exists e,
    get_backtesting_end_date self d years = Ok (set_backtesting_end_date self e) /\
    valid e /\
    (0 < years -> ltb d e = true) /\
    (years = 0 -> e = d) /\
    (years < 0 -> ltb e d = true).
Proof.
  intros V Hy. unfold get_backtesting_end_date.
  pose proof (radd_years d years V Hy) as R.
  destruct (make_months years 0) as (_ & B & _ & _).
  destruct (radd_spec d _ _ V B R) as (Ve & _ & _).
  rewrite R. cbn [bind]. eexists. split; [reflexivity|]. split; [exact Ve|].
  pose proof V as V'. apply valid_iff in V'. destruct V' as (Vy & Vm & Vd).
  unfold ltb. cbn [year month day].
  split; [|split].
  - intros P. replace (year d <? year d + years) with true
      by (symmetry; apply Z.ltb_lt; lia). reflexivity.
  - intros ->. rewrite Z.add_0_r.
    rewrite days_in_month_alt in Vd.
    destruct (Z.eqb_spec (month d) 2) as [E2|E2]; cbn [andb]; [|now destruct d].
    destruct (Z.eqb_spec (day d) 29) as [E29|E29]; cbn [andb]; [|now destruct d].
    destruct (is_leap (year d)) eqn:Lp; cbn [negb]; [now destruct d|].
    exfalso. rewrite E2 in Vd. rewrite ?Lp in Vd.
    change (DAYS_IN_MONTH 2) with 28 in Vd.
    change (2 =? 2) with true in Vd. cbn [andb b2z] in Vd. lia.
  - intros N. replace (year d + years <? year d) with true
      by (symmetry; apply Z.ltb_lt; lia). reflexivity.
Qed.

Lemma end_date_side_of_start_witness :
  exists e,
    get_backtesting_end_date (init ".SPX" "20160101" 10) (mkdate 2016 2 29) (-3) =
      Ok (set_backtesting_end_date (init ".SPX" "20160101" 10) e) /\
    valid e /\
    (0 < -3 -> ltb (mkdate 2016 2 29) e = true) /\
    (-3 = 0 -> e = mkdate 2016 2 29) /\
    (-3 < 0 -> ltb e (mkdate 2016 2 29) = true).
Proof.
  apply (end_date_side_of_start (init ".SPX" "20160101" 10) (mkdate 2016 2 29) (-3));
    [reflexivity | cbn [year]; lia].
Defined.

(** ** What a trial does *)

Lemma wrote_nothing_refl (w : World) : wrote_nothing w w.
Proof. unfold wrote_nothing. repeat split; lia. Qed.

Lemma wrote_nothing_trans (a b c : World) :
  wrote_nothing a b -> wrote_nothing b c -> wrote_nothing a c.
Proof.
  unfold wrote_nothing. intros (W1 & R1 & D1) (W2 & R2 & D2).
  repeat split; [congruence | lia | lia].
Qed.

Lemma quiet_ret {A : Type} (a : A) : quiet (ret a).
Proof. intros w. apply wrote_nothing_refl. Qed.

Lemma quiet_lift {A : Type} (r : res A) : quiet (lift r).
Proof. intros w. unfold lift. destruct r; apply wrote_nothing_refl. Qed.

Lemma quiet_print (l : line) : quiet (print l).
Proof. intros w. unfold print, wrote_nothing. cbn. repeat split; lia. Qed.

Lemma quiet_request (env : Env) (rq : Request) : quiet (request env rq).
Proof.
  intros w. unfold request, wrote_nothing.
  destruct (ek_get_data env (requests w) rq); cbn; repeat split; lia.
Qed.

Lemma quiet_draw (env : Env) : quiet (draw env).
Proof. intros w. unfold draw, wrote_nothing. cbn. repeat split; lia. Qed.

Lemma quiet_mbind {A B : Type} (m : M A) (k : A -> M B) :
  quiet m -> (forall a, quiet (k a)) -> quiet (mbind m k).
Proof.
  intros Hm Hk w. unfold mbind. specialize (Hm w).
  destruct (m w) as [a w1|e w1|w1]; [|assumption..].
  specialize (Hk a w1). destruct (k a w1); eapply wrote_nothing_trans; eassumption.
Qed.

Lemma quiet_price_close_loop (env : Env) (fuel : nat) (ric_list : list label)
  (date_ : string) :
  forall count, quiet (price_close_loop env fuel ric_list date_ count).
Proof.
  induction fuel as [|fuel IH]; intros count.
  - intros w. apply wrote_nothing_refl.
  - cbn [price_close_loop]. apply quiet_mbind; [apply quiet_request|].
    intros r. apply quiet_mbind.
    + destruct (count =? 0); [apply quiet_ret | apply quiet_print].
    + intros _. destruct (err r); [apply IH | apply quiet_ret].
Qed.

Lemma quiet_get_asset_performance (env : Env) (fuel : nat)
  (start_date end_date : string) (ric_list : list label) :
  quiet (get_asset_performance env fuel start_date end_date ric_list).
Proof.
  unfold get_asset_performance.
  apply quiet_mbind; [apply quiet_price_close_loop|]. intros df.
  apply quiet_mbind; [apply quiet_lift|]. intros df'.
  apply quiet_mbind; [apply quiet_price_close_loop|]. intros dfe.
  apply quiet_lift.
Qed.

Lemma quiet_get_portfolio_return (self : self_) (b : bool)
  (a : option (PyDict.dict float)) :
  quiet (get_portfolio_return self b a).
Proof.
  unfold get_portfolio_return. destruct b, a;
    repeat (apply quiet_mbind; [first [apply quiet_lift | apply quiet_print]|intros ?]);
    apply quiet_ret.
Qed.

Lemma quiet_randrange_call (env : Env) (stop : Z) :
  quiet (randrange_call env stop).
Proof.
  unfold randrange_call. destruct (0 <? stop); [|apply quiet_lift].
  apply quiet_mbind; [apply quiet_draw | intros u; apply quiet_lift].
Qed.

Lemma quiet_get_backtestign_start_date_step (env : Env) (self : self_)
  (date_string : string) (month_interval : Z) :
  quiet (get_backtestign_start_date_step env self date_string month_interval).
Proof.
  unfold get_backtestign_start_date_step. cbv zeta.
  repeat (apply quiet_mbind;
          [first [apply quiet_lift | apply quiet_randrange_call]|intros ?]).
  apply quiet_ret.
Qed.

(** a string that is no date is refused before any number is drawn *)
Lemma get_backtestign_start_date_step_no_date (env : Env) (self : self_)
  (date_string : string) (month_interval : Z) (w : World) (e : exn) :
  get_datetime_format date_string = Raise e ->
  get_backtestign_start_date_step env self date_string month_interval w =
  Fail e w.
Proof.
  intros P. unfold get_backtestign_start_date_step, mbind at 1, lift at 1.
  now rewrite P.
Qed.

(** The step and the method on the number drawn agree: the step gives what
    [get_backtestign_start_date] gives on the draw that the world holds
    next; it has drawn that number when it returns, and that number at
    most when it raises. *)
Lemma get_backtestign_start_date_step_spec (env : Env) (self : self_)
  (date_string : string) (month_interval : Z) (w : World) :
  let drawn := mkWorld (requests w) (S (draws w)) (stdout w) (written w) in
  match get_backtestign_start_date_step env self date_string month_interval w with
  | Done self' w' =>
      get_backtestign_start_date self date_string month_interval
        (entropy env (draws w)) = Ok self' /\ w' = drawn
  | Fail e w' =>
      get_backtestign_start_date self date_string month_interval
        (entropy env (draws w)) = Raise e /\ (w' = w \/ w' = drawn)
  | Running _ => False
  end.
Proof.
  unfold get_backtestign_start_date_step, get_backtestign_start_date.
  unfold mbind at 1, lift at 1.
  destruct (get_datetime_format date_string) as [R|e]; cbn [bind]; [|auto].
  unfold mbind at 1, lift at 1.
  destruct (RelDelta.radd R _) as [upper|e]; cbn [bind]; [|auto].
  unfold mbind at 1, randrange_call, randrange.
  destruct (0 <? sub_days upper R); cbn [bind lift]; [|auto].
  unfold mbind at 1, draw. cbn [lift].
  unfold mbind, lift, ret. destruct (add_days R _); cbn [bind]; auto.
Qed.

Lemma get_backtestign_start_date_step_done (env : Env) (self self' : self_)
  (date_string : string) (month_interval : Z) (w w' : World) :
  get_backtestign_start_date_step env self date_string month_interval w =
    Done self' w' ->
  get_backtestign_start_date self date_string month_interval
    (entropy env (draws w)) = Ok self' /\
  w' = mkWorld (requests w) (S (draws w)) (stdout w) (written w).
Proof.
  intros H.
  pose proof (get_backtestign_start_date_step_spec env self date_string
                month_interval w) as P.
  cbv zeta in P. now rewrite H in P.
Qed.

Lemma quiet_run_back_testing (env : Env) (fuel : nat) (self : self_) (years : Z) :
  quiet (run_back_testing env fuel self years).
Proof.
  unfold run_back_testing, read_file. cbv zeta.
  repeat (apply quiet_mbind;
          [first [apply quiet_lift | apply quiet_get_backtestign_start_date_step
                 | apply quiet_get_asset_performance
                 | apply quiet_get_portfolio_return]
          |intros ?]).
  apply quiet_ret.
Qed.

Lemma price_close_loop_asks (env : Env) (fuel : nat) (ric_list : list label)
  (date_ : string) :
  forall count w df w',
    price_close_loop env fuel ric_list date_ count w = Done df w' ->
    (requests w < requests w')%nat /\ draws w' = draws w.
Proof.
  induction fuel as [|fuel IH]; intros count w df w' H; [discriminate H|].
  cbn [price_close_loop] in H.
  apply mbind_done in H. destruct H as (r & w1 & Hr & H).
  apply mbind_done in H. destruct H as ([] & w2 & Hp & H).
  assert (requests w1 = S (requests w) /\ draws w1 = draws w) as [R1 D1].
  { revert Hr. unfold get_price_close, request.
    destruct (ek_get_data env (requests w) _); [|discriminate].
    intros E. injection E as _ <-. now split. }
  assert (requests w2 = requests w1 /\ draws w2 = draws w1) as [R2 D2].
  { revert Hp. destruct (count =? 0); unfold ret, print; intros E;
      injection E as <-; now split. }
  destruct (err r).
  - apply IH in H. destruct H. split; [lia | congruence].
  - unfold ret in H. injection H as _ <-. split; [lia | congruence].
Qed.

Lemma get_asset_performance_asks (env : Env) (fuel : nat)
  (start_date end_date : string) (ric_list : list label) (w w' : World)
  (df : DataFrame) :
  get_asset_performance env fuel start_date end_date ric_list w = Done df w' ->
  (requests w + 2 <= requests w')%nat /\ draws w' = draws w.
Proof.
  unfold get_asset_performance. intros H.
  apply mbind_done in H. destruct H as (df0 & w1 & L1 & H).
  apply mbind_done in H. destruct H as (df1 & w2 & C1 & H).
  apply lift_done in C1. destruct C1 as [_ ->].
  apply mbind_done in H. destruct H as (dfe & w3 & L2 & H).
  apply lift_done in H. destruct H as [_ ->].
  apply price_close_loop_asks in L1, L2. destruct L1, L2. split; [lia | congruence].
Qed.

Lemma get_portfolio_return_world (self : self_) (w w' : World) (pr : option float) :
  get_portfolio_return self true None w = Done pr w' ->
  w' = w /\ exists y, pr = Some y.
Proof.
  unfold get_portfolio_return. intros H.
  apply mbind_done in H. destruct H as (a & w1 & L1 & H).
  apply lift_done in L1. destruct L1 as [_ ->].
  apply mbind_done in H. destruct H as (y & w2 & L2 & H).
  apply lift_done in L2. destruct L2 as [_ ->].
  unfold ret in H. injection H as <- <-. eauto.
Qed.

(** what a trial that returns has gone through *)
Lemma run_back_testing_inv (env : Env) (fuel : nat) (self self1 : self_)
  (years : Z) (w w1 : World) (returns_df : DataFrame) (d : results_dict) :
  run_back_testing env fuel self years w = Done (returns_df, d, self1) w1 ->
  exists (results_df : DataFrame) (selfA selfB selfC : self_) (ds de : date)
         (ap ip : DataFrame) (w2 w3 : World) (y : float) (v : value),
    read_pickle env (results_path self) = Ok results_df /\
    select_assets env self results_df (num_assets self) = Ok selfA /\
    get_backtestign_start_date selfA (start_date selfA) 6 (entropy env (draws w))
      = Ok selfB /\
    backtesting_start_date selfB = Some ds /\
    get_backtesting_end_date selfB ds years = Ok selfC /\
    backtesting_start_date selfC = Some ds /\
    backtesting_end_date selfC = Some de /\
    get_asset_performance env fuel
      (get_date_string_format (libc env) ds) (get_date_string_format (libc env) de)
      (ric_list selfC)
      (mkWorld (requests w) (S (draws w)) (stdout w) (written w)) = Done ap w2 /\
    get_asset_performance env fuel
      (get_date_string_format (libc env) ds) (get_date_string_format (libc env) de)
      [LStr (index_ric selfC)] w2 = Done ip w3 /\
    get_portfolio_return (set_index_performance (set_asset_performance selfC ap) ip)
      true None w3 = Done (Some y) w1 /\
    self1 = set_portfolio_return
              (set_index_performance (set_asset_performance selfC ap) ip) (Some y) /\
    resume_backtesting_results self1 years = Ok d /\
    iloc_cell ip 0 3 = Ok v /\
    one_row [v; VFloat y] ["index_performance"; "portfolio_return"]%string
      = Ok returns_df.
Proof.
  unfold run_back_testing, read_file. cbv zeta. fold (results_path self). intros H.
  apply mbind_done in H. destruct H as (results_df & wa & H1 & H).
  apply lift_done in H1. destruct H1 as [H1 ->].
  apply mbind_done in H. destruct H as (selfA & wb & H2 & H).
  apply lift_done in H2. destruct H2 as [H2 ->].
  apply mbind_done in H. destruct H as (selfB & wd & H4 & H).
  apply get_backtestign_start_date_step_done in H4. destruct H4 as [H4 ->].
  apply mbind_done in H. destruct H as (selfC & we & H5 & H).
  apply lift_done in H5. destruct H5 as [H5 ->].
  destruct (backtesting_start_date selfB) as [ds|] eqn:Eds; [|discriminate H5].
  apply mbind_done in H. destruct H as (sstr & wf & H6 & H).
  apply lift_done in H6. destruct H6 as [H6 ->].
  assert (backtesting_start_date selfC = Some ds) as Eds'.
  { unfold get_backtesting_end_date in H5.
    apply bind_ok_inv in H5. destruct H5 as (x & _ & H5). injection H5 as <-.
    exact Eds. }
  rewrite Eds' in H6. injection H6 as <-.
  apply mbind_done in H. destruct H as (estr & wg & H7 & H).
  apply lift_done in H7. destruct H7 as [H7 ->].
  destruct (backtesting_end_date selfC) as [de|] eqn:Ede; [|discriminate H7].
  injection H7 as <-.
  apply mbind_done in H. destruct H as (ap & w2 & H8 & H).
  apply mbind_done in H. destruct H as (ip & w3 & H9 & H).
  apply mbind_done in H. destruct H as (pr & w4 & H10 & H).
  apply mbind_done in H. destruct H as (dd & w5 & H11 & H).
  apply lift_done in H11. destruct H11 as [H11 ->].
  apply mbind_done in H. destruct H as (v & w6 & H12 & H).
  apply lift_done in H12. destruct H12 as [H12 ->].
  apply mbind_done in H. destruct H as (rdf & w7 & H13 & H).
  apply lift_done in H13. destruct H13 as [H13 ->].
  unfold ret in H. injection H as <- <- <- <-.
  destruct (get_portfolio_return_world _ _ _ _ H10) as [-> [y ->]].
  exists results_df, selfA, selfB, selfC, ds, de, ap, ip, w2, w3, y, v.
  cbn [cell_of] in H13.
  cbn [index_performance set_portfolio_return set_index_performance] in H12.
  repeat split; assumption.
Qed.

Lemma run_back_testing_counts (env : Env) (fuel : nat) (self self1 : self_)
  (years : Z) (w w1 : World) (returns_df : DataFrame) (d : results_dict) :
  run_back_testing env fuel self years w = Done (returns_df, d, self1) w1 ->
  draws w1 = S (draws w) /\ (requests w + 4 <= requests w1)%nat.
Proof.
  intros E.
  destruct (run_back_testing_inv _ _ _ _ _ _ _ _ _ E)
    as (results_df & selfA & selfB & selfC & ds & de & ap & ip & w2 & w3 & y & v &
        _ & _ & _ & _ & _ & _ & _ & A1 & A2 & P & _).
  apply get_asset_performance_asks in A1, A2.
  apply get_portfolio_return_world in P. destruct P as [-> _].
  cbn [requests draws] in A1. destruct A1, A2. split; [congruence | lia].
Qed.

(** X19: a trial writes no file, however it ends; one that returns has
    drawn exactly one random number and has sent at least four requests. *)
Theorem trial_writes_no_file
  (env : Env) (fuel : nat) (self : self_) (years : Z) (w : World) :
  match run_back_testing env fuel self years w with
  | Done _ w' =>
      written w' = written w /\ draws w' = S (draws w) /\
      (requests w + 4 <= requests w')%nat
  | Fail _ w' | Running w' => written w' = written w
  end.
Proof.
  pose proof (quiet_run_back_testing env fuel self years w) as Q.
  destruct (run_back_testing env fuel self years w) as [[[df d] self1] w'|e w'|w'] eqn:E;
    [|apply Q..].
  split; [apply Q|]. now apply (run_back_testing_counts _ _ _ _ _ _ _ _ _ E).
Qed.

Lemma end_date_inv (self self' : self_) (d : date) (years : Z) :
  valid d ->
  get_backtesting_end_date self d years = Ok self' ->
  1 <= year d + years <= 9999 /\
  self' = set_backtesting_end_date self
            (mkdate (year d + years) (month d)
               (if (month d =? 2) && (day d =? 29) && negb (is_leap (year d + years))
                then 28 else day d)) /\
  valid (mkdate (year d + years) (month d)
           (if (month d =? 2) && (day d =? 29) && negb (is_leap (year d + years))
            then 28 else day d)).
Proof.
  intros V H.
  assert (1 <= year d + years <= 9999 \/ ~ 1 <= year d + years <= 9999)
    as [In|Out] by lia.
  - split; [exact In|]. unfold get_backtesting_end_date in H.
    pose proof (radd_years d years V In) as R. rewrite R in H. cbn [bind] in H.
    injection H as <-. split; [reflexivity|].
    destruct (make_months years 0) as (_ & B & _ & _).
    now destruct (radd_spec d _ _ V B R) as (Ve & _ & _).
  - rewrite (end_date_out_of_range self d years V Out) in H. discriminate H.
Qed.

Lemma start_date_inv (self self' : self_) (date_string : string)
  (month_interval u : Z) :
  get_backtestign_start_date self date_string month_interval u = Ok self' ->
  exists R upper d,
    get_datetime_format date_string = Ok R /\
    RelDelta.radd R (RelDelta.make 0 month_interval) = Ok upper /\
    self' = set_backtesting_start_date self d /\
    valid d /\ leb R d = true /\ ltb d upper = true.
Proof.
  unfold get_backtestign_start_date. intros H.
  apply bind_ok_inv in H. destruct H as (R & HR & H).
  apply bind_ok_inv in H. destruct H as (upper & HU & H).
  apply bind_ok_inv in H. destruct H as (r & Hr & H).
  apply bind_ok_inv in H. destruct H as (d & Hd & H). injection H as <-.
  exists R, upper, d. repeat split; try assumption.
  all: pose proof (get_datetime_format_valid _ _ HR) as V.
  all: destruct (make_months 0 month_interval) as (_ & B & _ & _).
  all: destruct (radd_spec R _ upper V B HU) as (Vu & _ & _).
  all: pose proof (toordinal_range R V) as RR.
  all: pose proof (toordinal_range upper Vu) as RU.
  all: unfold randrange, sub_days in Hr.
  all: destruct (Z.ltb_spec 0 (toordinal upper - toordinal R)) as [P|P];
    [|discriminate Hr].
  all: injection Hr as <-.
  all: pose proof (Z.mod_pos_bound u (toordinal upper - toordinal R) P) as Hm.
  all: destruct (add_days_spec R (u mod (toordinal upper - toordinal R)) V ltac:(lia))
    as (d' & Ed & Vd & Od).
  all: rewrite Ed in Hd; injection Hd as <-.
  - assumption.
  - apply leb_iff_toordinal; [assumption..|]. lia.
  - apply ltb_iff_toordinal; [assumption..|]. lia.
Qed.

Lemma select_assets_keeps (env : Env) (self self' : self_) (df : DataFrame) (k : Z) :
  select_assets env self df k = Ok self' ->
  index_ric self' = index_ric self /\ start_date self' = start_date self /\
  num_assets self' = num_assets self /\ base_path self' = base_path self.
Proof.
  unfold select_assets. intros H.
  apply bind_ok_inv in H. destruct H as (s & _ & H). injection H as <-.
  repeat split.
Qed.

Lemma run_back_testing_keeps (env : Env) (fuel : nat) (self self1 : self_)
  (years : Z) (w w1 : World) (returns_df : DataFrame) (d : results_dict) :
  run_back_testing env fuel self years w = Done (returns_df, d, self1) w1 ->
  index_ric self1 = index_ric self /\ start_date self1 = start_date self /\
  num_assets self1 = num_assets self /\ base_path self1 = base_path self.
Proof.
  intros E.
  destruct (run_back_testing_inv _ _ _ _ _ _ _ _ _ E)
    as (results_df & selfA & selfB & selfC & ds & de & ap & ip & w2 & w3 & y & v &
        _ & SA & SB & _ & SC & _ & _ & _ & _ & _ & -> & _).
  destruct (select_assets_keeps _ _ _ _ _ SA) as (K1 & K2 & K3 & K4).
  destruct (start_date_inv _ _ _ _ _ SB) as (R & upper & d0 & _ & _ & -> & _).
  unfold get_backtesting_end_date in SC.
  apply bind_ok_inv in SC. destruct SC as (x & _ & SC). injection SC as <-.
  cbn. now repeat split.
Qed.

Lemma run_back_testing_window (env : Env) (fuel : nat) (self self1 : self_)
  (years : Z) (w w1 : World) (returns_df : DataFrame) (d : results_dict) :
  run_back_testing env fuel self years w = Done (returns_df, d, self1) w1 ->
  window_of (start_date self) years d.
Proof.
  intros E.
  destruct (run_back_testing_inv _ _ _ _ _ _ _ _ _ E)
    as (results_df & selfA & selfB & selfC & ds & de & ap & ip & w2 & w3 & y & v &
        _ & SA & SB & Eds & SC & Eds' & Ede & _ & _ & _ & -> & RD & _).
  destruct (select_assets_keeps _ _ _ _ _ SA) as (K1 & K2 & K3 & K4).
  destruct (start_date_inv _ _ _ _ _ SB) as (R & upper & d0 & HR & HU & -> & Vd & L1 & L2).
  cbn [backtesting_start_date set_backtesting_start_date] in Eds.
  injection Eds as ->.
  destruct (end_date_inv _ _ _ _ Vd SC) as (Hy & -> & Ve).
  cbn [backtesting_end_date set_backtesting_end_date] in Ede.
  injection Ede as <-.
  unfold resume_backtesting_results in RD. cbn in RD. injection RD as <-.
  rewrite K2 in HR.
  exists R, upper, ds, (mkdate (year ds + years) (month ds)
           (if (month ds =? 2) && (day ds =? 29) && negb (is_leap (year ds + years))
            then 28 else day ds)).
  cbn. repeat split; try assumption; try reflexivity.
Qed.

(** X20: the record of a trial that returns holds the window of the trial:
    it starts on a day from the object's start date up to the day before
    the date six months later, and ends [years] years after its start (on
    28 February when the start is 29 February and the end year has none);
    the configuration of the object is left as it was. *)
Theorem trial_window
  (env : Env) (fuel : nat) (self self1 : self_) (years : Z) (w w1 : World)
  (returns_df : DataFrame) (d : results_dict) :
  run_back_testing env fuel self years w = Done (returns_df, d, self1) w1 ->
  window_of (start_date self) years d /\
  index_ric self1 = index_ric self /\ start_date self1 = start_date self /\
  num_assets self1 = num_assets self /\ base_path self1 = base_path self.
Proof.
  intros E. split.
  - exact (run_back_testing_window _ _ _ _ _ _ _ _ _ E).
  - exact (run_back_testing_keeps _ _ _ _ _ _ _ _ _ E).
Qed.

Lemma trial_window_witness :
  exists (returns_df : DataFrame) (d : results_dict) (self1 : self_) (w1 : World),
    run_back_testing demo_env 1 demo_self 3 world0 = Done (returns_df, d, self1) w1 /\
    window_of (start_date demo_self) 3 d /\
    index_ric self1 = index_ric demo_self /\ start_date self1 = start_date demo_self /\
    num_assets self1 = num_assets demo_self /\ base_path self1 = base_path demo_self.
Proof.
  do 4 eexists.
  assert (forall P Q : Prop, P -> (P -> Q) -> P /\ Q) as cut by tauto.
  apply cut.
  - vm_compute. reflexivity.
  - intros E. exact (trial_window _ _ _ _ _ _ _ _ _ E).
Defined.

(** ** Trials that cannot return *)

Lemma filter_none {A : Type} (f : A -> bool) (l : list A) :
  (forall x, In x l -> f x = false) -> filter f l = [].
Proof.
  induction l as [|a l IH]; intros H; [reflexivity|].
  cbn [filter]. rewrite (H a (or_introl eq_refl)). apply IH.
  intros x Hx. apply H. now right.
Qed.

(** X21: when the table of results has no column named score, a trial
    raises KeyError as soon as it has read the table: no request is sent
    and no random number drawn. *)
Theorem trial_without_scores
  (env : Env) (fuel : nat) (self : self_) (years : Z) (w : World)
  (results_df : DataFrame) :
  read_pickle env (results_path self) = Ok results_df ->
  (forall nc, In nc (columns results_df) -> String.eqb (fst nc) "score" = false) ->
  run_back_testing env fuel self years w = Fail KeyError w.
Proof.
  intros R N. unfold run_back_testing, read_file. cbv zeta.
  fold (results_path self). rewrite R.
  unfold mbind at 1, lift at 1. unfold mbind at 1.
  unfold select_assets, sort_values_descending.
  rewrite (filter_none _ _ N). reflexivity.
Qed.

Lemma trial_without_scores_witness :
  run_back_testing unscored_env 1 demo_self 3 world0 = Fail KeyError world0.
Proof.
  apply (trial_without_scores unscored_env 1 demo_self 3 world0 unscored_table).
  - reflexivity.
  - intros nc [<-|[]]. reflexivity.
Defined.

Lemma setitem_columns_length (df df' : DataFrame) (name : string) (s : Series) :
  setitem df name s = Ok df' ->
  existsb (fun nc => String.eqb (fst nc) name) (columns df) = true ->
  List.length (columns df') = List.length (columns df).
Proof.
  unfold setitem.
  set (df0 := match index df with [] => _ | _ => _ end).
  assert (List.length (columns df0) = List.length (columns df) /\
          existsb (fun nc => String.eqb (fst nc) name) (columns df0) =
          existsb (fun nc => String.eqb (fst nc) name) (columns df)) as [K1 K2].
  { subst df0. destruct (index df); [|now split].
    destruct (s_index s); [now split|]. cbn [columns]. split; [apply length_map|].
    rewrite existsb_map_comp. reflexivity. }
  intros H Ex. apply bind_ok_inv in H. destruct H as (c & _ & H).
  rewrite K2, Ex in H. injection H as <-. cbn [columns].
  now rewrite length_map.
Qed.

Lemma change_column_name_names (df df' : DataFrame) (name : string) :
  change_column_name df name = Ok df' ->
  exists c0 c1, columns df' = [("Instrument"%string, c0); (name, c1)] /\
                index df' = index df.
Proof.
  unfold change_column_name, set_columns.
  destruct (Nat.eqb_spec (List.length ["Instrument"%string; name])
                         (List.length (columns df))) as [E|]; [|discriminate].
  intros H. injection H as <-. cbn [columns index].
  destruct (columns df) as [|[n0 c0] [|[n1 c1] [|c l]]]; try discriminate E.
  now exists c0, c1.
Qed.

Lemma add_returns_needs_three (env : Env) (df : DataFrame) :
  List.length (columns df) = 2%nat -> add_returns env df = Raise IndexError.
Proof.
  intros L. unfold add_returns, iloc_col, norm_pos. rewrite L. reflexivity.
Qed.

(** with one date for the start and the end, the prices of the second
    answer take the place of those of the first, and no third column is
    there to compute the returns from *)
Lemma get_asset_performance_same_date (env : Env) (fuel : nat) (date_ : string)
  (ric_list : list label) (w w' : World) (df : DataFrame) :
  get_asset_performance env fuel date_ date_ ric_list w = Done df w' -> False.
Proof.
  unfold get_asset_performance. intros H.
  apply mbind_done in H. destruct H as (df0 & w1 & _ & H).
  apply mbind_done in H. destruct H as (df1 & w2 & C1 & H).
  apply lift_done in C1. destruct C1 as [C1 _].
  apply mbind_done in H. destruct H as (dfe & w3 & _ & H).
  apply lift_done in H. destruct H as [H _].
  apply bind_ok_inv in H. destruct H as (dfe' & _ & H).
  apply bind_ok_inv in H. destruct H as (last & _ & H).
  apply bind_ok_inv in H. destruct H as (df2 & S2 & H).
  destruct (change_column_name_names _ _ _ C1) as (c0 & c1 & Cols & _).
  assert (List.length (columns df2) = 2%nat) as L2.
  { rewrite (setitem_columns_length _ _ _ _ S2); rewrite Cols; [reflexivity|].
    cbn [existsb fst]. rewrite String.eqb_refl. apply orb_true_r. }
  rewrite (add_returns_needs_three env df2 L2) in H. discriminate H.
Qed.

(** X22: asked for the performance between a date and the same date,
    [get_asset_performance] raises IndexError once both answers have come:
    the second column of prices has overwritten the first. *)
Theorem performance_over_no_time
  (env : Env) (fuel : nat) (date_ : string)
  (ric_list : list label) (rics rics' : list string) (starts ends : list float)
  (w : World) :
  (0 < fuel)%nat ->
  List.length rics' = List.length rics ->
  ek_get_data env (requests w) (price_request ric_list date_) =
    Ok (mkResponse (price_frame rics starts) None) ->
  ek_get_data env (S (requests w)) (price_request ric_list date_) =
    Ok (mkResponse (price_frame rics' ends) None) ->
  get_asset_performance env fuel date_ date_ ric_list w =
  Fail IndexError (after_requests w 2 []).
Proof.
  intros Hf HL E1 E2.
  destruct fuel as [|fuel]; [lia|].
  unfold get_asset_performance.
  unfold mbind at 1. cbn [price_close_loop].
  unfold mbind at 1, get_price_close, request.
  fold (price_request ric_list date_). rewrite E1.
  unfold mbind at 1. cbn [Z.eqb ret err data].
  unfold mbind at 1, lift, change_column_name, set_columns, price_frame.
  cbn [columns List.length Nat.eqb map snd combine index].
  unfold mbind at 1. cbn [price_close_loop].
  unfold mbind at 1, get_price_close, request.
  fold (price_request ric_list date_). cbn [requests]. rewrite E2.
  unfold mbind at 1. cbn [Z.eqb ret err data].
  unfold lift, change_column_name, set_columns, price_frame.
  cbn [columns List.length Nat.eqb map snd combine index bind].
  rewrite HL.
  rewrite iloc_col_last_of_2. cbn [bind snd].
  rewrite setitem_same_index. cbn [existsb fst].
  rewrite String.eqb_refl, orb_true_r. cbn [bind].
  rewrite add_returns_needs_three by (cbn [columns]; rewrite ?length_map; reflexivity).
  unfold after_requests. cbn [requests draws stdout written].
  rewrite app_nil_r. f_equal. f_equal. lia.
Qed.

Lemma performance_over_no_time_witness :
  get_asset_performance quotes_env_AB 1 "20160104" "20160104"
                        [LStr "A"; LStr "B"] world0 =
  Fail IndexError (mkWorld 2 0 [] []).
Proof.
  apply (performance_over_no_time quotes_env_AB 1 "20160104"
           [LStr "A"; LStr "B"] ["A"; "B"]%string ["A"; "B"]%string
           [100; 50]%float [110; 45]%float world0);
    [lia | reflexivity | reflexivity | reflexivity].
Defined.

(** with an investment period of no years the end date of a trial is its
    start date, and the trial does not return *)
Lemma run_back_testing_no_years
  (env : Env) (fuel : nat) (self self1 : self_) (w w1 : World)
  (df : DataFrame) (d : results_dict) :
  run_back_testing env fuel self 0 w = Done (df, d, self1) w1 -> False.
Proof.
  intros E.
  destruct (run_back_testing_inv _ _ _ _ _ _ _ _ _ E)
    as (results_df & selfA & selfB & selfC & ds & de & ap & ip & w2 & w3 & y & v &
        _ & _ & SB & Eds & SC & _ & Ede & A1 & _).
  destruct (start_date_inv _ _ _ _ _ SB) as (R & upper & d0 & _ & _ & -> & Vd & _).
  cbn [backtesting_start_date set_backtesting_start_date] in Eds.
  injection Eds as ->.
  assert (de = ds) as ->.
  { revert SC Ede. unfold get_backtesting_end_date.
    rewrite (radd_years ds 0 Vd)
      by (pose proof (StrFacts.date_bounds ds Vd); lia).
    cbn [bind]. intros H. injection H as <-.
    cbn [backtesting_end_date set_backtesting_end_date]. intros H. injection H as <-.
    rewrite Z.add_0_r.
    pose proof Vd as V'. apply valid_iff in V'. destruct V' as (Vy & Vm & Vdd).
    rewrite days_in_month_alt in Vdd.
    destruct (Z.eqb_spec (month ds) 2) as [E2|E2]; cbn [andb]; [|now destruct ds].
    destruct (Z.eqb_spec (day ds) 29) as [E29|E29]; cbn [andb]; [|now destruct ds].
    destruct (is_leap (year ds)) eqn:Lp; cbn [negb]; [now destruct ds|].
    exfalso. rewrite E2 in Vdd. rewrite ?Lp in Vdd.
    change (DAYS_IN_MONTH 2) with 28 in Vdd.
    change (2 =? 2) with true in Vdd. cbn [andb b2z] in Vdd. lia. }
  exact (get_asset_performance_same_date _ _ _ _ _ _ _ A1).
Qed.

(** X23: with [years = 0] a trial never returns: its end date is its start
    date, and the performance between a date and itself is never
    computed. *)
Theorem trial_of_no_years
  (env : Env) (fuel : nat) (self : self_) (w : World) :
  returned (run_back_testing env fuel self 0 w) = false.
Proof.
  destruct (run_back_testing env fuel self 0 w) as [[[df d] self1] w1|e w1|w1] eqn:E;
    [|reflexivity..].
  exfalso. exact (run_back_testing_no_years _ _ _ _ _ _ _ _ E).
Qed.

(** ** What the campaign does *)

(** the end of [run_multiple_backtesting], from [reset_index] on *)
Lemma campaign_tail (self : self_) (idx : list label) (xs ys : list float)
  (lst : list results_dict) (w : World) :
  (_ <~ save_df self
          (reset_index_drop
             (mkDF idx [("index_performance"%string, FloatCol xs);
                        ("portfolio_return"%string, FloatCol ys)]))
          "all_returns" "results/" EmptyString ;;
   _ <~ save_list self lst "results_list" "results/" EmptyString ;;
   all_returns_df <~
     save_graphs self
       (reset_index_drop
          (mkDF idx [("index_performance"%string, FloatCol xs);
                     ("portfolio_return"%string, FloatCol ys)])) ;;
   ret (all_returns_df, lst, self)) w =
  Done (mkDF (RangeIndex (List.length idx))
          [("index_performance"%string, FloatCol xs);
           ("portfolio_return"%string, FloatCol ys);
           ("alpha"%string,
            FloatCol (map (fun yx => PrimFloat.sub (fst yx) (snd yx)) (combine ys xs)))],
        lst, self)
       (with_files w (campaign_files self)).
Proof.
  unfold reset_index_drop. cbn [index columns].
  unfold save_df, save_list, save_graphs, write_file, mbind, lift, ret.
  cbn [getitem lookup find columns fst snd String.eqb Ascii.eqb Bool.eqb andb
       option_map bind series_binop s_values s_index index requests draws stdout written].
  rewrite setitem_same_index.
  cbn [existsb fst String.eqb Ascii.eqb Bool.eqb andb orb app].
  unfold with_files, campaign_files.
  cbn [requests draws stdout written].
  repeat rewrite <- app_assoc. cbn [app]. reflexivity.
Qed.

Lemma trials_loop_inv (env : Env) (fuel : nat) (years : Z) (m : nat) :
  forall (b : Z) (idx : list label) (xs ys : list float) (lst : list results_dict)
         (self : self_) (w : World)
         (r : option DataFrame) (lst' : list results_dict) (self' : self_) (w' : World),
    0 < b ->
    trials_loop env fuel years m b
      (Some (mkDF idx [("index_performance"%string, FloatCol xs);
                       ("portfolio_return"%string, FloatCol ys)]))
      lst self w = Done (r, lst', self') w' ->
    exists ps ds,
      trials env fuel years m self w ps ds self' w' /\
      r = Some (mkDF (idx ++ repeat (LInt 0) m)
                  [("index_performance"%string, FloatCol (xs ++ map fst ps));
                   ("portfolio_return"%string, FloatCol (ys ++ map snd ps))]) /\
      lst' = lst ++ ds.
Proof.
  induction m as [|m IH]; intros b idx xs ys lst self w r lst' self' w' Hb H.
  - cbn [trials_loop] in H. unfold ret in H. injection H as <- <- <- <-.
    exists [], []. split; [constructor|]. cbn [repeat map]. now rewrite !app_nil_r.
  - cbn [trials_loop] in H.
    apply mbind_done in H. destruct H as ([[rdf d] self1] & w1 & Hrun & H).
    destruct (run_back_testing_returns_pair _ _ _ _ _ _ _ _ _ Hrun) as (x & y & ->).
    replace (b =? 0) with false in H by (symmetry; apply Z.eqb_neq; lia).
    apply mbind_done in H. destruct H as (df' & w2 & Ha & H).
    apply lift_done in Ha. destruct Ha as [Ha ->].
    rewrite append_pair in Ha. injection Ha as <-.
    apply IH in H; [|lia]. destruct H as (ps & ds & T & -> & ->).
    exists ((x, y) :: ps), (d :: ds). split; [econstructor; eassumption|].
    cbn [repeat map fst snd]. rewrite <- !app_assoc. now split.
Qed.

Lemma campaign_inv (env : Env) (fuel : nat) (self self' : self_)
  (num_backtesting years : Z) (w w' : World) (df : DataFrame)
  (ds : list results_dict) :
  run_multiple_backtesting env fuel self num_backtesting years w =
    Done (df, ds, self') w' ->
  1 <= num_backtesting /\
  exists ps w1,
    trials env fuel years (Z.to_nat num_backtesting) self (printed w MsgRunning)
           ps ds self' w1 /\
    df = summary_frame ps /\
    w' = with_files w1 (campaign_files self').
Proof.
  unfold run_multiple_backtesting. intros H.
  apply mbind_done in H. destruct H as ([] & w0 & Hp & H).
  unfold print in Hp. injection Hp as <-. fold (printed w MsgRunning) in H.
  apply mbind_done in H. destruct H as ([[r lst] selfL] & wL & HL & H).
  destruct (Z.to_nat num_backtesting) as [|m] eqn:En.
  - cbn [trials_loop] in HL. unfold ret in HL. injection HL as <- <- <- <-.
    discriminate H.
  - split; [lia|]. cbn [trials_loop] in HL.
    apply mbind_done in HL. destruct HL as ([[rdf d] self1] & w1 & Hrun & HL).
    destruct (run_back_testing_returns_pair _ _ _ _ _ _ _ _ _ Hrun) as (x & y & ->).
    cbn [Z.eqb] in HL. change (0 + 1) with 1 in HL. unfold pair_frame in HL.
    apply trials_loop_inv in HL; [|lia]. destruct HL as (ps & ds' & T & -> & ->).
    rewrite campaign_tail in H. injection H as <- <- <- <-.
    exists ((x, y) :: ps), wL. split; [econstructor; eassumption|].
    split; [|reflexivity].
    unfold summary_frame. cbn [app List.length map fst snd].
    rewrite repeat_length.
    destruct (trials_length _ _ _ _ _ _ _ _ _ _ T) as [Lp _].
    rewrite Lp. now rewrite (combine_map_snd_fst PrimFloat.sub).
Qed.

(** a campaign over an investment period of no years does not return,
    however many trials it is asked for *)
Lemma campaign_no_years (env : Env) (fuel : nat) (self : self_)
  (num_backtesting : Z) (w : World) :
  returned (run_multiple_backtesting env fuel self num_backtesting 0 w) = false.
Proof.
  destruct (run_multiple_backtesting env fuel self num_backtesting 0 w)
    as [[[df ds] self'] w'|e w'|w'] eqn:E; [|reflexivity..].
  exfalso.
  destruct (campaign_inv _ _ _ _ _ _ _ _ _ _ E) as (Hn & ps & w1 & T & _).
  destruct (Z.to_nat num_backtesting) as [|n] eqn:En; [lia|].
  inversion T as [|n0 s0 s1 s2 w0 wa wb x y d ps' ds' Hrun T']; subst.
  exact (run_back_testing_no_years _ _ _ _ _ _ _ _ Hrun).
Qed.

(** C8 as stated fails: a campaign of one trial or more need not produce a
    summary.  Over an investment period of no years the first trial raises
    IndexError once its prices have come, and the campaign with it; no
    provider makes such a campaign return.  Over three years, with a
    provider whose answers break in the second of three trials, the
    campaign raises in that trial.  No file is written in either case. *)
Lemma campaign_without_summary :
  (1 <= 1 /\
   run_multiple_backtesting demo_env 1 demo_self 1 0 world0 =
     Fail IndexError (mkWorld 2 1 [MsgRunning] [])) /\
  (forall env fuel self num_backtesting w,
     returned (run_multiple_backtesting env fuel self num_backtesting 0 w) = false) /\
  (1 <= 3 /\
   run_multiple_backtesting breaking_env 1 demo_self 3 3 world0 =
     Fail ValueError (mkWorld 5 2 [MsgRunning] [])).
Proof.
  split; [split; [lia | vm_compute; reflexivity]|].
  split; [exact campaign_no_years|].
  split; [lia | vm_compute; reflexivity].
Qed.

Lemma trials_effects (env : Env) (fuel : nat) (years : Z) (n : nat)
  (self self' : self_) (w w' : World)
  (ps : list (float * float)) (ds : list results_dict) :
  trials env fuel years n self w ps ds self' w' ->
  written w' = written w /\
  draws w' = (draws w + n)%nat /\ (requests w + 4 * n <= requests w')%nat /\
  index_ric self' = index_ric self /\ start_date self' = start_date self /\
  num_assets self' = num_assets self /\ base_path self' = base_path self /\
  Forall (window_of (start_date self) years) ds.
Proof.
  induction 1 as [self w | n self self1 self2 w w1 w2 x y d ps ds Hrun _ IH].
  - repeat split; try lia. constructor.
  - destruct IH as (W & D & R & K1 & K2 & K3 & K4 & F).
    pose proof (quiet_run_back_testing env fuel self years w) as Q.
    rewrite Hrun in Q. destruct Q as (Wq & _ & _).
    destruct (run_back_testing_counts _ _ _ _ _ _ _ _ _ Hrun) as [Dc Rc].
    destruct (run_back_testing_keeps _ _ _ _ _ _ _ _ _ Hrun) as (J1 & J2 & J3 & J4).
    pose proof (run_back_testing_window _ _ _ _ _ _ _ _ _ Hrun) as Wd.
    repeat split; try congruence; try lia.
    constructor; [exact Wd|]. now rewrite <- J2.
Qed.

(** X24: [run_multiple_backtesting] returns only when every one of its
    [num_backtesting >= 1] trials has returned; it has then drawn one random
    number and sent at least four requests for each trial, and it has
    written its seven result files, after the last trial and not before. *)
Theorem campaign_returns_after_all_trials
  (env : Env) (fuel : nat) (self self' : self_) (num_backtesting years : Z)
  (w w' : World) (df : DataFrame) (ds : list results_dict) :
  run_multiple_backtesting env fuel self num_backtesting years w =
    Done (df, ds, self') w' ->
  1 <= num_backtesting /\
  (exists ps w1,
     trials env fuel years (Z.to_nat num_backtesting) self (printed w MsgRunning)
            ps ds self' w1 /\
     df = summary_frame ps /\
     written w1 = written w) /\
  List.length ds = Z.to_nat num_backtesting /\
  draws w' = (draws w + Z.to_nat num_backtesting)%nat /\
  (requests w + 4 * Z.to_nat num_backtesting <= requests w')%nat /\
  written w' = written w ++ campaign_files self.
Proof.
  intros H. destruct (campaign_inv _ _ _ _ _ _ _ _ _ _ H) as (Hn & ps & w1 & T & -> & ->).
  destruct (trials_effects _ _ _ _ _ _ _ _ _ _ T)
    as (W & D & R & K1 & _ & _ & K4 & _).
  destruct (trials_length _ _ _ _ _ _ _ _ _ _ T) as [_ Ld].
  cbn [printed written draws requests] in W, D, R.
  split; [exact Hn|]. split; [exists ps, w1; now repeat split|].
  unfold with_files, campaign_files. cbn [written draws requests].
  rewrite K1, K4, W. now repeat split.
Qed.

Lemma campaign_returns_after_all_trials_witness :
  exists (df : DataFrame) (ds : list results_dict) (self' : self_) (w' : World),
    run_multiple_backtesting demo_env 1 demo_self 3 3 world0 = Done (df, ds, self') w' /\
    1 <= 3 /\
    (exists ps w1,
       trials demo_env 1 3 (Z.to_nat 3) demo_self (printed world0 MsgRunning)
              ps ds self' w1 /\
       df = summary_frame ps /\
       written w1 = written world0) /\
    List.length ds = Z.to_nat 3 /\
    draws w' = (draws world0 + Z.to_nat 3)%nat /\
    (requests world0 + 4 * Z.to_nat 3 <= requests w')%nat /\
    written w' = written world0 ++ campaign_files demo_self.
Proof.
  do 4 eexists.
  assert (forall P Q : Prop, P -> (P -> Q) -> P /\ Q) as cut by tauto.
  apply cut.
  - vm_compute. reflexivity.
  - intros E. exact (campaign_returns_after_all_trials _ _ _ _ _ _ _ _ _ _ E).
Defined.

(** X25: asked for no trial (or for a negative number of them), the
    campaign prints its banner and raises UnboundLocalError: the frame of
    returns was never assigned; nothing is requested, drawn or written. *)
Theorem campaign_of_no_trial
  (env : Env) (fuel : nat) (self : self_) (num_backtesting years : Z) (w : World) :
  num_backtesting <= 0 ->
  run_multiple_backtesting env fuel self num_backtesting years w =
  Fail UnboundLocalError (printed w MsgRunning).
Proof.
  intros H. unfold run_multiple_backtesting, mbind at 1, print.
  fold (printed w MsgRunning).
  replace (Z.to_nat num_backtesting) with O by lia.
  reflexivity.
Qed.

Lemma campaign_of_no_trial_witness :
  run_multiple_backtesting demo_env 1 demo_self 0 3 world0 =
  Fail UnboundLocalError (printed world0 MsgRunning).
Proof.
  apply (campaign_of_no_trial demo_env 1 demo_self 0 3 world0). lia.
Defined.

(** the passes of the loop after the first one, when [m] more follow the
    [j] that returned *)
Lemma trials_loop_prefix (env : Env) (fuel : nat) (years : Z) (j : nat)
  (self selfj : self_) (w wj : World)
  (ps : list (float * float)) (ds : list results_dict) :
  trials env fuel years j self w ps ds selfj wj ->
  forall (m : nat) (b : Z) (idx : list label) (xs ys : list float)
         (lst : list results_dict),
    0 < b ->
    trials_loop env fuel years (j + m) b
      (Some (mkDF idx [("index_performance"%string, FloatCol xs);
                       ("portfolio_return"%string, FloatCol ys)]))
      lst self w =
    trials_loop env fuel years m (b + Z.of_nat j)
      (Some (mkDF (idx ++ repeat (LInt 0) j)
               [("index_performance"%string, FloatCol (xs ++ map fst ps));
                ("portfolio_return"%string, FloatCol (ys ++ map snd ps))]))
      (lst ++ ds) selfj wj.
Proof.
  induction 1 as [self w | n self self1 self2 w w1 w2 x y d ps ds Hrun _ IH];
    intros m b idx xs ys lst Hb.
  - cbn [Nat.add repeat map]. rewrite !app_nil_r, Z.add_0_r. reflexivity.
  - cbn [Nat.add trials_loop]. unfold mbind at 1. rewrite Hrun.
    replace (b =? 0) with false by (symmetry; apply Z.eqb_neq; lia).
    unfold mbind at 1, lift. rewrite append_pair.
    rewrite (IH m (b + 1) _ _ _ _ ltac:(lia)).
    cbn [repeat map fst snd]. rewrite <- !app_assoc. cbn [app].
    replace (b + 1 + Z.of_nat n) with (b + Z.of_nat (S n)) by lia. reflexivity.
Qed.

Lemma trials_loop_fails (env : Env) (fuel : nat) (years : Z) (m : nat) (b : Z)
  (r : option DataFrame) (lst : list results_dict) (self : self_) (w w' : World)
  (e : exn) :
  run_back_testing env fuel self years w = Fail e w' ->
  trials_loop env fuel years (S m) b r lst self w = Fail e w'.
Proof. intros H. cbn [trials_loop]. unfold mbind. now rewrite H. Qed.

(** X26: when a trial raises, the campaign raises the same exception at
    once and has written no file: what the trials before it returned is
    not saved. *)
Theorem campaign_stops_at_first_failure
  (env : Env) (fuel : nat) (self selfj : self_) (num_backtesting years : Z)
  (w wj w' : World) (j : nat)
  (ps : list (float * float)) (ds : list results_dict) (e : exn) :
  (j < Z.to_nat num_backtesting)%nat ->
  trials env fuel years j self (printed w MsgRunning) ps ds selfj wj ->
  run_back_testing env fuel selfj years wj = Fail e w' ->
  run_multiple_backtesting env fuel self num_backtesting years w = Fail e w' /\
  written w' = written w.
Proof.
  intros Hj T F. split.
  - unfold run_multiple_backtesting, mbind at 1, print.
    fold (printed w MsgRunning).
    replace (Z.to_nat num_backtesting) with (j + S (Z.to_nat num_backtesting - S j))%nat
      by lia.
    set (m := (Z.to_nat num_backtesting - S j)%nat).
    inversion T as [s0 w0 | n s0 s1 s2 w0 w1 w2 x y d ps' ds' Hrun T']; subst.
    + cbn [Nat.add]. unfold mbind at 1.
      now rewrite (trials_loop_fails _ _ _ _ _ _ _ _ _ _ _ F).
    + cbn [Nat.add trials_loop]. unfold mbind at 1, mbind at 1. rewrite Hrun.
      cbn [Z.eqb]. unfold pair_frame.
      rewrite (trials_loop_prefix _ _ _ _ _ _ _ _ _ _ T' (S m) (0 + 1) [LInt 0] [x] [y] [d]
                 ltac:(lia)).
      now rewrite (trials_loop_fails _ _ _ _ _ _ _ _ _ _ _ F).
  - destruct (trials_effects _ _ _ _ _ _ _ _ _ _ T) as (W & _).
    pose proof (quiet_run_back_testing env fuel selfj years wj) as Q.
    rewrite F in Q. destruct Q as (Wq & _). cbn [printed written] in W. congruence.
Qed.

Lemma campaign_stops_at_first_failure_witness :
  exists (ps : list (float * float)) (ds : list results_dict)
         (selfj : self_) (wj w' : World),
    (1 < Z.to_nat 3)%nat /\
    trials breaking_env 1 3 1 demo_self (printed world0 MsgRunning) ps ds selfj wj /\
    run_back_testing breaking_env 1 selfj 3 wj = Fail ValueError w' /\
    run_multiple_backtesting breaking_env 1 demo_self 3 3 world0 = Fail ValueError w' /\
    written w' = written world0.
Proof.
  do 5 eexists. split; [cbn; lia|].
  assert (forall P Q R : Prop, P -> (P -> Q) -> (P -> Q -> R) -> P /\ Q /\ R) as cut
    by tauto.
  apply cut.
  - eapply trials_next; [vm_compute; reflexivity | apply trials_done].
  - intros _. vm_compute. reflexivity.
  - intros T F.
    exact (campaign_stops_at_first_failure breaking_env 1 demo_self _ 3 3
             world0 _ _ 1 _ _ ValueError ltac:(cbn; lia) T F).
Defined.

Lemma window_of_script (d : results_dict) :
  window_of Script.start_date 3 d -> script_record d.
Proof.
  intros (R & upper & s & e & HR & HU & Es & Ee & Vs & L1 & L2 & Ve & -> & Ip).
  assert (R = mkdate 2016 1 1) as -> by (vm_compute in HR; congruence).
  assert (upper = mkdate 2016 7 1) as -> by (vm_compute in HU; congruence).
  exists s, (mkdate (year s + 3) (month s)
               (if (month s =? 2) && (day s =? 29) && negb (is_leap (year s + 3))
                then 28 else day s)).
  assert (year s = 2016) as Ey.
  { unfold leb, ltb in L1, L2. cbn [year month day] in L1, L2.
    apply negb_true_iff in L1.
    destruct (Z.ltb_spec (year s) 2016) as [A|A]; [discriminate L1|].
    destruct (Z.ltb_spec (year s) 2016) as [B|B]; [lia|].
    destruct (Z.eqb_spec (year s) 2016) as [C|C]; [exact C|].
    cbn [orb andb] in L2. discriminate L2. }
  repeat split; try assumption.
  rewrite Ey. change (is_leap (2016 + 3)) with false. cbn [negb].
  now rewrite andb_true_r.
Qed.

(** X27: if the run of the script backtesting.py returns, it has made a
    hundred trials; each of them started on a day of the first half of 2016
    and ended three years later, in 2019; a hundred random numbers were
    drawn, at least four hundred requests sent, and the seven result files
    written under backtesting/SPX/results/. *)
Theorem script_run
  (env : Env) (fuel : nat) (w w' : World)
  (df : DataFrame) (ds : list results_dict) (self' : self_) :
  Script.main env fuel w = Done (df, ds, self') w' ->
  List.length ds = 100%nat /\
  index df = RangeIndex 100 /\
  Forall script_record ds /\
  draws w' = (draws w + 100)%nat /\
  (requests w + 400 <= requests w')%nat /\
  written w' =
    written w ++
    ["backtesting/SPX/results/pkl/all_returns.pkl";
     "backtesting/SPX/results/csv/all_returns.csv";
     "backtesting/SPX/results/xlsx/all_returns.xlsx";
     "backtesting/SPX/results/results_list";
     "backtesting/SPX/results/scatter.png";
     "backtesting/SPX/results/scatter_no_alpha.png";
     "backtesting/SPX/results/box.png"]%string.
Proof.
  unfold Script.main. cbv zeta. intros H.
  destruct (campaign_inv _ _ _ _ _ _ _ _ _ _ H) as (_ & ps & w1 & T & -> & ->).
  destruct (trials_effects _ _ _ _ _ _ _ _ _ _ T)
    as (W & D & R & K1 & _ & _ & K4 & F).
  destruct (trials_length _ _ _ _ _ _ _ _ _ _ T) as [Lp Ld].
  cbn [printed written draws requests] in W, D, R.
  change (Z.to_nat Script.num_backtesting) with 100%nat in *.
  split; [exact Ld|].
  split; [cbn [summary_frame index]; now rewrite Lp|].
  split.
  - apply (Forall_impl _ window_of_script). exact F.
  - unfold with_files, campaign_files. cbn [written draws requests].
    rewrite K1, K4, W. repeat split; [exact D | lia].
Qed.

Lemma script_run_witness :
  exists (df : DataFrame) (ds : list results_dict) (self' : self_) (w' : World),
    Script.main demo_env 1 world0 = Done (df, ds, self') w' /\
    List.length ds = 100%nat /\
    index df = RangeIndex 100 /\
    Forall script_record ds /\
    draws w' = (draws world0 + 100)%nat /\
    (requests world0 + 400 <= requests w')%nat /\
    written w' =
      written world0 ++
      ["backtesting/SPX/results/pkl/all_returns.pkl";
       "backtesting/SPX/results/csv/all_returns.csv";
       "backtesting/SPX/results/xlsx/all_returns.xlsx";
       "backtesting/SPX/results/results_list";
       "backtesting/SPX/results/scatter.png";
       "backtesting/SPX/results/scatter_no_alpha.png";
       "backtesting/SPX/results/box.png"]%string.
Proof.
  do 4 eexists.
  assert (forall P Q : Prop, P -> (P -> Q) -> P /\ Q) as cut by tauto.
  apply cut.
  - vm_compute. reflexivity.
  - intros E. exact (script_run _ _ _ _ _ _ _ E).
Defined.

Lemma quiet_trials_loop (env : Env) (fuel : nat) (years : Z) (n : nat) :
  forall (b : Z) (r : option DataFrame) (lst : list results_dict) (self : self_),
    quiet (trials_loop env fuel years n b r lst self).
Proof.
  induction n as [|n IH]; intros b r lst self; cbn [trials_loop].
  - apply quiet_ret.
  - apply quiet_mbind; [apply quiet_run_back_testing|].
    intros [[rdf d] self1]. destruct (b =? 0); [apply IH|].
    destruct r as [df|]; [|apply quiet_lift].
    apply quiet_mbind; [apply quiet_lift|]. intros df'. apply IH.
Qed.

(** what the loop of the campaign returns, when it returns *)
Lemma trials_loop_top_inv (env : Env) (fuel : nat) (years : Z) (n : nat)
  (self selfL : self_) (w wL : World) (r : option DataFrame)
  (lst : list results_dict) :
  trials_loop env fuel years n 0 None [] self w = Done (r, lst, selfL) wL ->
  (n = O /\ r = None) \/
  (exists ps,
     trials env fuel years n self w ps lst selfL wL /\
     r = Some (mkDF (repeat (LInt 0) n)
                 [("index_performance"%string, FloatCol (map fst ps));
                  ("portfolio_return"%string, FloatCol (map snd ps))])).
Proof.
  destruct n as [|m]; cbn [trials_loop]; intros H.
  - unfold ret in H. injection H as <- <- <- <-. now left.
  - right.
    apply mbind_done in H. destruct H as ([[rdf d] self1] & w1 & Hrun & H).
    destruct (run_back_testing_returns_pair _ _ _ _ _ _ _ _ _ Hrun) as (x & y & ->).
    cbn [Z.eqb] in H. change (0 + 1) with 1 in H. unfold pair_frame in H.
    apply trials_loop_inv in H; [|lia]. destruct H as (ps & ds' & T & -> & ->).
    exists ((x, y) :: ps). split; [econstructor; eassumption | reflexivity].
Qed.

(** X28: the campaign writes no file before its last trial has returned:
    it has written its seven files when it returns, and none when it
    raises (in a trial, or for want of one) or is still waiting for the
    provider. *)
Theorem campaign_writes_all_or_nothing
  (env : Env) (fuel : nat) (self : self_) (num_backtesting years : Z) (w : World) :
  match run_multiple_backtesting env fuel self num_backtesting years w with
  | Done _ w' => written w' = written w ++ campaign_files self
  | Fail _ w' | Running w' => written w' = written w
  end.
Proof.
  unfold run_multiple_backtesting, mbind at 1, print.
  fold (printed w MsgRunning). unfold mbind at 1.
  pose proof (quiet_trials_loop env fuel years (Z.to_nat num_backtesting) 0 None []
                self (printed w MsgRunning)) as Q.
  destruct (trials_loop env fuel years (Z.to_nat num_backtesting) 0 None [] self
              (printed w MsgRunning)) as [[[r lst] selfL] wL|e wL|wL] eqn:E;
    [|exact (proj1 Q)..].
  destruct Q as (W & _). cbn [printed written] in W.
  destruct (trials_loop_top_inv _ _ _ _ _ _ _ _ _ _ E) as [[_ ->]|(ps & T & ->)].
  - exact W.
  - rewrite campaign_tail.
    destruct (trials_effects _ _ _ _ _ _ _ _ _ _ T) as (_ & _ & _ & K1 & _ & _ & K4 & _).
    unfold with_files, campaign_files. cbn [written]. now rewrite K1, K4, W.
Qed.

(** ** Pictures and paths *)

Lemma lookup_replaced (cols : list (string * column)) (name name' : string)
  (c : column) :
  name' <> name ->
  find (fun nc => String.eqb (fst nc) name')
       (map (fun nc => if String.eqb (fst nc) name then (fst nc, c) else nc) cols) =
  find (fun nc => String.eqb (fst nc) name') cols.
Proof.
  intros N. induction cols as [|[n x] cols IH]; [reflexivity|].
  cbn [map find fst]. destruct (String.eqb_spec n name) as [->|Ne]; cbn [fst].
  - replace (String.eqb name name') with false
      by (symmetry; apply String.eqb_neq; congruence). exact IH.
  - destruct (String.eqb n name'); [reflexivity | exact IH].
Qed.

Lemma lookup_appended (cols : list (string * column)) (name name' : string)
  (c : column) :
  name' <> name ->
  find (fun nc => String.eqb (fst nc) name') (cols ++ [(name, c)]) =
  find (fun nc => String.eqb (fst nc) name') cols.
Proof.
  intros N. induction cols as [|[n x] cols IH].
  - cbn. replace (String.eqb name name') with false
      by (symmetry; apply String.eqb_neq; congruence). reflexivity.
  - cbn [app find fst]. destruct (String.eqb n name'); [reflexivity | exact IH].
Qed.

Lemma replace_absent (cols : list (string * column)) (name : string) (c : column) :
  existsb (fun nc => String.eqb (fst nc) name) cols = false ->
  map (fun nc => if String.eqb (fst nc) name then (fst nc, c) else nc) cols = cols /\
  find (fun nc => String.eqb (fst nc) name) cols = None.
Proof.
  induction cols as [|[n x] cols IH]; [now split|].
  cbn [existsb map find fst]. intros H. apply orb_false_iff in H. destruct H as [H1 H2].
  rewrite H1. destruct (IH H2) as [-> ->]. now split.
Qed.

Lemma replace_twice (cols : list (string * column)) (name : string) (c : column) :
  map (fun nc => if String.eqb (fst nc) name then (fst nc, c) else nc)
      (map (fun nc => if String.eqb (fst nc) name then (fst nc, c) else nc) cols) =
  map (fun nc => if String.eqb (fst nc) name then (fst nc, c) else nc) cols /\
  existsb (fun nc => String.eqb (fst nc) name)
          (map (fun nc => if String.eqb (fst nc) name then (fst nc, c) else nc) cols) =
  existsb (fun nc => String.eqb (fst nc) name) cols /\
  (existsb (fun nc => String.eqb (fst nc) name) cols = true ->
   option_map snd
     (find (fun nc => String.eqb (fst nc) name)
           (map (fun nc => if String.eqb (fst nc) name then (fst nc, c) else nc) cols))
   = Some c).
Proof.
  induction cols as [|[n x] cols (IH1 & IH2 & IH3)]; [repeat split; discriminate|].
  cbn [map existsb find fst].
  destruct (String.eqb n name) eqn:E; cbn [fst]; rewrite E; cbn [option_map snd orb].
  - rewrite ?IH1, ?IH2. repeat split.
  - rewrite ?IH1, ?IH2. repeat split. exact IH3.
Qed.

(** X29: [save_graphs] gives the frame the column alpha, the portfolio
    return minus the index performance row by row, and saves three
    pictures; run again on the frame it returned, it leaves the frame as
    it is. *)
Theorem save_graphs_twice
  (self : self_) (df df1 : DataFrame) (w w1 : World) :
  save_graphs self df w = Done df1 w1 ->
  written w1 = written w ++ graph_files self /\
  (exists ys xs,
     lookup df "portfolio_return" = Some (FloatCol ys) /\
     lookup df "index_performance" = Some (FloatCol xs) /\
     lookup df1 "alpha" =
       Some (FloatCol (map (fun yx => PrimFloat.sub (fst yx) (snd yx))
                           (combine ys xs)))) /\
  save_graphs self df1 w1 = Done df1 (with_files w1 (graph_files self)).
Proof.
  destruct df as [idx cols]. unfold save_graphs, getitem, lookup. cbn [columns index].
  destruct (find _ cols) as [[np cp]|] eqn:Fp; cbn [option_map bind snd];
    [|discriminate].
  destruct (find (fun nc => String.eqb (fst nc) "index_performance") cols)
    as [[ni ci]|] eqn:Fi; cbn [option_map bind snd]; [|discriminate].
  unfold series_binop. cbn [s_values s_index].
  destruct cp as [ys|]; [|discriminate]. destruct ci as [xs|]; [|discriminate].
  cbn [bind]. rewrite setitem_same_index.
  set (c := FloatCol _).
  destruct (replace_twice cols "alpha" c) as (R1 & R2 & R3).
  destruct (existsb _ cols) eqn:Ex; unfold mbind, lift, write_file, ret; cbn [fst snd];
    intros H; injection H as <- <-; cbn [columns index written requests draws stdout].
  - split; [unfold graph_files; now rewrite <- !app_assoc|].
    split; [exists ys, xs; repeat split; now apply R3|].
    rewrite !lookup_replaced by discriminate. rewrite Fp, Fi.
    cbn [option_map bind snd s_values s_index]. fold c.
    rewrite setitem_same_index, R2, R1.
    unfold with_files, graph_files. cbn [written requests draws stdout].
    now rewrite <- !app_assoc.
  - destruct (replace_absent cols "alpha" c Ex) as [A1 A2].
    split; [unfold graph_files; now rewrite <- !app_assoc|].
    split.
    { exists ys, xs. repeat split.
      clear - A2. induction cols as [|[n x] cols IH]; [reflexivity|].
      cbn [app find fst] in *. destruct (String.eqb n "alpha"); [discriminate A2|].
      now apply IH. }
    rewrite !lookup_appended by discriminate. rewrite Fp, Fi.
    cbn [option_map bind snd s_values s_index]. fold c.
    rewrite setitem_same_index.
    rewrite existsb_app. cbn [existsb fst String.eqb Ascii.eqb Bool.eqb andb orb].
    rewrite orb_true_r. rewrite map_app, A1.
    cbn [map fst String.eqb Ascii.eqb Bool.eqb andb].
    unfold with_files, graph_files. cbn [written requests draws stdout].
    now rewrite <- !app_assoc.
Qed.

Lemma save_graphs_twice_witness :
  exists (df1 : DataFrame) (w1 : World),
    save_graphs demo_self (pair_frame 1 3) world0 = Done df1 w1 /\
    written w1 = written world0 ++ graph_files demo_self /\
    (exists ys xs,
       lookup (pair_frame 1 3) "portfolio_return" = Some (FloatCol ys) /\
       lookup (pair_frame 1 3) "index_performance" = Some (FloatCol xs) /\
       lookup df1 "alpha" =
         Some (FloatCol (map (fun yx => PrimFloat.sub (fst yx) (snd yx))
                             (combine ys xs)))) /\
    save_graphs demo_self df1 w1 = Done df1 (with_files w1 (graph_files demo_self)).
Proof.
  do 2 eexists.
  assert (forall P Q : Prop, P -> (P -> Q) -> P /\ Q) as cut by tauto.
  apply cut.
  - vm_compute. reflexivity.
  - intros E. exact (save_graphs_twice _ _ _ _ _ E).
Defined.

Lemma string_app_assoc (a b c : string) :
  ((a ++ b) ++ c = a ++ (b ++ c))%string.
Proof. induction a as [|x a IH]; [reflexivity|]. cbn. now rewrite IH. Qed.

Lemma string_app_cancel (a b c : string) :
  (a ++ b = a ++ c)%string -> b = c.
Proof.
  induction a as [|x a IH]; [trivial|]. cbn. intros H. injection H as H. now apply IH.
Qed.

(** X30: the table of scores is read from a file that the program never
    writes: its path differs from the path of every file that [get_index]
    and the campaign save. *)
Theorem scores_file_is_not_written (self : self_) :
  Forall (fun path => String.eqb path (results_path self) = false)
         (index_files self ++ campaign_files self).
Proof.
  apply Forall_forall. intros path H. apply String.eqb_neq. intros ->.
  revert H. unfold results_path, index_files, campaign_files. cbv zeta.
  set (b := base_path self). set (r := drop_first (index_ric self)).
  intros H. apply in_app_or in H.
  cbn [In] in H.
  repeat rewrite string_app_assoc in H.
  decompose [or] H; clear H;
    repeat match goal with
    | H : False |- _ => destruct H
    | H : (?a ++ _ = ?a ++ _)%string |- _ => apply string_app_cancel in H
    end;
    match goal with
    | H : _ = _ |- _ => cbn in H; discriminate H
    end.
Qed.
